(** * JobFormAutoFiller: resume extraction and direct-answer resolution

  A shallow embedding of [resume_parser.py] (class [ResumeParser]) and of
  the two resolution functions of [ai_expansion.py] (class [AIExpansion]),
  with the properties of the specification proved about them.

  Character model.  A Python [str] is modelled by [string], one [ascii]
  per character.  The classification functions ([isspace], [isdigit],
  [lower], the regex classes \d, \w and \s) are those of the ASCII range;
  codes above 127 are inert symbols (no case, no digit, no blank).

  Dictionaries.  A [Dict[str, str]] built by the parser is an association
  list in insertion order ([pydict]): [json.dump] iterates a dict in that
  order, so the order is part of the persisted text.  Assignment
  [d[k] = v] keeps the position of a key that is already present.

  Libraries.  The functions of [re], [json] and [os.path] the program
  calls are modelled in the modules [Re], [Json] and by [splitext], for
  the patterns, values and paths the program gives them.  The document
  readers (PyPDF2, python-docx) and the success of [open] are parameters.
  Logging has no effect on any result and is left out.

  Exceptions.  A function that can raise returns [result A]: the
  exception on the left, the value on the right.

  The form layer.  The modules [Generation] and [Forms] embed the prompt,
  the model call and the fallback of [ai_expansion.py], and the question,
  the value and the field loop of [browser_automation/utils.py],
  [browser_automation/browser_automation.py] and
  [browser_automation/form_filler.py].  The page and the model service
  are the world: a call on them is a function from the world to a result
  and the next world ([io]); a call that raises returns the error on the
  left. *)

From Stdlib Require Import String Ascii List Bool Arith NArith Lia.
From Stdlib Require Import DecimalString.
Import ListNotations.
Open Scope string_scope.
Open Scope list_scope.

(* ================================================================== *)
(** * Python primitives used by the program *)
(* ================================================================== *)

Module Py.

(** Code-point comparison on characters. *)
Definition in_range (lo hi c : ascii) : bool :=
  (N_of_ascii lo <=? N_of_ascii c)%N && (N_of_ascii c <=? N_of_ascii hi)%N.

Definition newline : ascii := "010".

(** [str.isspace] on one character: \t \n \v \f \r, the separators
    0x1c-0x1f and the blank. *)
Definition isspace (c : ascii) : bool :=
  in_range "009" "013" c || in_range "028" "031" c || Ascii.eqb c " ".

(** [char.isdigit()]. *)
Definition isdigit (c : ascii) : bool := in_range "0" "9" c.

Definition isupper (c : ascii) : bool := in_range "A" "Z" c.
Definition islower (c : ascii) : bool := in_range "a" "z" c.

Definition lower_char (c : ascii) : ascii :=
  if isupper c then ascii_of_N (N_of_ascii c + 32) else c.

Definition upper_char (c : ascii) : ascii :=
  if islower c then ascii_of_N (N_of_ascii c - 32) else c.

(** [s.lower()]. *)
Fixpoint lower (s : string) : string :=
  match s with
  | EmptyString => EmptyString
  | String c s' => String (lower_char c) (lower s')
  end.

(** [needle in hay]. *)
Fixpoint contains (needle hay : string) : bool :=
  String.prefix needle hay ||
  match hay with
  | EmptyString => false
  | String _ hay' => contains needle hay'
  end.

(** [any(c.isdigit() for c in s)]. *)
Fixpoint any_digit (s : string) : bool :=
  match s with
  | EmptyString => false
  | String c s' => isdigit c || any_digit s'
  end.

(** [s.split(sep)] for a one-character separator: never the empty list. *)
Fixpoint split (sep : ascii) (s : string) : list string :=
  match s with
  | EmptyString => [EmptyString]
  | String c s' =>
      if Ascii.eqb c sep then EmptyString :: split sep s'
      else match split sep s' with
           | [] => [String c EmptyString]
           | w :: ws => String c w :: ws
           end
  end.

(** [re.split] on a pattern that is one character class [p]. *)
Fixpoint split_where (p : ascii -> bool) (s : string) : list string :=
  match s with
  | EmptyString => [EmptyString]
  | String c s' =>
      if p c then EmptyString :: split_where p s'
      else match split_where p s' with
           | [] => [String c EmptyString]
           | w :: ws => String c w :: ws
           end
  end.

Fixpoint lstrip (s : string) : string :=
  match s with
  | EmptyString => EmptyString
  | String c s' => if isspace c then lstrip s' else s
  end.

Fixpoint rstrip (s : string) : string :=
  match s with
  | EmptyString => EmptyString
  | String c s' =>
      match rstrip s' with
      | EmptyString => if isspace c then EmptyString else String c EmptyString
      | r => String c r
      end
  end.

(** [s.strip()]. *)
Definition strip (s : string) : string := rstrip (lstrip s).

(** [s.split()]: the maximal runs of non-blank characters. *)
Fixpoint words (s : string) : list string :=
  match s with
  | EmptyString => []
  | String c s' =>
      if isspace c then words s'
      else match s' with
           | EmptyString => [String c EmptyString]
           | String d _ =>
               if isspace d then String c EmptyString :: words s'
               else match words s' with
                    | [] => [String c EmptyString]
                    | w :: ws => String c w :: ws
                    end
           end
  end.

(** Truthiness of a [str]: [if s:]. *)
Definition nonempty (s : string) : bool :=
  match s with EmptyString => false | _ => true end.

(** [any(keyword in s for keyword in keywords)]. *)
Definition any_in (keywords : list string) (s : string) : bool :=
  existsb (fun keyword => contains keyword s) keywords.

(** A [dict] with [str] keys, in insertion order. *)
Definition pydict (V : Type) : Type := list (string * V).

(** [d.get(k)]. *)
Fixpoint dict_get {V} (k : string) (d : pydict V) : option V :=
  match d with
  | [] => None
  | (k', v) :: d' => if String.eqb k' k then Some v else dict_get k d'
  end.

(** [d.get(k, default)]. *)
Definition get_or {V} (d : pydict V) (k : string) (default : V) : V :=
  match dict_get k d with
  | Some v => v
  | None => default
  end.

(** [d[k] = v]. *)
Fixpoint dict_set {V} (k : string) (v : V) (d : pydict V) : pydict V :=
  match d with
  | [] => [(k, v)]
  | (k', v') :: d' =>
      if String.eqb k' k then (k', v) :: d' else (k', v') :: dict_set k v d'
  end.

(** [sep.join(l)]. *)
Definition join (sep : string) (l : list string) : string :=
  String.concat sep l.

End Py.

(* ================================================================== *)
(** * The fragment of [re] the program's patterns are written in *)
(* ================================================================== *)

Module Re.
Import Py.

(** One member of a bracket expression, or a class escape. *)
Inductive item : Type :=
| Chr (c : ascii)            (* a literal character *)
| Rng (lo hi : ascii)        (* lo-hi *)
| Digit                      (* \d *)
| Word                       (* \w *)
| Space.                     (* \s *)

Definition is_word (c : ascii) : bool :=
  in_range "a" "z" c || in_range "A" "Z" c || in_range "0" "9" c
  || Ascii.eqb c "_".

Definition item_has (it : item) (c : ascii) : bool :=
  match it with
  | Chr a => Ascii.eqb a c
  | Rng lo hi => in_range lo hi c
  | Digit => isdigit c
  | Word => is_word c
  | Space => isspace c
  end.

(** Membership in a class; under IGNORECASE a character also matches
    through its lower-case and upper-case forms. *)
Definition class_has (ignorecase : bool) (cls : list item) (c : ascii) : bool :=
  existsb (fun it =>
             item_has it c
             || (ignorecase
                 && (item_has it (lower_char c) || item_has it (upper_char c))))
          cls.

Definition chr_eq (ignorecase : bool) (a c : ascii) : bool :=
  Ascii.eqb a c || (ignorecase && Ascii.eqb (lower_char a) (lower_char c)).

(** Patterns.  Every quantifier of the program applies to one class. *)
Inductive regex : Type :=
| Text (t : string)                                (* literal characters *)
| Class (cls : list item)                          (* [...] , \d, \w, \s *)
| Rep (cls : list item) (lo : nat) (hi : option nat) (* greedy {lo,hi} *)
| Bound                                            (* \b *)
| Seq (r1 r2 : regex)
| Alt (r1 r2 : regex).                             (* r1|r2 *)

Definition plus (cls : list item) : regex := Rep cls 1 None.
Definition star (cls : list item) : regex := Rep cls 0 None.
Definition times (n : nat) (cls : list item) : regex := Rep cls n (Some n).
Definition at_least (n : nat) (cls : list item) : regex := Rep cls n None.

Declare Scope re_scope.
Delimit Scope re_scope with re.
Bind Scope re_scope with regex.
Infix ";;" := Seq (at level 61, right associativity) : re_scope.
Infix "<|>" := Alt (at level 62, right associativity) : re_scope.

Definition word_before (prev : option ascii) : bool :=
  match prev with Some c => is_word c | None => false end.

Definition word_after (s : string) : bool :=
  match s with String c _ => is_word c | EmptyString => false end.

(** A matcher reads the rest of the subject [s], knowing the character
    [prev] just before it, and hands the position it reaches to its
    continuation; the answer is the rest of the subject after the whole
    match.  Alternatives are tried left to right and repetitions longest
    first, as the backtracking engine of [re] does. *)
Definition cont : Type := option ascii -> string -> option string.

Fixpoint match_text (ignorecase : bool) (t : string) (prev : option ascii)
         (s : string) : option (option ascii * string) :=
  match t with
  | EmptyString => Some (prev, s)
  | String a t' =>
      match s with
      | String c s' =>
          if chr_eq ignorecase a c then match_text ignorecase t' (Some c) s'
          else None
      | EmptyString => None
      end
  end.

Definition may_repeat (hi : option nat) : bool :=
  match hi with Some 0 => false | _ => true end.

Fixpoint match_rep (ignorecase : bool) (cls : list item) (lo : nat)
         (hi : option nat) (prev : option ascii) (s : string) (k : cont)
  : option string :=
  let stop := if Nat.eqb lo 0 then k prev s else None in
  match s with
  | EmptyString => stop
  | String c s' =>
      if class_has ignorecase cls c && may_repeat hi then
        match match_rep ignorecase cls (pred lo) (option_map pred hi)
                        (Some c) s' k with
        | Some rest => Some rest
        | None => stop
        end
      else stop
  end.

Fixpoint rmatch (ignorecase : bool) (r : regex) (prev : option ascii)
         (s : string) (k : cont) : option string :=
  match r with
  | Text t =>
      match match_text ignorecase t prev s with
      | Some (p, s') => k p s'
      | None => None
      end
  | Class cls =>
      match s with
      | String c s' => if class_has ignorecase cls c then k (Some c) s' else None
      | EmptyString => None
      end
  | Rep cls lo hi => match_rep ignorecase cls lo hi prev s k
  | Bound => if xorb (word_before prev) (word_after s) then k prev s else None
  | Seq r1 r2 =>
      rmatch ignorecase r1 prev s (fun p s' => rmatch ignorecase r2 p s' k)
  | Alt r1 r2 =>
      match rmatch ignorecase r1 prev s k with
      | Some rest => Some rest
      | None => rmatch ignorecase r2 prev s k
      end
  end.

(** A match object: where the match starts and [m.group()]. *)
Record Match : Type := { start : nat; group : string }.

(** The match of [r] that begins exactly at the head of [s]. *)
Definition match_here (ignorecase : bool) (r : regex) (prev : option ascii)
           (s : string) : option string :=
  match rmatch ignorecase r prev s (fun _ rest => Some rest) with
  | Some rest => Some (String.substring 0 (String.length s - String.length rest) s)
  | None => None
  end.

Fixpoint search_from (ignorecase : bool) (r : regex) (pos : nat)
         (prev : option ascii) (s : string) : option Match :=
  match match_here ignorecase r prev s with
  | Some g => Some {| start := pos; group := g |}
  | None =>
      match s with
      | EmptyString => None
      | String c s' => search_from ignorecase r (S pos) (Some c) s'
      end
  end.

(** [re.search(pattern, s)] and [re.search(pattern, s, re.IGNORECASE)]:
    the leftmost match. *)
Definition search (r : regex) (s : string) (ignorecase : bool) : option Match :=
  search_from ignorecase r 0 None s.

Definition found (m : option Match) : bool :=
  match m with Some _ => true | None => false end.

End Re.

(* ================================================================== *)
(** * The [json] codec, for the values a resume document is made of *)
(* ================================================================== *)

Module Json.
Import Py.

(** The Python values [json.dump] is given: strings, lists and
    dictionaries with string keys. *)
#[warnings="-register-all"]
Inductive value : Type :=
| VStr (s : string)
| VList (items : list value)
| VDict (members : pydict value).

Definition quote : ascii := "034".
Definition backslash : ascii := "092".

(** ** Writing: [json.dumps(v, indent=2, ensure_ascii=False)] *)

Definition hex_digit (n : N) : ascii :=
  if (n <? 10)%N then ascii_of_N (48 + n) else ascii_of_N (87 + n).

(** The replacement of one character inside a string literal: the named
    escapes, \u00XX for the other control characters, and every other
    character as it is. *)
Definition escape_char (c : ascii) : string :=
  if Ascii.eqb c quote then String backslash (String quote EmptyString)
  else if Ascii.eqb c backslash
       then String backslash (String backslash EmptyString)
  else if Ascii.eqb c "010" then String backslash "n"
  else if Ascii.eqb c "013" then String backslash "r"
  else if Ascii.eqb c "009" then String backslash "t"
  else if Ascii.eqb c "008" then String backslash "b"
  else if Ascii.eqb c "012" then String backslash "f"
  else if (N_of_ascii c <? 32)%N then
    String backslash
      (String "u" (String "0" (String "0"
         (String (hex_digit (N_of_ascii c / 16))
            (String (hex_digit (N_of_ascii c mod 16)) EmptyString)))))
  else String c EmptyString.

Fixpoint escape (s : string) : string :=
  match s with
  | EmptyString => EmptyString
  | String c s' => (escape_char c ++ escape s')%string
  end.

Definition encode_str (s : string) : string :=
  String quote (escape s ++ String quote EmptyString).

Fixpoint spaces (n : nat) : string :=
  match n with
  | O => EmptyString
  | S n' => String " " (spaces n')
  end.

(** A line break and the indentation of nesting depth [level]. *)
Definition newline_indent (level : nat) : string :=
  String newline (spaces (2 * level)).

(** The text of [v] at nesting depth [level].  A non-empty container puts
    each item on a line of its own, one level deeper, with "," between
    items; an empty one is "[]" or "{}". *)
Fixpoint encode (level : nat) (v : value) : string :=
  match v with
  | VStr s => encode_str s
  | VList [] => "[]"
  | VList items =>
      ("[" ++ newline_indent (S level)
       ++ String.concat ("," ++ newline_indent (S level))
                        (map (encode (S level)) items)
       ++ newline_indent level ++ "]")%string
  | VDict [] => "{}"
  | VDict members =>
      ("{" ++ newline_indent (S level)
       ++ String.concat ("," ++ newline_indent (S level))
                        (map (fun '(key, item) =>
                                encode_str key ++ ": " ++ encode (S level) item)
                             members)
       ++ newline_indent level ++ "}")%string
  end.

Definition dumps (v : value) : string := encode 0 v.

(** ** Reading: [json.loads], on texts made of objects, arrays and
    strings *)

Definition is_ws (c : ascii) : bool :=
  Ascii.eqb c " " || Ascii.eqb c "009" || Ascii.eqb c "010"
  || Ascii.eqb c "013".

Fixpoint skip_ws (s : string) : string :=
  match s with
  | EmptyString => EmptyString
  | String c s' => if is_ws c then skip_ws s' else s
  end.

Definition hex_value (c : ascii) : option N :=
  if in_range "0" "9" c then Some (N_of_ascii c - 48)%N
  else if in_range "a" "f" c then Some (N_of_ascii c - 87)%N
  else if in_range "A" "F" c then Some (N_of_ascii c - 55)%N
  else None.

(** The character \uXXXX stands for; code points above 255 are outside
    the character model. *)
Definition unicode_escape (h1 h2 h3 h4 : ascii) : option ascii :=
  match hex_value h1, hex_value h2, hex_value h3, hex_value h4 with
  | Some a, Some b, Some c, Some d =>
      let code := (((a * 16 + b) * 16 + c) * 16 + d)%N in
      if (code <? 256)%N then Some (ascii_of_N code) else None
  | _, _, _, _ => None
  end.

(** The character a one-letter escape stands for. *)
Definition named_escape (e : ascii) : option ascii :=
  if Ascii.eqb e quote then Some quote
  else if Ascii.eqb e backslash then Some backslash
  else if Ascii.eqb e "/" then Some "/"%char
  else if Ascii.eqb e "b" then Some "008"%char
  else if Ascii.eqb e "f" then Some "012"%char
  else if Ascii.eqb e "n" then Some "010"%char
  else if Ascii.eqb e "r" then Some "013"%char
  else if Ascii.eqb e "t" then Some "009"%char
  else None.

Definition cons_char (c : ascii) (r : option (string * string))
  : option (string * string) :=
  match r with
  | Some (s, rest) => Some (String c s, rest)
  | None => None
  end.

(** The content of a string literal whose opening quote has been read,
    and the text after its closing quote.  A raw control character is
    refused. *)
Fixpoint scan_string (s : string) : option (string * string) :=
  match s with
  | EmptyString => None
  | String c s' =>
      if Ascii.eqb c quote then Some (EmptyString, s')
      else if Ascii.eqb c backslash then
        match s' with
        | EmptyString => None
        | String e s'' =>
            if Ascii.eqb e "u" then
              match s'' with
              | String h1 (String h2 (String h3 (String h4 s3))) =>
                  match unicode_escape h1 h2 h3 h4 with
                  | Some ch => cons_char ch (scan_string s3)
                  | None => None
                  end
              | _ => None
              end
            else
              match named_escape e with
              | Some ch => cons_char ch (scan_string s'')
              | None => None
              end
        end
      else if (N_of_ascii c <? 32)%N then None
      else cons_char c (scan_string s')
  end.

(** [dict(pairs)]: a key that comes again keeps its place and takes the
    later value. *)
Definition dict_of_pairs (pairs : list (string * value)) : pydict value :=
  fold_left (fun d kv => dict_set (fst kv) (snd kv) d) pairs [].

(** The value at the head of [s] and the text after it.  [fuel] bounds
    the number of nested calls. *)
Fixpoint parse_value (fuel : nat) (s : string) : option (value * string) :=
  match fuel with
  | O => None
  | S n =>
      match s with
      | EmptyString => None
      | String c s' =>
          if Ascii.eqb c quote then
            match scan_string s' with
            | Some (str, rest) => Some (VStr str, rest)
            | None => None
            end
          else if Ascii.eqb c "[" then
            match skip_ws s' with
            | EmptyString => None
            | String c1 rest as s1 =>
                if Ascii.eqb c1 "]" then Some (VList [], rest)
                else
                  match parse_items n s1 with
                  | Some (items, rest) => Some (VList items, rest)
                  | None => None
                  end
            end
          else if Ascii.eqb c "{" then
            match skip_ws s' with
            | EmptyString => None
            | String c1 s1 =>
                if Ascii.eqb c1 "}" then Some (VDict [], s1)
                else if Ascii.eqb c1 quote then
                  match parse_members n s1 with
                  | Some (pairs, rest) => Some (VDict (dict_of_pairs pairs), rest)
                  | None => None
                  end
                else None
            end
          else None
      end
  end

(** The items of an array after "[" and blanks, up to its "]". *)
with parse_items (fuel : nat) (s : string) : option (list value * string) :=
  match fuel with
  | O => None
  | S n =>
      match parse_value n s with
      | Some (item, s1) =>
          match skip_ws s1 with
          | EmptyString => None
          | String c s2 =>
              if Ascii.eqb c "," then
                match parse_items n (skip_ws s2) with
                | Some (items, rest) => Some (item :: items, rest)
                | None => None
                end
              else if Ascii.eqb c "]" then Some ([item], s2)
              else None
          end
      | None => None
      end
  end

(** The members of an object after the opening quote of a key, up to
    its "}". *)
with parse_members (fuel : nat) (s : string)
  : option (list (string * value) * string) :=
  match fuel with
  | O => None
  | S n =>
      match scan_string s with
      | Some (key, s1) =>
          match skip_ws s1 with
          | EmptyString => None
          | String c s2 =>
              if Ascii.eqb c ":" then
                match parse_value n (skip_ws s2) with
                | Some (item, s3) =>
                    match skip_ws s3 with
                    | EmptyString => None
                    | String c3 s4 =>
                        if Ascii.eqb c3 "," then
                          match skip_ws s4 with
                          | EmptyString => None
                          | String q s5 =>
                              if Ascii.eqb q quote then
                                match parse_members n s5 with
                                | Some (pairs, rest) =>
                                    Some ((key, item) :: pairs, rest)
                                | None => None
                                end
                              else None
                          end
                        else if Ascii.eqb c3 "}" then Some ([(key, item)], s4)
                        else None
                    end
                | None => None
                end
              else None
          end
      | None => None
      end
  end.

(** [json.loads(s)]: blanks, one value, blanks, end of text. *)
Definition loads (s : string) : option value :=
  match parse_value (String.length s) (skip_ws s) with
  | Some (v, rest) =>
      match skip_ws rest with
      | EmptyString => Some v
      | _ => None
      end
  | None => None
  end.

End Json.

(* ================================================================== *)
(** * The resume document *)
(* ================================================================== *)

(** The dictionary [resume_data]: each top-level key is either absent or
    holds a value of the type the parser gives it
    ([resume_data.get(key, default)] reads it). *)
Record ResumeDocument : Type := {
  personal_info : option (Py.pydict string);
  education : option (list (Py.pydict string));
  work_experience : option (list (Py.pydict string));
  skills : option (list string);
  projects : option (list (Py.pydict string));
  raw_text : option string
}.

(** Python exceptions that reach the caller of [parse_resume]. *)
Inductive exn : Type :=
| ValueError (msg : string)
| ReaderError (what : string)    (* raised inside PyPDF2 or python-docx *)
| OSError (what : string).       (* raised by [open] *)

Definition result (A : Type) : Type := (exn + A)%type.

(** The document as the Python object [json.dump] walks: a dictionary
    whose keys come in the order [_parse_text_to_structured_data] writes
    them. *)
Definition entry_value (entry : Py.pydict string) : Json.value :=
  Json.VDict (map (fun '(key, v) => (key, Json.VStr v)) entry).

Definition optional {A} (key : string) (f : A -> Json.value) (field : option A)
  : Py.pydict Json.value :=
  match field with
  | Some x => [(key, f x)]
  | None => []
  end.

Definition as_value (d : ResumeDocument) : Json.value :=
  Json.VDict
    (optional "personal_info" entry_value (personal_info d)
     ++ optional "education" (fun l => Json.VList (map entry_value l))
                 (education d)
     ++ optional "work_experience" (fun l => Json.VList (map entry_value l))
                 (work_experience d)
     ++ optional "skills" (fun l => Json.VList (map Json.VStr l)) (skills d)
     ++ optional "projects" (fun l => Json.VList (map entry_value l))
                 (projects d)
     ++ optional "raw_text" Json.VStr (raw_text d)).

(* ================================================================== *)
(** * resume_parser.py *)
(* ================================================================== *)

Module ResumeParser.
Import Py Re.
Local Open Scope char_scope.
Local Open Scope re_scope.

Definition education_keywords : list string :=
  ["education"; "academic"; "university"; "college"; "school"; "degree";
   "bachelor"; "master"; "phd"; "doctorate"]%string.
Definition experience_keywords : list string :=
  ["experience"; "work"; "employment"; "career"; "professional"; "job";
   "position"; "role"]%string.
Definition skills_keywords : list string :=
  ["skills"; "technical"; "technologies"; "programming"; "languages";
   "tools"; "frameworks"]%string.
Definition contact_keywords : list string :=
  ["contact"; "phone"; "email"; "address"; "linkedin"; "github"]%string.

(** ** Personal information *)

(** The two nested tests of the name loop. *)
Definition name_shape (line : string) : bool :=
  (2 <? String.length line)%nat && (List.length (words line) <=? 4)%nat
  && negb (any_digit line).

Definition name_not_contact (line : string) : bool :=
  negb (contains "@" line) && negb (contains "phone" (lower line)).

(** [for line in lines: ... break]. *)
Fixpoint name_loop (lines : list string) : option string :=
  match lines with
  | [] => None
  | line :: rest =>
      let line := strip line in
      if name_shape line then
        if name_not_contact line then Some line else name_loop rest
      else name_loop rest
  end.

(** \b[A-Za-z0-9._%+-]+@[A-Za-z0-9.-]+\.[A-Z|a-z]{2,}\b *)
Definition email_pattern : regex :=
  Bound ;;
  plus [Rng "A" "Z"; Rng "a" "z"; Rng "0" "9"; Chr "."; Chr "_"; Chr "%";
        Chr "+"; Chr "-"] ;;
  Text "@" ;;
  plus [Rng "A" "Z"; Rng "a" "z"; Rng "0" "9"; Chr "."; Chr "-"] ;;
  Text "." ;;
  at_least 2 [Rng "A" "Z"; Chr "|"; Rng "a" "z"] ;;
  Bound.

(** \b\d{3}-\d{3}-\d{4}\b *)
Definition phone_dashed : regex :=
  Bound ;; times 3 [Digit] ;; Text "-" ;; times 3 [Digit] ;; Text "-" ;;
  times 4 [Digit] ;; Bound.

(** \b\(\d{3}\)\s*\d{3}-\d{4}\b *)
Definition phone_parenthesised : regex :=
  Bound ;; Text "(" ;; times 3 [Digit] ;; Text ")" ;; star [Space] ;;
  times 3 [Digit] ;; Text "-" ;; times 4 [Digit] ;; Bound.

(** \b\d{10}\b *)
Definition phone_digits : regex :=
  Bound ;; times 10 [Digit] ;; Bound.

Definition phone_patterns : list regex :=
  [phone_dashed; phone_parenthesised; phone_digits].

(** [for pattern in phone_patterns: ... break]. *)
Fixpoint phone_loop (patterns : list regex) (text : string) : option string :=
  match patterns with
  | [] => None
  | pattern :: rest =>
      match search pattern text false with
      | Some phone_match => Some (group phone_match)
      | None => phone_loop rest text
      end
  end.

(** linkedin\.com/in/[\w-]+ *)
Definition linkedin_pattern : regex :=
  Text "linkedin.com/in/" ;; plus [Word; Chr "-"].

(** github\.com/[\w-]+ *)
Definition github_pattern : regex :=
  Text "github.com/" ;; plus [Word; Chr "-"].

(** [if m: d[key] = m.group()]. *)
Definition set_group (key : string) (m : option Match) (d : pydict string)
  : pydict string :=
  match m with
  | Some found_match => dict_set key (group found_match) d
  | None => d
  end.

Definition set_some (key : string) (v : option string) (d : pydict string)
  : pydict string :=
  match v with
  | Some s => dict_set key s d
  | None => d
  end.

Definition _extract_personal_info (text : string) : pydict string :=
  let personal_info := [] in
  let lines := firstn 5 (split newline text) in
  let personal_info := set_some "name" (name_loop lines) personal_info in
  let personal_info :=
    set_group "email" (search email_pattern text false) personal_info in
  let personal_info :=
    set_some "phone" (phone_loop phone_patterns text) personal_info in
  let personal_info :=
    set_group "linkedin" (search linkedin_pattern text true) personal_info in
  let personal_info :=
    set_group "github" (search github_pattern text true) personal_info in
  personal_info.

(** ** Section capture *)

(** The line loop shared by the four section extractors.  [header] is the
    test that switches the section on, [stop] the test that ends the loop
    once it is on, [in_section] the flag.  The result is the list the loop
    appends to. *)
Fixpoint section_loop (header stop : string -> bool) (in_section : bool)
         (lines : list string) : list string :=
  match lines with
  | [] => []
  | line :: rest =>
      let line := strip line in
      if header (lower line) then section_loop header stop true rest
      else if in_section then
        if stop (lower line) then []
        else if nonempty line then line :: section_loop header stop true rest
        else section_loop header stop true rest
      else section_loop header stop false rest
  end.

Definition education_lines (text : string) : list string :=
  section_loop (any_in education_keywords)
               (any_in (experience_keywords ++ skills_keywords))
               false (split newline text).

Definition experience_lines (text : string) : list string :=
  section_loop (any_in experience_keywords)
               (any_in (education_keywords ++ skills_keywords))
               false (split newline text).

Definition skills_lines (text : string) : list string :=
  section_loop (any_in skills_keywords)
               (any_in (education_keywords ++ experience_keywords))
               false (split newline text).

Definition project_lines (text : string) : list string :=
  section_loop (contains "project")
               (any_in (education_keywords ++ experience_keywords
                        ++ skills_keywords))
               false (split newline text).

(** ** Education *)

(** (bachelor|master|phd|doctorate|bs|ms|ba|ma|mba|degree) and
    (b\.s\.|m\.s\.|b\.a\.|m\.a\.|ph\.d\.) *)
Definition degree_patterns : list regex :=
  [ Text "bachelor" <|> Text "master" <|> Text "phd" <|> Text "doctorate"
    <|> Text "bs" <|> Text "ms" <|> Text "ba" <|> Text "ma" <|> Text "mba"
    <|> Text "degree";
    Text "b.s." <|> Text "m.s." <|> Text "b.a." <|> Text "m.a."
    <|> Text "ph.d." ].

(** (19|20) *)
Definition century : regex := Text "19" <|> Text "20".

(** \b(19|20)\d{2}\b *)
Definition year_pattern : regex :=
  Bound ;; century ;; times 2 [Digit] ;; Bound.

(** [for pattern in degree_patterns: if re.search(...): ... break]. *)
Fixpoint degree_loop (patterns : list regex) (line : string)
         (current_entry : pydict string) : pydict string :=
  match patterns with
  | [] => current_entry
  | pattern :: rest =>
      if found (search pattern line true)
      then dict_set "degree" line current_entry
      else degree_loop rest line current_entry
  end.

(** One turn of the loop over [education_lines]. *)
Definition education_step (current_entry : pydict string) (line : string)
  : pydict string :=
  let current_entry := degree_loop degree_patterns line current_entry in
  let current_entry :=
    if contains "university" (lower line) || contains "college" (lower line)
       || contains "institute" (lower line)
    then dict_set "institution" line current_entry
    else current_entry in
  set_group "year" (search year_pattern line false) current_entry.

(** Truthiness of a dict or a list: [if current_entry:]. *)
Definition truthy {A} (l : list A) : bool :=
  match l with [] => false | _ => true end.

Definition _extract_education (text : string) : list (pydict string) :=
  let education := [] in
  let current_entry := fold_left education_step (education_lines text) [] in
  if truthy current_entry then education ++ [current_entry] else education.

(** ** Work experience *)

(** \b(19|20)\d{2}\s*-\s*(19|20)\d{2}|\b(19|20)\d{2}\s*-\s*present *)
Definition date_pattern : regex :=
  (Bound ;; century ;; times 2 [Digit] ;; star [Space] ;; Text "-" ;;
   star [Space] ;; century ;; times 2 [Digit])
  <|>
  (Bound ;; century ;; times 2 [Digit] ;; star [Space] ;; Text "-" ;;
   star [Space] ;; Text "present").

Definition position_words : list string :=
  ["engineer"; "developer"; "manager"; "analyst"; "specialist";
   "coordinator"]%string.

(** One turn of the loop over [experience_lines]. *)
Definition experience_step (current_entry : pydict string) (line : string)
  : pydict string :=
  let current_entry :=
    if any_in position_words (lower line)
    then dict_set "position" line current_entry
    else current_entry in
  let current_entry :=
    if contains "inc" (lower line) || contains "corp" (lower line)
       || contains "llc" (lower line) || contains "ltd" (lower line)
    then dict_set "company" line current_entry
    else current_entry in
  set_group "duration" (search date_pattern line true) current_entry.

Definition _extract_work_experience (text : string) : list (pydict string) :=
  let experience := [] in
  let current_entry := fold_left experience_step (experience_lines text) [] in
  if truthy current_entry then experience ++ [current_entry] else experience.

(** ** Skills *)

(** The class [,;|\n] of the splitter.  Its two remaining members, the
    bullet and the middle dot, are not ASCII characters. *)
Definition skill_delimiter (c : ascii) : bool :=
  class_has false [Chr ","; Chr ";"; Chr "|"; Chr newline] c.

(** The inner loop over [skill_items]. *)
Fixpoint skill_items_loop (skill_items : list string) : list string :=
  match skill_items with
  | [] => []
  | item :: rest =>
      let item := strip item in
      if nonempty item && (1 <? String.length item)%nat
      then item :: skill_items_loop rest
      else skill_items_loop rest
  end.

Definition _extract_skills (text : string) : list string :=
  flat_map (fun line => skill_items_loop (split_where skill_delimiter line))
           (skills_lines text).

(** ** Projects *)

(** Truthiness of [current_project.get('name')]. *)
Definition has_name (current_project : pydict string) : bool :=
  match dict_get "name" current_project with
  | Some name => nonempty name
  | None => false
  end.

(** The loop over [project_lines]; the result is what it appends to
    [projects]. *)
Fixpoint project_loop (current_project : pydict string)
         (lines : list string) : list (pydict string) :=
  match lines with
  | [] => []
  | line :: rest =>
      if nonempty line && negb (has_name current_project) then
        project_loop (dict_set "name" line current_project) rest
      else if nonempty line then
        dict_set "description" line current_project :: project_loop [] rest
      else project_loop current_project rest
  end.

Definition _extract_projects (text : string) : list (pydict string) :=
  project_loop [] (project_lines text).

(** ** The whole document *)

Definition _parse_text_to_structured_data (text : string) : ResumeDocument :=
  {| personal_info := Some (_extract_personal_info text);
     education := Some (_extract_education text);
     work_experience := Some (_extract_work_experience text);
     skills := Some (_extract_skills text);
     projects := Some (_extract_projects text);
     raw_text := Some text |}.

(** [os.path.splitext] (posixpath): the extension starts at the last dot
    of the last path component, unless that component has only dots
    before it. *)
Fixpoint rfind (c : ascii) (s : string) (i : nat) : option nat :=
  match s with
  | EmptyString => None
  | String a s' =>
      match rfind c s' (S i) with
      | Some j => Some j
      | None => if Ascii.eqb a c then Some i else None
      end
  end.

(** [while filenameIndex < dotIndex: ...], [n] turns left. *)
Fixpoint only_dots (p : string) (filenameIndex n : nat) : bool :=
  match n with
  | O => true
  | S n' =>
      match String.get filenameIndex p with
      | Some "." => only_dots p (S filenameIndex) n'
      | _ => false
      end
  end.

Definition splitext (p : string) : string * string :=
  let filenameIndex :=
    match rfind "/" p 0 with Some i => S i | None => O end in
  match rfind "." p 0 with
  | Some dotIndex =>
      if (filenameIndex <=? dotIndex)%nat
         && negb (only_dots p filenameIndex (dotIndex - filenameIndex))
      then (String.substring 0 dotIndex p,
            String.substring dotIndex (String.length p - dotIndex) p)
      else (p, EmptyString)
  | None => (p, EmptyString)
  end.

Section Readers.

(** The document readers: the text of each page of a PDF file
    ([page.extract_text()]) and of each paragraph of a Word file
    ([paragraph.text]), or the exception the library raises. *)
Variable pdf_pages : string -> result (list string).
Variable docx_paragraphs : string -> result (list string).

(** [text += part + "\n"] over the parts. *)
Definition concat_lines (parts : list string) : string :=
  fold_left (fun text part => (text ++ part ++ String newline EmptyString)%string)
            parts EmptyString.

Definition _extract_pdf_text (file_path : string) : result string :=
  match pdf_pages file_path with
  | inl e => inl e
  | inr pages => inr (concat_lines pages)
  end.

Definition _extract_docx_text (file_path : string) : result string :=
  match docx_paragraphs file_path with
  | inl e => inl e
  | inr paragraphs => inr (concat_lines paragraphs)
  end.

Definition parse_resume (file_path : string) : result ResumeDocument :=
  let file_extension := lower (snd (splitext file_path)) in
  let text :=
    if String.eqb file_extension ".pdf" then _extract_pdf_text file_path
    else if String.eqb file_extension ".docx" || String.eqb file_extension ".doc"
    then _extract_docx_text file_path
    else inl (ValueError ("Unsupported file format: " ++ file_extension)%string) in
  match text with
  | inl e => inl e
  | inr text => inr (_parse_text_to_structured_data text)
  end.

End Readers.

Section Files.

(** The files, by path, and whether [open(path, 'w')] succeeds. *)
Variable writable : string -> bool.

(** [save_parsed_data]: the text of [json.dump(data, f, indent=2,
    ensure_ascii=False)] becomes the content of [output_file]; an
    exception of [open] is logged and raised again. *)
Definition save_parsed_data (data : ResumeDocument) (output_file : string)
           (files : pydict string) : result (pydict string) :=
  if writable output_file
  then inr (dict_set output_file (Json.dumps (as_value data)) files)
  else inl (OSError output_file).

End Files.

End ResumeParser.

(* ================================================================== *)
(** * ai_expansion.py: the classifier and the direct resolver *)
(* ================================================================== *)

Module AIExpansion.
Import Py.

Definition abstract_keywords : list string :=
  ["why"; "describe"; "explain"; "tell us"; "what motivates"; "your greatest";
   "how would you"; "what interests you"; "your goals"; "your passion";
   "cover letter"; "personal statement"; "objective"; "summary"].

Definition is_abstract_question (question field_type : string) : bool :=
  let question_lower := lower question in
  if String.eqb field_type "textarea" || (50 <? String.length question)%nat
  then true
  else any_in abstract_keywords question_lower.

(** A block of statements either returns a value or falls through to the
    statements after it. *)
Definition block (A : Type) : Type := option A.

Definition then_ {A} (b : block A) (rest : block A) : block A :=
  match b with
  | Some v => Some v
  | None => rest
  end.

Infix ">>" := then_ (at level 65, right associativity).

(** [entries[0].get(key, '')] under [if entries:]. *)
Definition first_entry_field (entries : list (pydict string)) (key : string)
  : block string :=
  match entries with
  | entry :: _ => Some (get_or entry key "")
  | [] => None
  end.

Definition or_empty {A} (l : option (list A)) : list A :=
  match l with Some x => x | None => [] end.

Definition get_direct_answer (question : string) (resume_data : ResumeDocument)
  : option string :=
  let question_lower := lower question in
  let personal_info := or_empty (personal_info resume_data) in
  let education := or_empty (education resume_data) in
  let experience := or_empty (work_experience resume_data) in
  let skills := or_empty (skills resume_data) in
  (if contains "name" question_lower || contains "full name" question_lower
   then Some (get_or personal_info "name" "") else None) >>
  (if contains "email" question_lower
   then Some (get_or personal_info "email" "") else None) >>
  (if contains "phone" question_lower
   then Some (get_or personal_info "phone" "") else None) >>
  (if contains "linkedin" question_lower
   then Some (get_or personal_info "linkedin" "") else None) >>
  (if contains "github" question_lower
   then Some (get_or personal_info "github" "") else None) >>
  (if contains "university" question_lower || contains "school" question_lower
   then first_entry_field education "institution" else None) >>
  (if contains "degree" question_lower
   then first_entry_field education "degree" else None) >>
  (if contains "company" question_lower || contains "employer" question_lower
   then first_entry_field experience "company" else None) >>
  (if contains "position" question_lower || contains "title" question_lower
   then first_entry_field experience "position" else None) >>
  (if contains "skill" question_lower
   then Some (join ", " (firstn 5 skills)) else None) >>
  None.

End AIExpansion.


(* ================================================================== *)
(** * ai_expansion.py: the prompt, the model call and the fallback *)
(* ================================================================== *)

(** Exceptions of the form-filling layer, with [str(e)]. *)
Inductive error : Type :=
| KeyError (key : string)       (* [element[key]] on a missing key *)
| PageError (msg : string).     (* raised by the browser or the model client *)

Definition str_error (e : error) : string :=
  match e with
  | KeyError key => ("'" ++ key ++ "'")%string
  | PageError msg => msg
  end.

(** Code that acts on the outside world (the page, the model service)
    takes the state of the world and gives the next one back. *)
Definition io (W A : Type) : Type := W -> A * W.

Definition ret {W A} (a : A) : io W A := fun w => (a, w).

Definition bind {W A B} (m : io W A) (k : A -> io W B) : io W B :=
  fun w => let (a, w') := m w in k a w'.

Declare Scope io_scope.
Delimit Scope io_scope with io.
Notation "x <- m ;; k" := (bind m (fun x => k))
  (at level 61, m at next level, right associativity) : io_scope.
Notation "m ;;; k" := (bind m (fun _ => k))
  (at level 61, right associativity) : io_scope.

Module Generation.
Import Py AIExpansion.

Definition nl : string := String newline EmptyString.

(** [d.get(key, 'N/A')]. *)
Definition or_na (d : pydict string) (key : string) : string :=
  get_or d key "N/A".

(** The lines the three loops of [_create_prompt] add. *)
Definition education_line (edu : pydict string) : string :=
  ("- " ++ or_na edu "degree" ++ " from " ++ or_na edu "institution"
   ++ " (" ++ or_na edu "year" ++ ")" ++ nl)%string.

Definition experience_line (exp : pydict string) : string :=
  ("- " ++ or_na exp "position" ++ " at " ++ or_na exp "company"
   ++ " (" ++ or_na exp "duration" ++ ")" ++ nl)%string.

Definition project_line (proj : pydict string) : string :=
  ("- " ++ or_na proj "name" ++ ": " ++ or_na proj "description" ++ nl)%string.

(** [for x in l: prompt += line(x)]. *)
Definition add_lines {A} (line : A -> string) (l : list A) (prompt : string)
  : string :=
  fold_left (fun prompt x => (prompt ++ line x)%string) l prompt.

Definition _create_prompt (question : string) (resume_data : ResumeDocument)
           (context : string) : string :=
  let personal_info := or_empty (personal_info resume_data) in
  let education := or_empty (education resume_data) in
  let experience := or_empty (work_experience resume_data) in
  let skills := or_empty (skills resume_data) in
  let projects := or_empty (projects resume_data) in
  let prompt :=
    (nl ++ "Based on the following resume information, please provide a professional and tailored answer to the question below." ++ nl
     ++ nl
     ++ "CANDIDATE INFORMATION:" ++ nl
     ++ "Name: " ++ or_na personal_info "name" ++ nl
     ++ "Email: " ++ or_na personal_info "email" ++ nl
     ++ nl
     ++ "EDUCATION:" ++ nl)%string in
  let prompt := add_lines education_line education prompt in
  let prompt := (prompt ++ nl ++ "WORK EXPERIENCE:" ++ nl)%string in
  let prompt := add_lines experience_line experience prompt in
  let prompt :=
    (prompt ++ nl ++ "SKILLS:" ++ nl ++ join ", " (firstn 10 skills) ++ nl)%string in
  let prompt :=
    if ResumeParser.truthy projects then
      add_lines project_line (firstn 3 projects)
                (prompt ++ nl ++ "PROJECTS:" ++ nl)%string
    else prompt in
  let prompt :=
    if nonempty context then
      (prompt ++ nl ++ "ADDITIONAL CONTEXT:" ++ nl ++ context ++ nl)%string
    else prompt in
  (prompt ++ nl
   ++ "QUESTION TO ANSWER:" ++ nl
   ++ question ++ nl
   ++ nl
   ++ "INSTRUCTIONS:" ++ nl
   ++ "1. Provide a professional, concise answer (150-300 words)" ++ nl
   ++ "2. Use specific examples from the candidate's experience when relevant" ++ nl
   ++ "3. Maintain a positive and confident tone" ++ nl
   ++ "4. Focus on how the candidate's background relates to the question" ++ nl
   ++ "5. Do not make up information not present in the resume" ++ nl)%string.

(** The dictionary [fallback_templates], in the order it is written. *)
Definition fallback_templates (skills : list string) : pydict string :=
  [("why",
    "Based on my background in " ++ join ", " (firstn 3 skills)
    ++ ", I am excited about this opportunity to contribute my skills and experience.");
   ("strength",
    "My key strengths include " ++ join ", " (firstn 5 skills)
    ++ ", which I have developed through my professional experience.");
   ("experience",
    "I have experience in " ++ join ", " (firstn 3 skills)
    ++ " and have worked in roles that involved diverse responsibilities.");
   ("motivation",
    "I am motivated by challenging opportunities that allow me to apply my skills and contribute to meaningful projects.");
   ("goal",
    "My career goal is to continue growing professionally while making meaningful contributions to innovative projects.")
  ]%string.

Definition generic_fallback : string :=
  "I believe my background and experience make me a strong candidate for this position, and I am excited about the opportunity to contribute to your team.".

(** [for keyword, template in fallback_templates.items(): ... return]. *)
Fixpoint template_loop (templates : pydict string) (question_lower : string)
  : option string :=
  match templates with
  | [] => None
  | (keyword, template) :: rest =>
      if contains keyword question_lower then Some template
      else template_loop rest question_lower
  end.

Definition _generate_fallback_answer (question : string)
           (resume_data : ResumeDocument) : string :=
  let skills := or_empty (skills resume_data) in
  let question_lower := lower question in
  match template_loop (fallback_templates skills) question_lower with
  | Some template => template
  | None => generic_fallback
  end.

Section Model.

(** The state of the outside world, and the model call: given the user
    prompt, [client.chat.completions.create(...)] followed by
    [response.choices[0].message.content], or the exception one of them
    raises.  The system message, the model name and the sampling settings
    are fixed by the instance. *)
Variable W : Type.
Variable chat : string -> io W (error + string).

(** [generate_answer]: every exception of the [try] block is answered
    with the fallback. *)
Definition generate_answer (question : string) (resume_data : ResumeDocument)
           (context : string) : io W string :=
  (response <- chat (_create_prompt question resume_data context) ;;
   match response with
   | inr content => ret (strip content)
   | inl _ => ret (_generate_fallback_answer question resume_data)
   end)%io.

End Model.

End Generation.

(* ================================================================== *)
(** * browser_automation: questions, values and the field loop *)
(* ================================================================== *)

Module Forms.
Import Py AIExpansion Generation.

(** A form element as the page reports it.  A key may be missing: [None]
    is what [element.get(key, '')] turns into [''] and what makes
    [element[key]] raise KeyError. *)
Record element : Type := {
  el_type : option string;
  el_label : option string;
  el_placeholder : option string;
  el_name : option string;
  el_id : option string;
  el_visible : option bool;
  el_selector : option string
}.

(** [element.get(key, '')]. *)
Definition get_str (field : option string) : string :=
  match field with Some s => s | None => EmptyString end.

(** [s.replace(old, new)] for one-character [old] and [new]. *)
Fixpoint replace_char (old new : ascii) (s : string) : string :=
  match s with
  | EmptyString => EmptyString
  | String c s' =>
      String (if Ascii.eqb c old then new else c) (replace_char old new s')
  end.

(** [s.replace('_', ' ').replace('-', ' ').strip()]. *)
Definition spaced (s : string) : string :=
  strip (replace_char "-" " " (replace_char "_" " " s)).

(** utils.py, [extract_question_from_element]. *)
Definition extract_question_from_element (element : element) : string :=
  let question := strip (get_str (el_label element)) in
  let question :=
    if negb (nonempty question) then strip (get_str (el_placeholder element))
    else question in
  let question :=
    if negb (nonempty question) then spaced (get_str (el_name element))
    else question in
  let question :=
    if negb (nonempty question) then spaced (get_str (el_id element))
    else question in
  question.

(** utils.py, [get_default_value]. *)
Definition get_default_value (element : element) (resume_data : ResumeDocument)
  : error + string :=
  let personal_info := or_empty (personal_info resume_data) in
  match el_type element with
  | None => inl (KeyError "type")
  | Some type =>
      let field_type := lower type in
      if String.eqb field_type "email" then inr (get_or personal_info "email" "")
      else if String.eqb field_type "tel" then inr (get_or personal_info "phone" "")
      else if contains "name" (lower (get_str (el_name element)))
      then inr (get_or personal_info "name" "")
      else inr EmptyString
  end.

(** Truthiness of an [Optional[str]]: [if direct_answer:]. *)
Definition truthy_answer (answer : option string) : bool :=
  match answer with Some s => nonempty s | None => false end.

(** The counters [auto_fill_form] returns. *)
Record results : Type := {
  filled_fields : nat;
  total_fields : nat;
  errors : list string;
  success : bool
}.

Definition add_error (msg : string) (r : results) : results :=
  {| filled_fields := filled_fields r; total_fields := total_fields r;
     errors := errors r ++ [msg]; success := success r |}.

Definition add_filled (r : results) : results :=
  {| filled_fields := S (filled_fields r); total_fields := total_fields r;
     errors := errors r; success := success r |}.

(** [str(n)]. *)
Definition str_nat (n : nat) : string :=
  NilEmpty.string_of_uint (Nat.to_uint n).

Section Page.

Variable W : Type.

(** The collaborators: the model call, the form finder, the form filler
    (which catches its own exceptions and answers with a boolean) and the
    status line of the panel (which catches its own exceptions too). *)
Variable chat : string -> io W (error + string).
Variable get_form_elements : io W (error + list element).
Variable fill_form_field : string -> string -> string -> io W bool.
Variable update_status : string -> io W unit.

(** The body of the [try] of [_get_field_value]. *)
Definition field_value_body (question : string) (element : element)
           (resume_data : ResumeDocument) : io W (error + string) :=
  let direct_answer := get_direct_answer question resume_data in
  if truthy_answer direct_answer then
    ret (inr (match direct_answer with Some s => s | None => EmptyString end))
  else
    match el_type element with
    | None => ret (inl (KeyError "type"))
    | Some type =>
        if is_abstract_question question type then
          (answer <- generate_answer W chat question resume_data EmptyString ;;
           ret (inr answer))%io
        else ret (get_default_value element resume_data)
    end.

(** [_get_field_value]: an exception gives the empty string. *)
Definition _get_field_value (question : string) (element : element)
           (resume_data : ResumeDocument) : io W string :=
  (outcome <- field_value_body question element resume_data ;;
   match outcome with
   | inr value => ret value
   | inl _ => ret EmptyString
   end)%io.

(** The message of the [except] clause of the loop. *)
Definition processing_error (element : element) (e : error) : string :=
  ("Error processing element "
   ++ match el_selector element with Some s => s | None => "unknown" end
   ++ ": " ++ str_error e)%string.

(** One turn of the loop over [form_elements].  [element['selector']] is
    read on both branches of [if value:], by the call on one and by the
    warning on the other, before anything else is done there. *)
Definition process_element (resume_data : ResumeDocument) (r : results)
           (element : element) : io W results :=
  match el_visible element with
  | None => ret (add_error (processing_error element (KeyError "visible")) r)
  | Some false => ret r
  | Some true =>
      let question := extract_question_from_element element in
      (value <- _get_field_value question element resume_data ;;
       match el_selector element with
       | None =>
           ret (add_error (processing_error element (KeyError "selector")) r)
       | Some selector =>
           if nonempty value then
             match el_type element with
             | None =>
                 ret (add_error (processing_error element (KeyError "type")) r)
             | Some type =>
                 filled <- fill_form_field selector value type ;;
                 if filled then
                   let r := add_filled r in
                   update_status ("Filled " ++ str_nat (filled_fields r) ++ "/"
                                  ++ str_nat (total_fields r) ++ " fields")%string ;;;
                   ret r
                 else ret (add_error ("Failed to fill " ++ selector)%string r)
             end
           else ret r
       end)%io
  end.

(** [for element in form_elements: ...]. *)
Fixpoint element_loop (resume_data : ResumeDocument) (r : results)
         (form_elements : list element) : io W results :=
  match form_elements with
  | [] => ret r
  | element :: rest =>
      (r <- process_element resume_data r element ;;
       element_loop resume_data r rest)%io
  end.

Definition auto_fill_form (resume_data : ResumeDocument) : io W results :=
  let r := {| filled_fields := 0; total_fields := 0; errors := [];
              success := true |} in
  (update_status "Analyzing form fields..." ;;;
   found <- get_form_elements ;;
   match found with
   | inl e =>
       ret {| filled_fields := filled_fields r; total_fields := total_fields r;
              errors := errors r ++ [("Form filling failed: " ++ str_error e)%string];
              success := false |}
   | inr form_elements =>
       let r := {| filled_fields := filled_fields r;
                   total_fields := List.length form_elements;
                   errors := errors r; success := success r |} in
       update_status ("Found " ++ str_nat (List.length form_elements)
                      ++ " fields. Starting auto-fill...")%string ;;;
       r <- element_loop resume_data r form_elements ;;
       update_status ("Completed! Filled " ++ str_nat (filled_fields r) ++ "/"
                      ++ str_nat (total_fields r) ++ " fields")%string ;;;
       ret r
   end)%io.

End Page.

(** ** form_filler.py: the choice among radio buttons *)

(** [_select_radio_option]: [label_texts] holds, for each radio button
    the selector finds, the trimmed lower-case text of its label (the
    empty string when it has none).  The answer is the index of the button
    that is clicked. *)
Fixpoint radio_loop (label_texts : list string) (value : string) (index : nat)
  : option nat :=
  match label_texts with
  | [] => None
  | label_text :: rest =>
      if contains (lower value) label_text || contains label_text (lower value)
      then Some index
      else radio_loop rest value (S index)
  end.

Definition _select_radio_option (label_texts : list string) (value : string)
  : option nat :=
  radio_loop label_texts value 0.

End Forms.

(* ================================================================== *)
(** * Notions the properties are stated with *)
(* ================================================================== *)

Module Notions.
Import Py Re Json ResumeParser AIExpansion.

(** The question mentions one of the five personal-information keywords. *)
Definition mentions_personal (question_lower : string) : bool :=
  any_in ["name"; "email"; "phone"; "linkedin"; "github"] question_lower.

(** The blocks of [get_direct_answer] that follow the five
    personal-information blocks. *)
Definition after_personal (question_lower : string) (resume_data : ResumeDocument)
  : option string :=
  let education := or_empty (education resume_data) in
  let experience := or_empty (work_experience resume_data) in
  let skills := or_empty (skills resume_data) in
  (if contains "university" question_lower || contains "school" question_lower
   then first_entry_field education "institution" else None) >>
  (if contains "degree" question_lower
   then first_entry_field education "degree" else None) >>
  (if contains "company" question_lower || contains "employer" question_lower
   then first_entry_field experience "company" else None) >>
  (if contains "position" question_lower || contains "title" question_lower
   then first_entry_field experience "position" else None) >>
  (if contains "skill" question_lower
   then Some (join ", " (firstn 5 skills)) else None) >>
  None.

(** A small resume used to run the functions. *)
Definition sample_resume : ResumeDocument :=
  {| personal_info := Some [("name", "John Smith"); ("phone", "555-123-4567")];
     education := Some [];
     work_experience := Some [[("position", "Software Engineer")]];
     skills := Some ["Python"; "Go"; "Rust"; "C++"; "Coq"; "OCaml"];
     projects := Some [];
     raw_text := Some "John Smith" |}.

(** The text whose lines are [lines]. *)
Definition unlines (lines : list string) : string :=
  join (String newline EmptyString) lines.

(** The five tests a trimmed line passes to be taken as the name. *)
Definition is_name_line (line : string) : Prop :=
  2 < String.length line /\ List.length (words line) <= 4
  /\ any_digit line = false /\ contains "@" line = false
  /\ contains "phone" (lower line) = false.

(** The lines a reader of "the first 5 non-empty-trimmed lines" would
    search: blank lines dropped first, then five lines taken.  Stated
    from the specification's words, to be compared with
    [firstn 5 (split newline text)] of the program. *)
Definition first_five_nonempty_trimmed (text : string) : list string :=
  firstn 5 (filter nonempty (map strip (split newline text))).

(** Consecutive lines taken two by two; an odd last line is left out. *)
Fixpoint pair_up (lines : list string) : list (pydict string) :=
  match lines with
  | name :: description :: rest =>
      [("name", name); ("description", description)] :: pair_up rest
  | _ => []
  end.

(** The value a line gives to a field of the entry, if any. *)
Definition degree_of (line : string) : option string :=
  if existsb (fun pattern => found (search pattern line true)) degree_patterns
  then Some line else None.
Definition institution_of (line : string) : option string :=
  if contains "university" (lower line) || contains "college" (lower line)
     || contains "institute" (lower line)
  then Some line else None.
Definition year_of (line : string) : option string :=
  option_map group (search year_pattern line false).
Definition position_of (line : string) : option string :=
  if any_in position_words (lower line) then Some line else None.
Definition company_of (line : string) : option string :=
  if contains "inc" (lower line) || contains "corp" (lower line)
     || contains "llc" (lower line) || contains "ltd" (lower line)
  then Some line else None.
Definition duration_of (line : string) : option string :=
  option_map group (search date_pattern line true).

(** The value given by the last line that gives one. *)
Fixpoint last_value (f : string -> option string) (lines : list string)
  : option string :=
  match lines with
  | [] => None
  | line :: rest =>
      match last_value f rest with
      | Some v => Some v
      | None => f line
      end
  end.

(** [v], or else what the entry already holds under [k]. *)
Definition or_get (v : option string) (k : string) (d : pydict string)
  : option string :=
  match v with Some s => Some s | None => dict_get k d end.

(** The six top-level keys are present. *)
Definition has_all_keys (d : ResumeDocument) : Prop :=
  personal_info d <> None /\ education d <> None /\ work_experience d <> None
  /\ skills d <> None /\ projects d <> None /\ raw_text d <> None.


(** The character just before the text that follows [pre], when [prev]
    is the one before [pre]. *)
Fixpoint char_before (prev : option ascii) (pre : string) : option ascii :=
  match pre with
  | EmptyString => prev
  | String c pre' => char_before (Some c) pre'
  end.


(** A bound on the nested calls the reader makes on the text of [v]. *)
Fixpoint weight (v : value) : nat :=
  match v with
  | VStr _ => 1
  | VList items => S (list_sum (map (fun item => S (weight item)) items))
  | VDict members =>
      S (list_sum (map (fun '(_, item) => S (weight item)) members))
  end.

(** No dictionary inside [v] has a key twice. *)
#[warnings="-register-all"]
Inductive unique_keys : value -> Prop :=
| unique_str (s : string) : unique_keys (VStr s)
| unique_list (items : list value) :
    Forall unique_keys items -> unique_keys (VList items)
| unique_dict (members : pydict value) :
    NoDup (map fst members) ->
    Forall (fun kv => unique_keys (snd kv)) members ->
    unique_keys (VDict members).


(** The separator of the items of a container, and the text of one
    member of an object. *)
Definition item_sep (level : nat) : string :=
  ("," ++ newline_indent (S level))%string.

Definition member_text (level : nat) (kv : string * value) : string :=
  let '(key, item) := kv in
  (encode_str key ++ ": " ++ encode (S level) item)%string.


(** The members of a dictionary value. *)
Definition members_of (v : value) : pydict value :=
  match v with VDict members => members | _ => [] end.

(** The second phone pattern as the specification words it,
    "(ddd) ddd-dddd", to be compared with [phone_parenthesised] of the
    program. *)
Definition parenthesised_as_specified : regex :=
  (Text "(" ;; times 3 [Digit] ;; Text ") " ;; times 3 [Digit] ;; Text "-" ;;
   times 4 [Digit])%re.

(** Sample texts. *)
Definition late_name_text : string :=
  unlines [""; ""; ""; ""; ""; "John Smith"; "john@x.com"].

Definition contact_in_education_text : string :=
  unlines ["Education"; "Contact: Boston"; "MIT"].

Definition project_in_education_text : string :=
  unlines ["Education"; "Project Athena"; "MIT"].

Definition header_and_stop_text : string :=
  unlines ["Education"; "Worked at State University"; "B.S."].

Definition sample_text : string :=
  unlines ["John Smith"; "john@x.com 555-123-4567"; "Skills"; "Coq, OCaml";
           "Projects"; "Spec"; String quote "quoted"].

Definition two_degrees_text : string :=
  unlines ["Education"; "B.S. Physics 2010"; "M.S. Physics, MIT Institute";
           "Experience"; "Software Engineer"; "Acme Inc 2015 - 2018";
           "Data Analyst"; "Projects"; "Spec"; "A verified parser"; "Orphan"].

(** A document reader that knows one file. *)
Definition sample_pdf_pages (file_path : string) : result (list string) :=
  if String.eqb file_path "cv.PDF" then inr ["John Smith"; "Skills"]
  else inl (ReaderError file_path).

End Notions.

(* ================================================================== *)
(** * Notions for the shapes of values and for the calls on the page *)
(* ================================================================== *)

Module Vocabulary.
Import Py Re ResumeParser AIExpansion Generation Forms Notions.

(** [a] occurs in [b] as a run of consecutive characters. *)
Definition infix (a b : string) : Prop :=
  exists pre post, b = (pre ++ a ++ post)%string.

(** Every character of [s] passes the test [p]. *)
Fixpoint all_chars (p : ascii -> bool) (s : string) : bool :=
  match s with
  | EmptyString => true
  | String c s' => p c && all_chars p s'
  end.

(** The number of characters of [s] that pass the test [p]. *)
Fixpoint count_chars (p : ascii -> bool) (s : string) : nat :=
  match s with
  | EmptyString => 0
  | String c s' => (if p c then 1 else 0) + count_chars p s'
  end.

(** [w] is the literal [t], letter case put aside under IGNORECASE. *)
Fixpoint text_matches (ignorecase : bool) (t w : string) : bool :=
  match t, w with
  | EmptyString, EmptyString => true
  | String a t', String c w' =>
      chr_eq ignorecase a c && text_matches ignorecase t' w'
  | _, _ => false
  end.

(** The words of a pattern, word boundaries put aside: what a match can
    be, whatever stands around it. *)
Fixpoint in_lang (ignorecase : bool) (r : regex) (w : string) : Prop :=
  match r with
  | Text t => text_matches ignorecase t w = true
  | Class cls =>
      exists c, w = String c EmptyString /\ class_has ignorecase cls c = true
  | Rep cls lo hi =>
      all_chars (class_has ignorecase cls) w = true
      /\ lo <= String.length w
      /\ match hi with Some h => String.length w <= h | None => True end
  | Bound => w = EmptyString
  | Seq r1 r2 =>
      exists w1 w2,
        w = (w1 ++ w2)%string /\ in_lang ignorecase r1 w1
        /\ in_lang ignorecase r2 w2
  | Alt r1 r2 => in_lang ignorecase r1 w \/ in_lang ignorecase r2 w
  end.

(** Character tests the shapes are stated with. *)
Definition is_letter (c : ascii) : bool :=
  in_range "A" "Z" c || in_range "a" "z" c.
Definition is_alnum (c : ascii) : bool := is_letter c || isdigit c.
Definition one_of (chars : string) (c : ascii) : bool :=
  contains (String c EmptyString) chars.
Definition phone_char (c : ascii) : bool :=
  isdigit c || isspace c || one_of "()-" c.
Definition separator (c : ascii) : bool :=
  Ascii.eqb c "_" || Ascii.eqb c "-".

(** A four-digit year of the 20th or 21st century. *)
Definition is_year (s : string) : Prop :=
  String.length s = 4 /\ all_chars isdigit s = true
  /\ (String.prefix "19" s = true \/ String.prefix "20" s = true).

(** The 256 characters. *)
Definition all_ascii : list ascii := map ascii_of_nat (seq 0 256).


(** The test of [_select_radio_option] on one label. *)
Definition radio_match (value label_text : string) : bool :=
  contains (lower value) label_text || contains label_text (lower value).

(** The element is passed over by the loop without a word; the element
    is looked at for a value. *)
Definition hidden (element : element) : bool :=
  match el_visible element with Some false => true | _ => false end.


(** Fields filled plus errors reported. *)
Definition tally (r : results) : nat :=
  filled_fields r + List.length (errors r).

(** What the collaborators were asked to do, in the order of the calls. *)
Inductive event : Type :=
| Asked (prompt : string)
| Filled (selector value type : string)
| Status (msg : string).




Section Trace.

(** A world that is the list of the calls made so far.  The answers of
    the model, of the form finder and of the form filler may depend on
    what has happened before. *)
Variable reply : list event -> string -> error + string.
Variable found : list event -> error + list element.
Variable fill_ok : list event -> string -> string -> string -> bool.

Definition log_chat (prompt : string) : io (list event) (error + string) :=
  fun log => (reply log prompt, log ++ [Asked prompt]).
Definition log_find : io (list event) (error + list element) :=
  fun log => (found log, log).
Definition log_fill (selector value type : string) : io (list event) bool :=
  fun log =>
    (fill_ok log selector value type, log ++ [Filled selector value type]).
Definition log_status (msg : string) : io (list event) unit :=
  fun log => (tt, log ++ [Status msg]).

(** [auto_fill_form] run from the empty list of calls. *)
Definition logged_fill (resume_data : ResumeDocument)
  : results * list event :=
  auto_fill_form (list event) log_chat log_find log_fill log_status
                 resume_data [].

End Trace.

(** Sample inputs. *)
Definition contact_text : string :=
  unlines ["Jane Doe"; "jane.doe@mail.example.org | 555-123-4567";
           "LinkedIn.com/in/jane-doe"; "GitHub.com/jdoe"].

Definition name_field : element :=
  {| el_type := Some "text"; el_label := Some " Full Name ";
     el_placeholder := None; el_name := Some "full_name";
     el_id := Some "f1"; el_visible := Some true;
     el_selector := Some "#f1" |}.

Definition hidden_field : element :=
  {| el_type := Some "hidden"; el_label := None; el_placeholder := None;
     el_name := Some "name_token"; el_id := Some "t"; el_visible := Some false;
     el_selector := Some "#t" |}.

Definition note_field : element :=
  {| el_type := Some "text"; el_label := None; el_placeholder := None;
     el_name := Some "start-date"; el_id := None; el_visible := Some true;
     el_selector := Some "#d" |}.

End Vocabulary.

(* ================================================================== *)
(** * Properties *)
(* ================================================================== *)

(** ** Substring containment *)

Module ContainsFacts.
Import Py.

Lemma append_assoc (a b c : string) : ((a ++ b) ++ c = a ++ (b ++ c))%string.
Proof. induction a as [|x a IH]; simpl; [reflexivity | now rewrite IH]. Qed.

Lemma prefix_split (p s : string) :
  String.prefix p s = true -> exists r, s = (p ++ r)%string.
Proof.
  revert s; induction p as [|a p IH]; intros s H.
  - exists s; reflexivity.
  - destruct s as [|b s]; simpl in H; [discriminate|].
    destruct (ascii_dec a b) as [->|]; [|discriminate].
    destruct (IH _ H) as [r ->]. exists r; reflexivity.
Qed.

Lemma prefix_append (p r : string) : String.prefix p (p ++ r) = true.
Proof.
  induction p as [|a p IH]; simpl.
  - destruct r; reflexivity.
  - destruct (ascii_dec a a); [assumption | congruence].
Qed.

Lemma contains_prefix (needle hay : string) :
  String.prefix needle hay = true -> contains needle hay = true.
Proof.
  intros H. destruct hay; unfold contains; fold contains; rewrite H; reflexivity.
Qed.

Lemma contains_cons (needle : string) (c : ascii) (hay : string) :
  contains needle hay = true -> contains needle (String c hay) = true.
Proof.
  intros H. change (contains needle (String c hay))
    with (String.prefix needle (String c hay) || contains needle hay).
  rewrite H. apply orb_true_r.
Qed.

Lemma contains_append_l (needle pre hay : string) :
  contains needle hay = true -> contains needle (pre ++ hay) = true.
Proof.
  intros H; induction pre as [|c pre IH]; simpl append; [assumption|].
  apply contains_cons, IH.
Qed.

(** A text that contains [pre ++ needle] contains [needle]. *)
Lemma contains_tail (pre needle hay : string) :
  contains (pre ++ needle) hay = true -> contains needle hay = true.
Proof.
  induction hay as [|c hay IH]; intros H.
  - destruct pre, needle; simpl in *; solve [discriminate | reflexivity].
  - change (contains (pre ++ needle) (String c hay))
      with (String.prefix (pre ++ needle) (String c hay)
            || contains (pre ++ needle) hay) in H.
    apply orb_true_iff in H as [H|H].
    + destruct (prefix_split _ _ H) as [r ->].
      rewrite append_assoc. apply contains_append_l.
      apply contains_prefix, prefix_append.
    + apply contains_cons, IH, H.
Qed.

Lemma contains_full_name (s : string) :
  contains "name" s = false -> contains "full name" s = false.
Proof.
  intros H. destruct (contains "full name" s) eqn:E; [|reflexivity].
  rewrite (contains_tail "full " "name" s E) in H. discriminate.
Qed.

End ContainsFacts.

(** ** Dictionaries *)

Module DictFacts.
Import Py ResumeParser.

Lemma dict_get_set_eq {V} k (v : V) d : dict_get k (dict_set k v d) = Some v.
Proof.
  induction d as [|[k' v'] d IH]; simpl.
  - now rewrite String.eqb_refl.
  - destruct (String.eqb_spec k' k) as [->|N]; simpl.
    + now rewrite String.eqb_refl.
    + destruct (String.eqb_spec k' k); [contradiction | exact IH].
Qed.

Lemma dict_get_set_ne {V} k k' (v : V) d :
  k <> k' -> dict_get k (dict_set k' v d) = dict_get k d.
Proof.
  intros N. induction d as [|[k2 v2] d IH]; simpl.
  - destruct (String.eqb_spec k' k); [congruence | reflexivity].
  - destruct (String.eqb_spec k2 k') as [->|N2]; simpl.
    + destruct (String.eqb_spec k' k); [congruence | reflexivity].
    + destruct (String.eqb_spec k2 k); [reflexivity | exact IH].
Qed.

Lemma dict_set_not_empty {V} k (v : V) d : dict_set k v d <> [].
Proof.
  destruct d as [|[k' v'] d]; simpl; [|destruct (String.eqb k' k)];
    discriminate.
Qed.

Lemma dict_get_set_some_ne k k' v d :
  k <> k' -> dict_get k (set_some k' v d) = dict_get k d.
Proof. intros N. destruct v; simpl; [now apply dict_get_set_ne | reflexivity]. Qed.

Lemma dict_get_set_group_ne k k' m d :
  k <> k' -> dict_get k (set_group k' m d) = dict_get k d.
Proof. intros N. destruct m; simpl; [now apply dict_get_set_ne | reflexivity]. Qed.

Lemma dict_get_set_some_eq k v d :
  dict_get k (set_some k v d)
  = match v with Some s => Some s | None => dict_get k d end.
Proof. destruct v; simpl; [apply dict_get_set_eq | reflexivity]. Qed.

Lemma dict_get_set_group_eq k m d :
  dict_get k (set_group k m d)
  = match m with Some x => Some (Re.group x) | None => dict_get k d end.
Proof. destruct m; simpl; [apply dict_get_set_eq | reflexivity]. Qed.

End DictFacts.

(** ** The name of the candidate *)

Module NameFacts.
Import Py Re ResumeParser Notions DictFacts.

Lemma personal_info_name text :
  dict_get "name" (_extract_personal_info text)
  = name_loop (firstn 5 (split newline text)).
Proof.
  unfold _extract_personal_info.
  rewrite !dict_get_set_group_ne, dict_get_set_some_ne, dict_get_set_group_ne
    by discriminate.
  rewrite dict_get_set_some_eq. now destruct (name_loop _).
Qed.

Lemma name_tests_spec line :
  name_shape line && name_not_contact line = true <-> is_name_line line.
Proof.
  unfold name_shape, name_not_contact, is_name_line.
  rewrite !andb_true_iff, !negb_true_iff, Nat.ltb_lt, Nat.leb_le. tauto.
Qed.

Lemma name_loop_some lines name :
  name_loop lines = Some name <->
  exists i, nth_error (map strip lines) i = Some name /\ is_name_line name
            /\ forall j l, j < i -> nth_error (map strip lines) j = Some l ->
                           ~ is_name_line l.
Proof.
  induction lines as [|line rest IH]; simpl.
  - split; [discriminate|]. intros [[|i] [H _]]; discriminate.
  - pose proof (name_tests_spec (strip line)) as T.
    destruct (name_shape (strip line)), (name_not_contact (strip line));
      simpl in T.
    1: { split.
         - intros [= <-]. exists 0.
           refine (conj eq_refl (conj _ _)); [now apply T | intros; lia].
         - intros [[|i] (H & Hn & Hb)]; [now inversion H|].
           exfalso.
           apply (Hb 0 (strip line)); [lia | reflexivity | now apply T]. }
    all: rewrite IH; split.
    all: try (intros [i (H & Hn & Hb)]; exists (S i);
              refine (conj H (conj Hn _));
              intros [|j] l Hj Hl;
              [ inversion Hl; subst; intros X; apply T in X; discriminate
              | apply (Hb j); [lia | exact Hl] ]).
    all: intros [[|i] (H & Hn & Hb)];
         [ inversion H; subst; apply T in Hn; discriminate
         | exists i; refine (conj H (conj Hn _));
           intros j l Hj Hl; apply (Hb (S j)); [lia | exact Hl] ].
Qed.

Lemma name_loop_none lines :
  name_loop lines = None <->
  forall l, In l (map strip lines) -> ~ is_name_line l.
Proof.
  induction lines as [|line rest IH]; simpl.
  - split; [intros _ l [] | reflexivity].
  - pose proof (name_tests_spec (strip line)) as T.
    destruct (name_shape (strip line)), (name_not_contact (strip line));
      simpl in T.
    1: { split; [discriminate|]. intros H. exfalso.
         apply (H (strip line)); [now left | now apply T]. }
    all: rewrite IH; split;
      [ intros H l [<-|Hl];
        [intros X; apply T in X; discriminate | now apply H]
      | intros H l Hl; apply H; now right ].
Qed.

(** C3, as the code has it.  The name is looked for in the first five
    lines of the raw text, blank lines counted among the five, each line
    trimmed: it is the first of them that is longer than 2 characters, has
    at most 4 blank-separated tokens, no digit, no "@" and no "phone" in
    any letter case; when none of the five qualifies the key is left
    out. *)
Theorem name_is_first_name_line_of_first_five (text : string) :
  let lines := map strip (firstn 5 (split newline text)) in
  let name := dict_get "name" (_extract_personal_info text) in
  (forall v, name = Some v <->
     exists i, nth_error lines i = Some v /\ is_name_line v
               /\ forall j l, j < i -> nth_error lines j = Some l ->
                              ~ is_name_line l)
  /\ (name = None <-> forall l, In l lines -> ~ is_name_line l).
Proof.
  cbv zeta. rewrite personal_info_name. split.
  - intros v. apply name_loop_some.
  - apply name_loop_none.
Qed.

(** The theorem at work on a text that begins with the name. *)
Lemma name_is_first_name_line_of_first_five_witness :
  dict_get "name" (_extract_personal_info sample_text) = Some "John Smith".
Proof.
  apply (proj1 (name_is_first_name_line_of_first_five sample_text)).
  exists 0. split; [reflexivity|]. split.
  - unfold is_name_line; simpl. repeat split; lia.
  - intros j l Hj. lia.
Defined.

(** C3 as stated fails: "John Smith" is the first line that is not blank
    once trimmed and it passes the five tests, yet five blank lines come
    before it and the name is left out. *)
Lemma name_search_counts_blank_lines :
  first_five_nonempty_trimmed late_name_text = ["John Smith"; "john@x.com"]
  /\ is_name_line "John Smith"
  /\ dict_get "name" (_extract_personal_info late_name_text) = None.
Proof.
  split; [reflexivity|]. split; [|reflexivity].
  unfold is_name_line; simpl. repeat split; lia.
Qed.

End NameFacts.

(** ** Section capture *)

Module SectionFacts.
Import Py Re ResumeParser Notions.

Lemma section_loop_stop header stop line rest :
  header (lower (strip line)) = false -> stop (lower (strip line)) = true ->
  section_loop header stop true (line :: rest) = [].
Proof. intros Hh Hs. simpl. now rewrite Hh, Hs. Qed.

Lemma section_loop_header header stop b line rest :
  header (lower (strip line)) = true ->
  section_loop header stop b (line :: rest) = section_loop header stop true rest.
Proof. intros Hh. simpl. now rewrite Hh. Qed.

Lemma section_loop_blank header stop line rest :
  strip line = "" -> header "" = false -> stop "" = false ->
  section_loop header stop true (line :: rest) = section_loop header stop true rest.
Proof. intros E Hh Hs. simpl. rewrite E. simpl. now rewrite Hh, Hs. Qed.

Lemma section_loop_capture header stop line rest :
  header (lower (strip line)) = false -> stop (lower (strip line)) = false ->
  strip line <> "" ->
  section_loop header stop true (line :: rest)
  = strip line :: section_loop header stop true rest.
Proof.
  intros Hh Hs N. simpl. rewrite Hh, Hs.
  destruct (strip line); [contradiction | reflexivity].
Qed.

Lemma section_loop_to_end header stop lines :
  (forall l, In l lines -> stop (lower (strip l)) = true ->
             header (lower (strip l)) = true) ->
  section_loop header stop true lines
  = filter (fun l => nonempty l && negb (header (lower l))) (map strip lines).
Proof.
  induction lines as [|line rest IH]; intros H; [reflexivity|].
  simpl. destruct (header (lower (strip line))) eqn:Hh.
  - rewrite andb_false_r. apply IH. intros l Hl. apply H. now right.
  - destruct (stop (lower (strip line))) eqn:Hs.
    + rewrite (H line (or_introl eq_refl) Hs) in Hh. discriminate.
    + rewrite andb_true_r. rewrite IH by (intros l Hl; apply H; now right).
      destruct (nonempty (strip line)); reflexivity.
Qed.

Lemma section_loop_off header stop line rest :
  header (lower (strip line)) = false ->
  section_loop header stop false (line :: rest) = section_loop header stop false rest.
Proof. intros Hh. simpl. now rewrite Hh. Qed.

Lemma section_loop_nonempty header stop b lines l :
  In l (section_loop header stop b lines) -> nonempty l = true.
Proof.
  revert b; induction lines as [|line rest IH]; intros b; simpl; [tauto|].
  destruct (header _); [apply IH|].
  destruct b; [|apply IH].
  destruct (stop _); [intros []|].
  destruct (nonempty (strip line)) eqn:E; [|apply IH].
  intros [<-|H]; [exact E | now apply IH in H].
Qed.

Lemma any_in_empty keywords : ~ In "" keywords -> any_in keywords "" = false.
Proof.
  induction keywords as [|k ks IH]; intros H; [reflexivity|].
  unfold any_in in *. cbn [existsb]. rewrite IH by (intros X; apply H; now right).
  destruct k; [exfalso; apply H; now left | reflexivity].
Qed.

(** C4, as the code has it.  While the flag is on, a line that holds no
    keyword of the section's own header test and holds a keyword of the
    section's stop test ends the loop and is not captured; a line that
    holds a header keyword is consumed as a header, even if it also holds
    a stop keyword; a blank line is skipped and does not end the loop; any
    other line is captured trimmed, so no captured line is blank; with no
    stopping line the capture runs to the last line.  The stop test of education is the experience and
    skills keywords, of experience the education and skills keywords, of
    skills the education and experience keywords, of projects all three;
    the contact keywords and "project" stop nothing. *)
Theorem section_capture_rules :
  let edu := ["education"; "academic"; "university"; "college"; "school";
              "degree"; "bachelor"; "master"; "phd"; "doctorate"] in
  let exp := ["experience"; "work"; "employment"; "career"; "professional";
              "job"; "position"; "role"] in
  let skl := ["skills"; "technical"; "technologies"; "programming";
              "languages"; "tools"; "frameworks"] in
  (forall text,
      education_lines text
      = section_loop (any_in edu) (any_in (exp ++ skl)) false
                     (split newline text)
      /\ experience_lines text
         = section_loop (any_in exp) (any_in (edu ++ skl)) false
                        (split newline text)
      /\ skills_lines text
         = section_loop (any_in skl) (any_in (edu ++ exp)) false
                        (split newline text)
      /\ project_lines text
         = section_loop (contains "project") (any_in (edu ++ exp ++ skl)) false
                        (split newline text))
  /\ (forall keywords, incl keywords (edu ++ exp ++ skl) ->
                       any_in keywords "" = false)
  /\ contains "project" "" = false
  /\ (forall (header stop : string -> bool) (line : string) (rest : list string),
         let l := lower (strip line) in
         (header l = true ->
          forall flag, section_loop header stop flag (line :: rest)
                       = section_loop header stop true rest)
         /\ (header l = false -> stop l = true ->
             section_loop header stop true (line :: rest) = [])
         /\ (strip line = "" -> header "" = false -> stop "" = false ->
             section_loop header stop true (line :: rest)
             = section_loop header stop true rest)
         /\ (header l = false -> stop l = false -> strip line <> "" ->
             section_loop header stop true (line :: rest)
             = strip line :: section_loop header stop true rest))
  /\ (forall (header stop : string -> bool) (lines : list string),
         (forall l, In l lines -> stop (lower (strip l)) = true ->
                    header (lower (strip l)) = true) ->
         section_loop header stop true lines
         = filter (fun l => nonempty l && negb (header (lower l)))
                  (map strip lines))
  /\ (forall (header stop : string -> bool) (flag : bool)
             (lines : list string) (l : string),
         In l (section_loop header stop flag lines) -> nonempty l = true).
Proof.
  cbv zeta. split; [intros text; repeat split|].
  split.
  { intros keywords Hincl. apply any_in_empty. intros H.
    apply Hincl in H. simpl in H.
    repeat (destruct H as [H|H]; [discriminate H|]). exact H. }
  split; [reflexivity|]. split.
  - intros header stop line rest. repeat split.
    + intros Hh flag. now apply section_loop_header.
    + apply section_loop_stop.
    + apply section_loop_blank.
    + apply section_loop_capture.
  - split; [apply section_loop_to_end | apply section_loop_nonempty].
Qed.

(** Inside the education section, a line with the keyword "work" ends
    the capture. *)
Lemma section_capture_rules_witness :
  section_loop (any_in education_keywords)
               (any_in (experience_keywords ++ skills_keywords)) true
               ["  Work Experience "; "Acme Inc"] = [].
Proof.
  pose proof section_capture_rules as H. cbv zeta in H.
  destruct H as (_ & _ & _ & H & _).
  exact (proj1 (proj2 (H (any_in education_keywords)
                         (any_in (experience_keywords ++ skills_keywords))
                         "  Work Experience " ["Acme Inc"])) eq_refl eq_refl).
Defined.

(** C4 as stated fails: inside the education section a line with the
    contact keyword "contact", and one with "project", are captured and
    the capture goes on; a line with the experience keyword "work" that
    also holds "university" is taken as a header and the capture goes on
    after it. *)
Lemma contact_and_project_lines_do_not_stop_education :
  any_in contact_keywords (lower "Contact: Boston") = true
  /\ education_lines contact_in_education_text = ["Contact: Boston"; "MIT"]
  /\ contains "project" (lower "Project Athena") = true
  /\ education_lines project_in_education_text = ["Project Athena"; "MIT"]
  /\ any_in experience_keywords (lower "Worked at State University") = true
  /\ education_lines header_and_stop_text = ["B.S."].
Proof. repeat split. Qed.

End SectionFacts.

(** ** Education and work experience: one accumulating entry *)

Module EntryFacts.
Import Py Re ResumeParser Notions DictFacts.

Lemma degree_loop_spec patterns line entry :
  degree_loop patterns line entry
  = if existsb (fun pattern => found (search pattern line true)) patterns
    then dict_set "degree" line entry else entry.
Proof.
  induction patterns as [|p ps IH]; simpl; [reflexivity|].
  destruct (found (search p line true)); [reflexivity | exact IH].
Qed.

Lemma education_step_spec entry line :
  education_step entry line
  = set_some "year" (year_of line)
      (set_some "institution" (institution_of line)
         (set_some "degree" (degree_of line) entry)).
Proof.
  unfold education_step, year_of, institution_of, degree_of.
  rewrite degree_loop_spec.
  destruct (existsb _ degree_patterns);
  destruct (contains "university" (lower line) || contains "college" (lower line)
     || contains "institute" (lower line));
  destruct (search year_pattern line false); reflexivity.
Qed.

Lemma experience_step_spec entry line :
  experience_step entry line
  = set_some "duration" (duration_of line)
      (set_some "company" (company_of line)
         (set_some "position" (position_of line) entry)).
Proof.
  unfold experience_step, duration_of, company_of, position_of.
  destruct (any_in position_words (lower line));
  destruct (contains "inc" (lower line) || contains "corp" (lower line)
     || contains "llc" (lower line) || contains "ltd" (lower line));
  destruct (search date_pattern line true); reflexivity.
Qed.

(** A step that sets three distinct keys from three readings of the line. *)
Section ThreeFields.
Variables (k1 k2 k3 : string) (f1 f2 f3 : string -> option string).
Hypotheses (N12 : k1 <> k2) (N13 : k1 <> k3) (N23 : k2 <> k3).

Definition step3 (entry : pydict string) (line : string) : pydict string :=
  set_some k3 (f3 line) (set_some k2 (f2 line) (set_some k1 (f1 line) entry)).

Lemma fold_step3_get lines entry :
  let e := fold_left step3 lines entry in
  dict_get k1 e = or_get (last_value f1 lines) k1 entry
  /\ dict_get k2 e = or_get (last_value f2 lines) k2 entry
  /\ dict_get k3 e = or_get (last_value f3 lines) k3 entry.
Proof.
  revert entry; induction lines as [|line rest IH]; intros entry; cbn zeta.
  - repeat split.
  - cbn [fold_left last_value]. destruct (IH (step3 entry line)) as (H1 & H2 & H3).
    cbv zeta in H1, H2, H3. rewrite H1, H2, H3. unfold step3, or_get.
    repeat split.
    + destruct (last_value f1 rest); [reflexivity|].
      rewrite !dict_get_set_some_ne by congruence. apply dict_get_set_some_eq.
    + destruct (last_value f2 rest); [reflexivity|].
      rewrite dict_get_set_some_ne by congruence.
      rewrite dict_get_set_some_eq.
      destruct (f2 line); [reflexivity|].
      apply dict_get_set_some_ne; congruence.
    + destruct (last_value f3 rest); [reflexivity|].
      rewrite dict_get_set_some_eq.
      destruct (f3 line); [reflexivity|].
      rewrite !dict_get_set_some_ne by congruence. reflexivity.
Qed.

Lemma set_some_empty k v d : set_some k v d = [] <-> v = None /\ d = [].
Proof.
  destruct v; simpl.
  - split; [intros H; now apply dict_set_not_empty in H | intros [H _]; discriminate].
  - tauto.
Qed.

Lemma fold_step3_empty lines entry :
  fold_left step3 lines entry = [] <->
  entry = [] /\ forall l, In l lines -> f1 l = None /\ f2 l = None /\ f3 l = None.
Proof.
  revert entry; induction lines as [|line rest IH]; intros entry; simpl.
  - split; [intros ->; split; [reflexivity | intros l []] | tauto].
  - rewrite IH. unfold step3. rewrite !set_some_empty. split.
    + intros ((H3 & H2 & H1 & He) & Hr). split; [exact He|].
      intros l [<-|Hl]; auto.
    + intros (He & H). destruct (H line (or_introl eq_refl)) as (? & ? & ?).
      split; [tauto|]. intros l Hl. apply H. now right.
Qed.
End ThreeFields.

Lemma last_value_or_get f lines k :
  or_get (last_value f lines) k [] = last_value f lines.
Proof. now destruct (last_value f lines). Qed.

(** What the code after the loop returns, for a step of three fields. *)
Lemma single_entry k1 k2 k3 f1 f2 f3 (lines : list string) :
  k1 <> k2 -> k1 <> k3 -> k2 <> k3 ->
  let current_entry := fold_left (step3 k1 k2 k3 f1 f2 f3) lines [] in
  let out := if truthy current_entry then [] ++ [current_entry] else [] in
  List.length out <= 1
  /\ (out = [] <->
      forall l, In l lines -> f1 l = None /\ f2 l = None /\ f3 l = None)
  /\ (forall entry, In entry out ->
        out = [entry] /\ entry = current_entry
        /\ dict_get k1 entry = last_value f1 lines
        /\ dict_get k2 entry = last_value f2 lines
        /\ dict_get k3 entry = last_value f3 lines).
Proof.
  intros N12 N13 N23 current_entry out.
  pose proof (fold_step3_get k1 k2 k3 f1 f2 f3 N12 N13 N23 lines []) as G.
  pose proof (fold_step3_empty k1 k2 k3 f1 f2 f3 lines []) as E.
  cbv zeta in G. rewrite !last_value_or_get in G.
  fold current_entry in G, E. subst out.
  destruct current_entry as [|kv e]; cbn [truthy app List.length].
  - split; [lia|]. split.
    + split; [intros _; now apply E | reflexivity].
    + intros entry [].
  - split; [lia|]. split.
    + split; [discriminate|].
      intros H. exfalso.
      assert (X : kv :: e = []) by (apply E; split; [reflexivity | exact H]).
      discriminate X.
    + intros entry [<-|[]]. repeat split; apply G.
Qed.

Lemma fold_education_step lines e :
  fold_left education_step lines e
  = fold_left (step3 "degree" "institution" "year"
                     degree_of institution_of year_of) lines e.
Proof.
  revert e; induction lines as [|l ls IH]; intros e; simpl; [reflexivity|].
  now rewrite IH, education_step_spec.
Qed.

Lemma fold_experience_step lines e :
  fold_left experience_step lines e
  = fold_left (step3 "position" "company" "duration"
                     position_of company_of duration_of) lines e.
Proof.
  revert e; induction lines as [|l ls IH]; intros e; simpl; [reflexivity|].
  now rewrite IH, experience_step_spec.
Qed.

(** C5.  [_extract_education] and [_extract_work_experience] return at
    most one entry.  The entry is the one dictionary every line of the
    section writes to, appended once after the loop and only if it is not
    empty: the list is empty exactly when no line of the section gives a
    field, and otherwise each field of the single entry holds what the
    last line that gives this field gave. *)
Theorem education_and_experience_single_entry (text : string) :
  let education := _extract_education text in
  let experience := _extract_work_experience text in
  List.length education <= 1 /\ List.length experience <= 1
  /\ (education = [] <->
      forall l, In l (education_lines text) ->
                degree_of l = None /\ institution_of l = None
                /\ year_of l = None)
  /\ (forall entry, In entry education ->
        education = [entry]
        /\ entry = fold_left education_step (education_lines text) []
        /\ dict_get "degree" entry = last_value degree_of (education_lines text)
        /\ dict_get "institution" entry
           = last_value institution_of (education_lines text)
        /\ dict_get "year" entry = last_value year_of (education_lines text))
  /\ (experience = [] <->
      forall l, In l (experience_lines text) ->
                position_of l = None /\ company_of l = None
                /\ duration_of l = None)
  /\ (forall entry, In entry experience ->
        experience = [entry]
        /\ entry = fold_left experience_step (experience_lines text) []
        /\ dict_get "position" entry
           = last_value position_of (experience_lines text)
        /\ dict_get "company" entry
           = last_value company_of (experience_lines text)
        /\ dict_get "duration" entry
           = last_value duration_of (experience_lines text)).
Proof.
  cbv zeta. unfold _extract_education, _extract_work_experience.
  rewrite fold_education_step, fold_experience_step.
  destruct (single_entry "degree" "institution" "year"
              degree_of institution_of year_of (education_lines text))
    as (L1 & N1 & F1); try discriminate.
  destruct (single_entry "position" "company" "duration"
              position_of company_of duration_of (experience_lines text))
    as (L2 & N2 & F2); try discriminate.
  split; [exact L1|]. split; [exact L2|].
  split; [exact N1|]. split; [exact F1|]. split; [exact N2 | exact F2].
Qed.

(** Two degree lines, one entry; the degree is that of the later line. *)
Lemma education_and_experience_single_entry_witness :
  _extract_education two_degrees_text
  = [[("degree", "M.S. Physics, MIT Institute");
      ("year", "2010"); ("institution", "M.S. Physics, MIT Institute")]]
  /\ dict_get "degree"
              [("degree", "M.S. Physics, MIT Institute");
               ("year", "2010"); ("institution", "M.S. Physics, MIT Institute")]
     = last_value degree_of (education_lines two_degrees_text)
  /\ List.length (_extract_work_experience two_degrees_text) <= 1.
Proof.
  pose proof (education_and_experience_single_entry two_degrees_text) as H.
  cbv zeta in H. destruct H as (_ & L2 & _ & F1 & _).
  split; [reflexivity|]. split; [|exact L2].
  apply (F1 _ (or_introl eq_refl)).
Defined.

End EntryFacts.

(** ** Projects *)

Module ProjectFacts.
Import Py Re ResumeParser Notions SectionFacts.

Lemma project_loop_pairs lines :
  (forall l, In l lines -> nonempty l = true) ->
  project_loop [] lines = pair_up lines
  /\ forall name, nonempty name = true ->
       project_loop [("name", name)] lines
       = match lines with
         | description :: rest =>
             [("name", name); ("description", description)] :: pair_up rest
         | [] => []
         end.
Proof.
  induction lines as [|line rest IH]; intros H; [split; reflexivity|].
  assert (Hl : nonempty line = true) by (apply H; now left).
  destruct IH as [IH0 IH1]; [intros l Hin; apply H; now right|].
  split.
  - simpl. rewrite Hl. simpl. rewrite (IH1 line Hl). now destruct rest.
  - intros name Hn. simpl. unfold has_name. simpl. rewrite Hl, Hn. simpl.
    now rewrite IH0.
Qed.

Lemma pair_up_length lines : List.length (pair_up lines) = List.length lines / 2.
Proof.
  assert (G : forall n lines, List.length lines <= n ->
              List.length (pair_up lines) = List.length lines / 2).
  { induction n as [|n IH]; intros [|a [|b l]] Hn;
      cbn [pair_up List.length] in *; try reflexivity; try lia.
    rewrite (IH l) by lia.
    replace (S (S (List.length l))) with (List.length l + 1 * 2) by lia.
    rewrite Nat.div_add by lia. lia. }
  now apply (G (List.length lines)).
Qed.

Lemma pair_up_entries lines project :
  (forall l, In l lines -> nonempty l = true) ->
  In project (pair_up lines) ->
  exists name description,
    project = [("name", name); ("description", description)]
    /\ name <> "" /\ description <> "".
Proof.
  assert (G : forall n lines, List.length lines <= n ->
     (forall l, In l lines -> nonempty l = true) ->
     In project (pair_up lines) ->
     exists name description,
       project = [("name", name); ("description", description)]
       /\ name <> "" /\ description <> "").
  { induction n as [|n IH]; intros [|a [|b l]] Hn H Hin; simpl in *; try tauto; try lia.
    destruct Hin as [<-|Hin].
    - exists a, b. split; [reflexivity|].
      split; intros ->;
        [ specialize (H "" (or_introl eq_refl))
        | specialize (H "" (or_intror (or_introl eq_refl))) ];
        discriminate.
    - apply (IH l); auto; lia. }
  intros. now apply (G (List.length lines) lines).
Qed.

Lemma project_lines_nonempty text l :
  In l (project_lines text) -> nonempty l = true.
Proof. apply section_loop_nonempty. Qed.

(** C6.  The projects are the lines of the projects section taken two by
    two: every entry has exactly a name and a description, both non-empty,
    the description being the line after the name; an odd last line, a
    name with no line after it, is not published. *)
Theorem projects_have_name_and_description (text : string) :
  _extract_projects text = pair_up (project_lines text)
  /\ (forall project, In project (_extract_projects text) ->
        exists name description,
          project = [("name", name); ("description", description)]
          /\ name <> "" /\ description <> "")
  /\ List.length (_extract_projects text)
     = List.length (project_lines text) / 2.
Proof.
  assert (E : _extract_projects text = pair_up (project_lines text)).
  { unfold _extract_projects.
    apply (proj1 (project_loop_pairs _ (project_lines_nonempty text))). }
  rewrite E. split; [reflexivity|]. split.
  - intros project. apply pair_up_entries, project_lines_nonempty.
  - apply pair_up_length.
Qed.

(** Three project lines: one pair, the third line is dropped. *)
Lemma projects_have_name_and_description_witness :
  _extract_projects two_degrees_text
  = [[("name", "Spec"); ("description", "A verified parser")]]
  /\ project_lines two_degrees_text = ["Spec"; "A verified parser"; "Orphan"].
Proof.
  rewrite (proj1 (projects_have_name_and_description two_degrees_text)).
  split; reflexivity.
Defined.

End ProjectFacts.

(** ** The phone number *)

Module PhoneFacts.
Import Py Re ResumeParser Notions DictFacts.

Lemma personal_info_phone text :
  dict_get "phone" (_extract_personal_info text) = phone_loop phone_patterns text.
Proof.
  unfold _extract_personal_info.
  rewrite !dict_get_set_group_ne by discriminate.
  rewrite dict_get_set_some_eq.
  destruct (phone_loop _ _); [reflexivity|].
  rewrite dict_get_set_group_ne, dict_get_set_some_ne by discriminate.
  reflexivity.
Qed.

(** The loop returns the match of the first pattern that has one. *)
Lemma phone_loop_spec patterns text phone :
  phone_loop patterns text = Some phone <->
  exists before pattern after m,
    patterns = before ++ pattern :: after
    /\ (forall p, In p before -> search p text false = None)
    /\ search pattern text false = Some m /\ phone = group m.
Proof.
  induction patterns as [|p ps IH]; simpl.
  - split; [discriminate|]. intros (b & q & a & m & E & _). destruct b; discriminate.
  - destruct (search p text false) as [m|] eqn:S.
    + split.
      * intros [= <-]. exists [], p, ps, m. repeat split; auto. intros ? [].
      * intros ([|b bs] & q & a & m' & E & Hb & Hq & ->).
        -- injection E as <- <-. congruence.
        -- injection E as <- _. rewrite (Hb p (or_introl eq_refl)) in S. discriminate.
    + rewrite IH. split.
      * intros (b & q & a & m & -> & Hb & Hq & ->).
        exists (p :: b), q, a, m. repeat split; auto.
        intros p' [<-|H]; auto.
      * intros ([|b bs] & q & a & m & E & Hb & Hq & ->).
        -- injection E as <- <-. congruence.
        -- injection E as <- ->. exists bs, q, a, m. repeat split; auto.
           intros p' H. apply Hb. now right.
Qed.

Lemma phone_loop_none patterns text :
  phone_loop patterns text = None <->
  forall p, In p patterns -> search p text false = None.
Proof.
  induction patterns as [|p ps IH]; simpl.
  - split; [intros _ ? [] | reflexivity].
  - destruct (search p text false) eqn:S.
    + split; [discriminate|]. intros H. rewrite (H p) in S by now left. discriminate.
    + rewrite IH. split; [intros H q [<-|Hq]; auto | intros H q Hq; apply H; now right].
Qed.

(** The phone is the match of the first of the three patterns, in the
    order of the list, that matches somewhere in the whole text; with no
    match of any of them the key is left out. *)
Lemma phone_order text :
  dict_get "phone" (_extract_personal_info text)
  = match search phone_dashed text false with
    | Some m => Some (group m)
    | None =>
        match search phone_parenthesised text false with
        | Some m => Some (group m)
        | None =>
            match search phone_digits text false with
            | Some m => Some (group m)
            | None => None
            end
        end
    end.
Proof. rewrite personal_info_phone. reflexivity. Qed.

(** The order of the three patterns decides, not the place of the match:
    a dashed number after a run of ten digits is the one taken. *)
Lemma phone_priority_over_position :
  dict_get "phone" (_extract_personal_info "call 5551234567 or 555-123-4567")
  = Some "555-123-4567".
Proof. reflexivity. Qed.

Lemma search_from_sound ic r pos prev s m :
  search_from ic r pos prev s = Some m ->
  exists pre suf,
    s = (pre ++ suf)%string /\ start m = pos + String.length pre
    /\ match_here ic r (char_before prev pre) suf = Some (group m).
Proof.
  revert pos prev; induction s as [|c s IH]; intros pos prev; simpl.
  - destruct (match_here ic r prev "") as [g|] eqn:E; [|discriminate].
    intros [= <-]. exists "", "". simpl. repeat split; auto.
  - destruct (match_here ic r prev (String c s)) as [g|] eqn:E.
    + intros [= <-]. exists "", (String c s). simpl. repeat split; auto.
    + intros H. apply IH in H as (pre & suf & -> & Hs & Hm).
      exists (String c pre), suf. simpl. repeat split; auto. lia.
Qed.

Lemma parenthesised_needs_word_before prev s g :
  match_here false phone_parenthesised prev s = Some g ->
  word_before prev = true /\ exists rest, s = String "(" rest.
Proof.
  unfold match_here, phone_parenthesised. cbn [rmatch].
  destruct s as [|c s]; cbn [word_after match_text].
  - destruct (xorb _ _); discriminate.
  - unfold chr_eq. cbn [andb orb]. rewrite orb_false_r.
    destruct (Ascii.eqb_spec "(" c) as [<-|N].
    + cbn [is_word]. change (is_word "(") with false.
      rewrite xorb_false_r. destruct (word_before prev); [|discriminate].
      intros _. split; eauto.
    + destruct (xorb _ _); discriminate.
Qed.

Lemma parenthesised_search text m :
  search phone_parenthesised text false = Some m ->
  exists pre rest,
    text = (pre ++ String "(" rest)%string
    /\ word_before (char_before None pre) = true.
Proof.
  intros H. apply search_from_sound in H as (pre & suf & -> & _ & H).
  apply parenthesised_needs_word_before in H as (Hw & rest & ->).
  eauto.
Qed.

(** C7.  The second pattern begins with \b before the opening
    parenthesis, and a parenthesis is no word character: the pattern
    matches only where a letter, a digit or "_" comes just before "(".  A
    number written "(555) 123-4567" at the start of the text or after a
    blank, which the pattern "(ddd) ddd-dddd" of the specification
    matches, is never found by it: with nothing else in the text the phone
    key is left out, and a run of ten digits elsewhere in the text, which
    the third pattern finds, is taken although the second pattern comes
    first in the order. *)
Theorem parenthesised_phone_is_missed :
  (forall text m,
      search phone_parenthesised text false = Some m ->
      exists pre rest,
        text = (pre ++ String "(" rest)%string
        /\ word_before (char_before None pre) = true)
  /\ search parenthesised_as_specified "(555) 123-4567" false
     = Some {| start := 0; group := "(555) 123-4567" |}
  /\ search phone_parenthesised "(555) 123-4567" false = None
  /\ dict_get "phone" (_extract_personal_info "(555) 123-4567") = None
  /\ dict_get "phone" (_extract_personal_info "Phone: (555) 123-4567") = None
  /\ dict_get "phone" (_extract_personal_info "5551234567 (555) 123-4567")
     = Some "5551234567"
  /\ dict_get "phone" (_extract_personal_info "Tel(555) 123-4567")
     = Some "(555) 123-4567".
Proof.
  split; [exact parenthesised_search|]. repeat split.
Qed.

End PhoneFacts.

(** ** Parsing a file *)

Module ParseFacts.
Import Py Re ResumeParser Notions.

Section Readers.
Variable pdf_pages : string -> result (list string).
Variable docx_paragraphs : string -> result (list string).

(** C8.  A path whose lower-cased extension is none of .pdf, .docx and
    .doc makes [parse_resume] raise ValueError.  With one of the three
    the outcome is either the exception the document reader raised, or the
    document parsed from the whole text, and a document that is returned
    always has its six keys. *)
Theorem parse_resume_all_or_nothing (file_path : string) :
  let file_extension := lower (snd (splitext file_path)) in
  let outcome := parse_resume pdf_pages docx_paragraphs file_path in
  (file_extension <> ".pdf" -> file_extension <> ".docx" ->
   file_extension <> ".doc" ->
   outcome = inl (ValueError ("Unsupported file format: " ++ file_extension)%string))
  /\ (file_extension = ".pdf" \/ file_extension = ".docx"
      \/ file_extension = ".doc" ->
      (exists e, outcome = inl e
                 /\ (if String.eqb file_extension ".pdf"
                     then pdf_pages file_path else docx_paragraphs file_path)
                    = inl e)
      \/ (exists parts,
             (if String.eqb file_extension ".pdf"
              then pdf_pages file_path else docx_paragraphs file_path)
             = inr parts
             /\ outcome = inr (_parse_text_to_structured_data (concat_lines parts))
             /\ has_all_keys (_parse_text_to_structured_data (concat_lines parts))))
  /\ (forall document, outcome = inr document -> has_all_keys document).
Proof.
  cbv zeta. unfold parse_resume, _extract_pdf_text, _extract_docx_text.
  set (ext := lower (snd (splitext file_path))).
  assert (K : forall text, has_all_keys (_parse_text_to_structured_data text)).
  { intros text. unfold has_all_keys; simpl. repeat split; discriminate. }
  split; [|split].
  - intros N1 N2 N3.
    apply String.eqb_neq in N1, N2, N3. rewrite N1, N2, N3. reflexivity.
  - intros H.
    destruct (String.eqb_spec ext ".pdf") as [E1|N1].
    + destruct (pdf_pages file_path) as [e|parts]; [left | right]; eauto.
    + assert (E : String.eqb ext ".docx" || String.eqb ext ".doc" = true).
      { destruct H as [H|[H|H]]; [contradiction | |]; rewrite H; reflexivity. }
      rewrite E.
      destruct (docx_paragraphs file_path) as [e|parts]; [left | right]; eauto.
  - intros document.
    destruct (String.eqb ext ".pdf");
      [destruct (pdf_pages file_path)|
       destruct (String.eqb ext ".docx" || String.eqb ext ".doc");
       [destruct (docx_paragraphs file_path)|]];
      intros [= <-] || discriminate; apply K.
Qed.
End Readers.

(** A text file is refused; a PDF file that is read gives a whole
    document. *)
Lemma parse_resume_all_or_nothing_witness :
  parse_resume sample_pdf_pages sample_pdf_pages "resume.txt"
  = inl (ValueError "Unsupported file format: .txt")
  /\ has_all_keys
       (_parse_text_to_structured_data (concat_lines ["John Smith"; "Skills"])).
Proof.
  split.
  - apply (proj1 (parse_resume_all_or_nothing sample_pdf_pages sample_pdf_pages
                    "resume.txt")); discriminate.
  - apply (proj2 (proj2 (parse_resume_all_or_nothing
                           sample_pdf_pages sample_pdf_pages "cv.PDF"))).
    reflexivity.
Defined.

End ParseFacts.

(** ** The persisted JSON document *)

Module JsonFacts.
Import Py Re Json ResumeParser Notions ContainsFacts DictFacts.

Local Notation "a +++ b" :=
  (String.append a b) (at level 60, right associativity).

Lemma length_append (a b : string) :
  String.length (a +++ b) = String.length a + String.length b.
Proof. induction a as [|c a IH]; simpl; [reflexivity | now rewrite IH]. Qed.

(** *** String literals *)

Lemma scan_escape_char (c : ascii) (t : string) :
  scan_string (escape_char c +++ t) = cons_char c (scan_string t).
Proof.
  destruct c as [[] [] [] [] [] [] [] []]; reflexivity.
Qed.

Lemma scan_escape (s rest : string) :
  scan_string (escape s +++ String quote rest) = Some (s, rest).
Proof.
  induction s as [|c s IH]; [reflexivity|].
  cbn [escape]. rewrite append_assoc, scan_escape_char, IH. reflexivity.
Qed.

Lemma encode_str_append (s rest : string) :
  encode_str s +++ rest = String quote (escape s +++ String quote rest).
Proof. unfold encode_str. cbn [append]. now rewrite append_assoc. Qed.

(** *** Blanks *)

Lemma skip_ws_spaces n t : skip_ws (spaces n +++ t) = skip_ws t.
Proof. induction n as [|n IH]; [reflexivity | exact IH]. Qed.

Lemma skip_ws_newline_indent level t :
  skip_ws (newline_indent level +++ t) = skip_ws t.
Proof. unfold newline_indent. cbn [append skip_ws]. apply skip_ws_spaces. Qed.

Lemma encode_head level v rest :
  exists c t, encode level v +++ rest = String c t
              /\ is_ws c = false
              /\ (c = quote \/ c = "["%char \/ c = "{"%char).
Proof.
  destruct v as [s|[|x xs]|[|[k x] ms]]; cbn [encode];
    try rewrite encode_str_append; cbn [append]; eauto 10.
Qed.

Lemma skip_ws_encode level v rest :
  skip_ws (encode level v +++ rest) = encode level v +++ rest.
Proof.
  destruct (encode_head level v rest) as (c & t & -> & H & _).
  cbn [skip_ws]. now rewrite H.
Qed.

(** *** Induction on values *)

Lemma value_rect' (P : value -> Prop) :
  (forall s, P (VStr s)) ->
  (forall items, Forall P items -> P (VList items)) ->
  (forall members, Forall (fun kv => P (snd kv)) members -> P (VDict members)) ->
  forall v, P v.
Proof.
  intros HS HL HD. fix IH 1. intros [s|items|members].
  - apply HS.
  - apply HL. induction items as [|x xs IHx]; constructor; [apply IH | exact IHx].
  - apply HD. induction members as [|[k x] ms IHm]; constructor;
      [apply IH | exact IHm].
Qed.

(** *** Dictionaries read back *)

Lemma dict_set_fresh_any {V} k (v : V) (d : pydict V) :
  ~ In k (map fst d) -> dict_set k v d = d ++ [(k, v)].
Proof.
  induction d as [|[k' v'] d IH]; simpl; intros H; [reflexivity|].
  destruct (String.eqb_spec k' k) as [->|N]; [exfalso; auto|].
  rewrite IH by tauto. reflexivity.
Qed.

Lemma dict_set_fresh {V} k (v : V) d :
  ~ In k (map fst d) -> dict_set k v d = d ++ [(k, v)].
Proof.
  induction d as [|[k' v'] d IH]; simpl; intros H; [reflexivity|].
  destruct (String.eqb_spec k' k) as [->|N]; [exfalso; auto|].
  rewrite IH by tauto. reflexivity.
Qed.

Lemma fold_dict_set (pairs acc : list (string * value)) :
  NoDup (map fst (acc ++ pairs)) ->
  fold_left (fun d kv => dict_set (fst kv) (snd kv) d) pairs acc = acc ++ pairs.
Proof.
  revert acc; induction pairs as [|[k v] ps IH]; intros acc H; simpl.
  - now rewrite app_nil_r.
  - rewrite dict_set_fresh.
    + rewrite IH; rewrite <- app_assoc; [reflexivity | exact H].
    + rewrite map_app in H. simpl in H. apply NoDup_remove_2 in H.
      intros X. apply H. apply in_or_app. now left.
Qed.

Lemma dict_of_pairs_unique pairs :
  NoDup (map fst pairs) -> dict_of_pairs pairs = pairs.
Proof. intros H. unfold dict_of_pairs. now rewrite fold_dict_set. Qed.

(** *** Containers *)

Lemma concat_cons2 sep (a b : string) l :
  String.concat sep (a :: b :: l) = a +++ sep +++ String.concat sep (b :: l).
Proof. reflexivity. Qed.

Lemma skip_ws_items level items tail :
  items <> [] ->
  skip_ws (String.concat (item_sep level) (map (encode (S level)) items) +++ tail)
  = String.concat (item_sep level) (map (encode (S level)) items) +++ tail.
Proof.
  destruct items as [|x [|y l]]; intros H; [contradiction| |].
  - apply skip_ws_encode.
  - cbn [map]. rewrite concat_cons2, append_assoc. apply skip_ws_encode.
Qed.

Section Items.
Variable level : nat.
Variable rest : string.

Lemma parse_items_encode items :
  Forall (fun v => forall level rest fuel,
              weight v <= fuel -> unique_keys v ->
              parse_value fuel (encode level v +++ rest) = Some (v, rest)) items ->
  forall fuel,
    items <> [] ->
    list_sum (map (fun item => S (weight item)) items) <= fuel ->
    Forall unique_keys items ->
    parse_items fuel
      (String.concat (item_sep level) (map (encode (S level)) items)
       +++ newline_indent level +++ String "]" rest)
    = Some (items, rest).
Proof.
  induction 1 as [|x xs Hx Hxs IH]; intros fuel Hne Hfuel Hu; [contradiction|].
  inversion Hu as [|? ? Ux Uxs]; subst.
  cbn [map list_sum fold_right] in Hfuel.
  destruct fuel as [|m]; [lia|]. cbn [parse_items].
  destruct xs as [|y ys]; cbn [map list_sum fold_right] in Hfuel.
  - cbn [map String.concat].
    rewrite Hx by (lia || assumption).
    rewrite skip_ws_newline_indent. reflexivity.
  - cbn [map]. rewrite concat_cons2, !append_assoc.
    rewrite Hx by (lia || assumption).
    unfold item_sep at 1. cbn [append skip_ws is_ws Ascii.eqb Bool.eqb orb].
    rewrite skip_ws_newline_indent.
    change (encode (S level) y :: map (encode (S level)) ys)
      with (map (encode (S level)) (y :: ys)).
    rewrite skip_ws_items by discriminate.
    rewrite IH;
      [reflexivity | discriminate | cbn [map list_sum fold_right]; lia
      | assumption].
Qed.
End Items.

Section Members.
Variable level : nat.
Variable rest : string.

Lemma parse_members_encode members :
  Forall (fun kv => forall level rest fuel,
              weight (snd kv) <= fuel -> unique_keys (snd kv) ->
              parse_value fuel (encode level (snd kv) +++ rest)
              = Some (snd kv, rest)) members ->
  forall fuel,
    members <> [] ->
    list_sum (map (fun '(_, item) => S (weight item)) members) <= fuel ->
    Forall (fun kv => unique_keys (snd kv)) members ->
    exists t,
      String.concat (item_sep level) (map (member_text level) members)
      +++ newline_indent level +++ String "}" rest
      = String quote t
      /\ parse_members fuel t = Some (members, rest).
Proof.
  induction 1 as [|[k x] ms Hx Hms IH]; intros fuel Hne Hfuel Hu;
    [contradiction|].
  inversion Hu as [|? ? Ux Uxs]; subst. cbn [snd] in Hx, Ux.
  cbn [map list_sum fold_right] in Hfuel.
  destruct fuel as [|m]; [lia|].
  destruct ms as [|[k' y] ms']; cbn [map list_sum fold_right] in Hfuel.
  - cbn [map String.concat member_text].
    rewrite !append_assoc, encode_str_append.
    eexists; split; [reflexivity|].
    cbn [parse_members]. rewrite scan_escape.
    cbn [append skip_ws is_ws Ascii.eqb Bool.eqb orb].
    rewrite skip_ws_encode, Hx by (lia || assumption).
    rewrite skip_ws_newline_indent. reflexivity.
  - destruct (IH m) as (t & Et & Pt);
      [discriminate | cbn [map list_sum fold_right]; lia | assumption |].
    cbn [map]. rewrite concat_cons2.
    change (member_text level (k, x))
      with (encode_str k +++ ": " +++ encode (S level) x).
    rewrite !append_assoc, encode_str_append.
    eexists; split; [reflexivity|].
    cbn [parse_members]. rewrite scan_escape.
    cbn [append skip_ws is_ws Ascii.eqb Bool.eqb orb].
    rewrite skip_ws_encode, Hx by (lia || assumption).
    unfold item_sep at 1. cbn [append skip_ws is_ws Ascii.eqb Bool.eqb orb].
    rewrite skip_ws_newline_indent.
    change (member_text level (k', y) :: map (member_text level) ms')
      with (map (member_text level) ((k', y) :: ms')).
    rewrite Et. cbn [skip_ws is_ws quote Ascii.eqb Bool.eqb orb].
    rewrite Pt. reflexivity.
Qed.
End Members.

Lemma member_text_map level members :
  map (fun '(key, item) => encode_str key +++ ": " +++ encode (S level) item)
      members
  = map (member_text level) members.
Proof. apply map_ext. now intros [k x]. Qed.

(** The reader inverts the writer, at any depth and before any text. *)
Lemma parse_encode v :
  forall level rest fuel,
    weight v <= fuel -> unique_keys v ->
    parse_value fuel (encode level v +++ rest) = Some (v, rest).
Proof.
  induction v as [s|items IH|members IH] using value_rect';
    intros level rest fuel Hfuel Hu;
    (destruct fuel as [|n]; [cbn [weight] in Hfuel; lia|]).
  - cbn [encode parse_value]. rewrite encode_str_append.
    cbn [Ascii.eqb Bool.eqb quote]. now rewrite scan_escape.
  - destruct items as [|x xs]; [reflexivity|].
    inversion Hu as [|? Uitems|]; subst.
    cbn [weight] in Hfuel.
    change (encode level (VList (x :: xs)))
      with ("[" +++ newline_indent (S level)
            +++ String.concat (item_sep level) (map (encode (S level)) (x :: xs))
            +++ newline_indent level +++ "]").
    rewrite !append_assoc.
    cbn [append parse_value Ascii.eqb Bool.eqb quote].
    rewrite skip_ws_newline_indent, skip_ws_items by discriminate.
    pose proof (parse_items_encode level rest (x :: xs) IH n
                  ltac:(discriminate) ltac:(lia) Uitems) as P.
    cbn [append] in P.
    destruct (encode_head (S level) x
                (match xs with
                 | [] => EmptyString
                 | _ => item_sep level
                        +++ String.concat (item_sep level)
                                          (map (encode (S level)) xs)
                 end +++ newline_indent level +++ String "]" rest))
      as (c & t & E & _ & Hc).
    assert (E' : String.concat (item_sep level) (map (encode (S level)) (x :: xs))
                 +++ newline_indent level +++ String "]" rest = String c t).
    { rewrite <- E. destruct xs; cbn [map String.concat];
        now rewrite ?append_assoc. }
    rewrite E' in P |- *. rewrite P.
    destruct Hc as [->|[->| ->]]; reflexivity.
  - destruct members as [|[k x] ms]; [reflexivity|].
    inversion Hu as [| |? Hnd Umembers]; subst.
    cbn [weight] in Hfuel.
    change (encode level (VDict ((k, x) :: ms)))
      with ("{" +++ newline_indent (S level)
            +++ String.concat (item_sep level)
                  (map (fun '(key, item) =>
                          encode_str key +++ ": " +++ encode (S level) item)
                       ((k, x) :: ms))
            +++ newline_indent level +++ "}").
    rewrite member_text_map, !append_assoc.
    cbn [append parse_value Ascii.eqb Bool.eqb quote].
    rewrite skip_ws_newline_indent.
    destruct (parse_members_encode level rest ((k, x) :: ms) IH n
                ltac:(discriminate) ltac:(lia) Umembers) as (t & Et & Pt).
    cbn [append] in Et. rewrite Et.
    cbn [skip_ws is_ws quote Ascii.eqb Bool.eqb orb].
    rewrite Pt, dict_of_pairs_unique by assumption. reflexivity.
Qed.


(** *** Enough fuel *)

Lemma length_newline_indent level : 1 <= String.length (newline_indent level).
Proof. unfold newline_indent. cbn [String.length]. lia. Qed.

Lemma weight_items_length (f : value -> string) sep items :
  1 <= String.length sep ->
  Forall (fun v => weight v <= String.length (f v)) items ->
  list_sum (map (fun item => S (weight item)) items)
  <= String.length (String.concat sep (map f items)) + 1.
Proof.
  intros Hsep. induction 1 as [|x xs Hx Hxs IH]; [cbn; lia|].
  cbn [map list_sum fold_right]. destruct xs as [|y ys].
  - cbn [map String.concat list_sum fold_right]. lia.
  - cbn [map]. rewrite concat_cons2, !length_append.
    cbn [map list_sum fold_right] in IH |- *. lia.
Qed.

Lemma weight_members_length (f : string * value -> string) sep members :
  1 <= String.length sep ->
  Forall (fun kv => weight (snd kv) <= String.length (f kv)) members ->
  list_sum (map (fun '(_, item) => S (weight item)) members)
  <= String.length (String.concat sep (map f members)) + 1.
Proof.
  intros Hsep. induction 1 as [|[k x] xs Hx Hxs IH]; [cbn; lia|].
  cbn [map list_sum fold_right snd] in *. destruct xs as [|[k' y] ys].
  - cbn [map String.concat list_sum fold_right]. lia.
  - cbn [map]. rewrite concat_cons2, !length_append.
    cbn [map list_sum fold_right] in IH |- *. lia.
Qed.

Lemma weight_le_length v :
  forall level, weight v <= String.length (encode level v).
Proof.
  induction v as [s|items IH|members IH] using value_rect'; intros level.
  - cbn. lia.
  - destruct items as [|x xs]; [cbn; lia|].
    change (encode level (VList (x :: xs)))
      with ("[" +++ newline_indent (S level)
            +++ String.concat (item_sep level) (map (encode (S level)) (x :: xs))
            +++ newline_indent level +++ "]").
    cbn [weight]. rewrite !length_append.
    pose proof (weight_items_length (encode (S level)) (item_sep level)
                  (x :: xs)) as W.
    pose proof (length_newline_indent (S level)).
    pose proof (length_newline_indent level).
    cbn [String.length] in *.
    assert (1 <= String.length (item_sep level)) by (unfold item_sep; cbn; lia).
    assert (Forall (fun v => weight v <= String.length (encode (S level) v))
                   (x :: xs)).
    { eapply Forall_impl; [|exact IH]. intros v Hv. apply Hv. }
    specialize (W ltac:(assumption) ltac:(assumption)). lia.
  - destruct members as [|[k x] ms]; [cbn; lia|].
    change (encode level (VDict ((k, x) :: ms)))
      with ("{" +++ newline_indent (S level)
            +++ String.concat (item_sep level)
                  (map (fun '(key, item) =>
                          encode_str key +++ ": " +++ encode (S level) item)
                       ((k, x) :: ms))
            +++ newline_indent level +++ "}").
    rewrite member_text_map.
    cbn [weight]. rewrite !length_append.
    pose proof (weight_members_length (member_text level) (item_sep level)
                  ((k, x) :: ms)) as W.
    pose proof (length_newline_indent (S level)).
    pose proof (length_newline_indent level).
    cbn [String.length] in *.
    assert (1 <= String.length (item_sep level)) by (unfold item_sep; cbn; lia).
    assert (Forall (fun kv => weight (snd kv)
                              <= String.length (member_text level kv))
                   ((k, x) :: ms)).
    { eapply Forall_impl; [|exact IH]. intros [k' v] Hv. cbn [snd] in *.
      unfold member_text. rewrite !length_append. specialize (Hv (S level)). lia. }
    specialize (W ltac:(assumption) ltac:(assumption)). lia.
Qed.

Lemma append_nil_r (s : string) : s +++ "" = s.
Proof. induction s as [|c s IH]; cbn; [reflexivity | now rewrite IH]. Qed.

(** Reading back what was written gives the value again. *)
Lemma loads_dumps v : unique_keys v -> loads (dumps v) = Some v.
Proof.
  intros Hu. unfold loads, dumps.
  pose proof (skip_ws_encode 0 v "") as S. rewrite append_nil_r in S. rewrite S.
  pose proof (parse_encode v 0 "" (String.length (encode 0 v))
                (weight_le_length v 0) Hu) as P.
  rewrite append_nil_r in P. rewrite P. reflexivity.
Qed.

(** *** The dictionaries the parser builds have no key twice *)

Lemma dict_set_keys_present {V} k (v : V) d :
  In k (map fst d) -> map fst (dict_set k v d) = map fst d.
Proof.
  induction d as [|[k' v'] d IH]; simpl; [tauto|].
  destruct (String.eqb_spec k' k) as [->|N]; [reflexivity|].
  intros [E|H]; [contradiction|]. simpl. now rewrite IH.
Qed.

Lemma dict_set_nodup {V} k (v : V) d :
  NoDup (map fst d) -> NoDup (map fst (dict_set k v d)).
Proof.
  intros H. destruct (in_dec string_dec k (map fst d)) as [Hin|Hout].
  - now rewrite dict_set_keys_present.
  - rewrite dict_set_fresh_any by assumption. rewrite map_app. simpl.
    apply NoDup_app; [assumption | repeat constructor; simpl; tauto |].
    intros x Hx [<-|[]]. contradiction.
Qed.

Lemma set_some_nodup k v d :
  NoDup (map fst d) -> NoDup (map fst (set_some k v d)).
Proof. destruct v; simpl; [apply dict_set_nodup | tauto]. Qed.

Lemma set_group_nodup k m d :
  NoDup (map fst d) -> NoDup (map fst (set_group k m d)).
Proof. destruct m; simpl; [apply dict_set_nodup | tauto]. Qed.

Lemma personal_info_nodup text : NoDup (map fst (_extract_personal_info text)).
Proof.
  unfold _extract_personal_info.
  repeat first [apply set_some_nodup | apply set_group_nodup]. constructor.
Qed.

Lemma degree_loop_nodup patterns line entry :
  NoDup (map fst entry) -> NoDup (map fst (degree_loop patterns line entry)).
Proof.
  intros H. induction patterns as [|p ps IH]; simpl; [assumption|].
  destruct (found _); [now apply dict_set_nodup | assumption].
Qed.

Lemma education_step_nodup entry line :
  NoDup (map fst entry) -> NoDup (map fst (education_step entry line)).
Proof.
  intros H. unfold education_step. apply set_group_nodup.
  destruct (_ || _); [apply dict_set_nodup|]; now apply degree_loop_nodup.
Qed.

Lemma experience_step_nodup entry line :
  NoDup (map fst entry) -> NoDup (map fst (experience_step entry line)).
Proof.
  intros H. unfold experience_step. apply set_group_nodup.
  destruct (_ || _); [apply dict_set_nodup|];
    (destruct (any_in _ _); [now apply dict_set_nodup | assumption]).
Qed.

Lemma fold_nodup (step : pydict string -> string -> pydict string) lines entry :
  (forall e l, NoDup (map fst e) -> NoDup (map fst (step e l))) ->
  NoDup (map fst entry) -> NoDup (map fst (fold_left step lines entry)).
Proof.
  intros Hstep. revert entry; induction lines as [|l ls IH]; intros entry H;
    simpl; [assumption | apply IH, Hstep, H].
Qed.

Lemma project_loop_nodup lines current_project :
  NoDup (map fst current_project) ->
  Forall (fun project => NoDup (map fst project))
         (project_loop current_project lines).
Proof.
  revert current_project; induction lines as [|l ls IH];
    intros cur H; simpl; [constructor|].
  destruct (nonempty l && negb (has_name cur)).
  - apply IH. now apply dict_set_nodup.
  - destruct (nonempty l); [|now apply IH].
    constructor; [now apply dict_set_nodup | apply IH; constructor].
Qed.

Lemma entry_value_unique entry :
  NoDup (map fst entry) -> unique_keys (entry_value entry).
Proof.
  intros H. unfold entry_value. constructor.
  - rewrite map_map.
    replace (map (fun x => fst (let '(key, v) := x in (key, VStr v))) entry)
      with (map fst entry); [assumption|].
    apply map_ext. now intros [k v].
  - apply Forall_forall. intros [k v] Hin.
    apply in_map_iff in Hin as ([k' v'] & [= <- <-] & _). constructor.
Qed.

Lemma entries_unique entries :
  Forall (fun e => NoDup (map fst e)) entries ->
  unique_keys (VList (map entry_value entries)).
Proof.
  intros H. constructor. apply Forall_forall. intros v Hin.
  apply in_map_iff in Hin as (e & <- & He).
  apply entry_value_unique. rewrite Forall_forall in H. now apply H.
Qed.

Lemma strings_unique l : unique_keys (VList (map VStr l)).
Proof.
  constructor. apply Forall_forall. intros v Hin.
  apply in_map_iff in Hin as (s & <- & _). constructor.
Qed.

Lemma parsed_document_unique text :
  unique_keys (as_value (_parse_text_to_structured_data text)).
Proof.
  unfold as_value, _parse_text_to_structured_data.
  cbn [personal_info education work_experience skills projects raw_text
       optional app].
  constructor.
  - cbn [map fst]. repeat constructor; cbn [In]; intuition discriminate.
  - repeat (apply Forall_cons; [cbn [snd]|]); [| | | | | |apply Forall_nil].
    + apply entry_value_unique, personal_info_nodup.
    + apply entries_unique. unfold _extract_education.
      destruct (truthy _); repeat constructor.
      apply fold_nodup; [apply education_step_nodup | constructor].
    + apply entries_unique. unfold _extract_work_experience.
      destruct (truthy _); repeat constructor.
      apply fold_nodup; [apply experience_step_nodup | constructor].
    + apply strings_unique.
    + apply entries_unique. apply project_loop_nodup. constructor.
    + constructor.
Qed.

(** *** The document is determined by its value *)

Lemma as_value_fields d :
  let m := members_of (as_value d) in
  dict_get "personal_info" m = option_map entry_value (personal_info d)
  /\ dict_get "education" m
     = option_map (fun l => VList (map entry_value l)) (education d)
  /\ dict_get "work_experience" m
     = option_map (fun l => VList (map entry_value l)) (work_experience d)
  /\ dict_get "skills" m = option_map (fun l => VList (map VStr l)) (skills d)
  /\ dict_get "projects" m
     = option_map (fun l => VList (map entry_value l)) (projects d)
  /\ dict_get "raw_text" m = option_map VStr (raw_text d).
Proof.
  destruct d as [[?|] [?|] [?|] [?|] [?|] [?|]]; repeat split; reflexivity.
Qed.

Lemma option_map_inj {A B} (f : A -> B) (o1 o2 : option A) :
  (forall x y, f x = f y -> x = y) ->
  option_map f o1 = option_map f o2 -> o1 = o2.
Proof.
  intros Hf. destruct o1, o2; simpl; intros H; try discriminate; [|reflexivity].
  injection H as H. now rewrite (Hf _ _ H).
Qed.

Lemma map_inj {A B} (f : A -> B) (l1 l2 : list A) :
  (forall x y, f x = f y -> x = y) -> map f l1 = map f l2 -> l1 = l2.
Proof.
  intros Hf. revert l2; induction l1 as [|a l1 IH]; intros [|b l2] H;
    simpl in H; try discriminate; [reflexivity|].
  injection H as H1 H2. now rewrite (Hf _ _ H1), (IH _ H2).
Qed.

Lemma entry_value_inj e1 e2 : entry_value e1 = entry_value e2 -> e1 = e2.
Proof.
  unfold entry_value. intros [= H]. revert H. apply map_inj.
  intros [k1 v1] [k2 v2] [= -> ->]. reflexivity.
Qed.

Lemma entries_inj l1 l2 :
  VList (map entry_value l1) = VList (map entry_value l2) -> l1 = l2.
Proof. intros [= H]. revert H. apply map_inj, entry_value_inj. Qed.

Lemma as_value_inj d1 d2 : as_value d1 = as_value d2 -> d1 = d2.
Proof.
  intros H.
  pose proof (as_value_fields d1) as (A1 & A2 & A3 & A4 & A5 & A6).
  pose proof (as_value_fields d2) as (B1 & B2 & B3 & B4 & B5 & B6).
  cbv zeta in *. rewrite H in A1, A2, A3, A4, A5, A6.
  rewrite A1 in B1. rewrite A2 in B2. rewrite A3 in B3.
  rewrite A4 in B4. rewrite A5 in B5. rewrite A6 in B6.
  apply option_map_inj in B1; [|apply entry_value_inj].
  apply option_map_inj in B2; [|apply entries_inj].
  apply option_map_inj in B3; [|apply entries_inj].
  apply option_map_inj in B4;
    [|intros x y [= E]; revert E; apply map_inj; now intros ? ? [= ->]].
  apply option_map_inj in B5; [|apply entries_inj].
  apply option_map_inj in B6; [|now intros ? ? [= ->]].
  destruct d1, d2; simpl in *; congruence.
Qed.

Section Files.
Variable writable : string -> bool.

Lemma saved_value_reads_back data output_file files files' :
  unique_keys (as_value data) ->
  save_parsed_data writable data output_file files = inr files' ->
  exists content,
    dict_get output_file files' = Some content
    /\ content = dumps (as_value data)
    /\ loads content = Some (as_value data)
    /\ forall other, loads content = Some (as_value other) -> other = data.
Proof.
  intros Hu. unfold save_parsed_data.
  destruct (writable output_file); [|discriminate].
  intros [= <-]. exists (dumps (as_value data)).
  rewrite dict_get_set_eq. rewrite (loads_dumps _ Hu).
  repeat split. intros other E. apply as_value_inj. congruence.
Qed.

(** C9.  Round trip.  When [save_parsed_data] succeeds on a parsed
    document, the content of the output file is the JSON text of the
    document, and reading this text back gives the value of the document
    again: an object with the same keys and the same field values.  The
    document itself is determined by that value. *)
Theorem saved_document_reads_back (text output_file : string)
        (files files' : pydict string) :
  let data := _parse_text_to_structured_data text in
  save_parsed_data writable data output_file files = inr files' ->
  exists content,
    dict_get output_file files' = Some content
    /\ content = dumps (as_value data)
    /\ loads content = Some (as_value data)
    /\ forall other, loads content = Some (as_value other) -> other = data.
Proof.
  intros data. apply saved_value_reads_back, parsed_document_unique.
Qed.
End Files.

(** A document with a quote and line breaks in its text, saved and read
    back. *)
Lemma saved_document_reads_back_witness :
  exists content,
    dict_get "parsed_resume.json"
             (dict_set "parsed_resume.json"
                (dumps (as_value (_parse_text_to_structured_data sample_text))) [])
    = Some content
    /\ loads content = Some (as_value (_parse_text_to_structured_data sample_text)).
Proof.
  destruct (saved_document_reads_back (fun _ => true) sample_text
              "parsed_resume.json" [] _ eq_refl) as (content & H1 & _ & H2 & _).
  exists content. split; [exact H1 | exact H2].
Defined.

End JsonFacts.

(** ** The classifier and the direct resolver *)

Module ResolverFacts.
Import Py AIExpansion Notions ContainsFacts.

(** The first block that returns decides the answer. *)
Lemma then_some {A} (v : A) (rest : block A) : (Some v >> rest) = Some v.
Proof. reflexivity. Qed.

Lemma then_none {A} (rest : block A) : (None >> rest) = rest.
Proof. reflexivity. Qed.

Lemma mentions_personal_false (q : string) :
  mentions_personal q = false <->
  contains "name" q = false /\ contains "email" q = false
  /\ contains "phone" q = false /\ contains "linkedin" q = false
  /\ contains "github" q = false.
Proof.
  unfold mentions_personal, any_in. cbn [existsb].
  rewrite !orb_false_iff. tauto.
Qed.

Lemma get_direct_answer_after_personal question resume_data :
  mentions_personal (lower question) = false ->
  get_direct_answer question resume_data
  = after_personal (lower question) resume_data.
Proof.
  intros H. apply mentions_personal_false in H as (Hn & He & Hp & Hl & Hg).
  unfold get_direct_answer, after_personal.
  rewrite (contains_full_name _ Hn), Hn, He, Hp, Hl, Hg.
  reflexivity.
Qed.

Lemma get_direct_answer_name question resume_data :
  contains "name" (lower question) = true ->
  get_direct_answer question resume_data
  = Some (get_or (or_empty (personal_info resume_data)) "name" "").
Proof.
  intros H. unfold get_direct_answer. rewrite H. reflexivity.
Qed.

(** C1.  First match wins, and "name" is the first keyword: a question
    whose lower-cased form contains "name" is answered with the name of
    the personal information (the empty string when there is none),
    whatever else the question contains; the answer depends on no other
    part of the resume, so no later branch takes part in it. *)
Theorem get_direct_answer_name_first (question : string)
        (resume_data : ResumeDocument) :
  contains "name" (lower question) = true ->
  get_direct_answer question resume_data
  = Some (get_or (or_empty (personal_info resume_data)) "name" "")
  /\ (forall other : ResumeDocument,
        get_or (or_empty (personal_info other)) "name" ""
        = get_or (or_empty (personal_info resume_data)) "name" "" ->
        get_direct_answer question other
        = get_direct_answer question resume_data).
Proof.
  intros H. split.
  - apply get_direct_answer_name, H.
  - intros other E. rewrite !get_direct_answer_name by exact H.
    now rewrite E.
Qed.

(** "Full name and email" is answered with the name. *)
Lemma get_direct_answer_name_first_witness :
  contains "email" (lower "Full name and email") = true
  /\ get_direct_answer "Full name and email" sample_resume = Some "John Smith".
Proof.
  split; [reflexivity|].
  exact (proj1 (get_direct_answer_name_first
                  "Full name and email" sample_resume eq_refl)).
Defined.

(** C2.  A question is abstract exactly when the field is a textarea, or
    the question is longer than 50 characters, or its lower-cased form
    contains one of the fourteen keywords; the answer is a function of the
    two arguments alone. *)
Theorem is_abstract_question_iff (question field_type : string) :
  (is_abstract_question question field_type = true <->
   field_type = "textarea"
   \/ 50 < String.length question
   \/ exists keyword,
       In keyword ["why"; "describe"; "explain"; "tell us"; "what motivates";
                   "your greatest"; "how would you"; "what interests you";
                   "your goals"; "your passion"; "cover letter";
                   "personal statement"; "objective"; "summary"]
       /\ contains keyword (lower question) = true)
  /\ (forall question' field_type',
        question' = question -> field_type' = field_type ->
        is_abstract_question question' field_type'
        = is_abstract_question question field_type).
Proof.
  split; [|intros ? ? -> ->; reflexivity].
  unfold is_abstract_question.
  destruct (String.eqb_spec field_type "textarea") as [->|Hft]; cbn [orb].
  { split; auto. }
  destruct (Nat.ltb_spec 50 (String.length question)) as [Hlen|Hlen].
  { split; auto. }
  unfold any_in, abstract_keywords. rewrite existsb_exists. split.
  - intros [k Hk]. right; right. exists k. exact Hk.
  - intros [E|[L|[k Hk]]]; [contradiction | lia | exists k; exact Hk].
Qed.

(** The two questions of the specification's examples. *)
Lemma is_abstract_question_iff_witness :
  is_abstract_question "Why do you want this job?" "text" = true
  /\ is_abstract_question "Email" "email" = false.
Proof.
  split.
  - apply (proj1 (is_abstract_question_iff "Why do you want this job?" "text")).
    right; right. exists "why". split; [simpl; auto | reflexivity].
  - destruct (is_abstract_question "Email" "email") eqn:E; [|reflexivity].
    apply (proj1 (is_abstract_question_iff "Email" "email")) in E.
    destruct E as [E|[E|[k [Hk E]]]].
    + discriminate E.
    + simpl in E. lia.
    + simpl in Hk.
      repeat (destruct Hk as [<-|Hk]; [discriminate E|]). destruct Hk.
Defined.

Lemma get_or_missing {V} (d : pydict V) (k : string) (default : V) :
  dict_get k d = None -> get_or d k default = default.
Proof. unfold get_or; intros ->; reflexivity. Qed.

(** First match wins among the five personal-information keywords. *)
Lemma get_direct_answer_personal question resume_data before k after :
  ["name"; "email"; "phone"; "linkedin"; "github"] = before ++ k :: after ->
  (forall k', In k' before -> contains k' (lower question) = false) ->
  contains k (lower question) = true ->
  get_direct_answer question resume_data
  = Some (get_or (or_empty (personal_info resume_data)) k "").
Proof.
  intros E Hb Hk. unfold get_direct_answer.
  destruct before as [|b1 [|b2 [|b3 [|b4 [|b5 [|b6 before]]]]]];
    simpl in E; inversion E; subst;
    try (destruct before; discriminate);
    repeat match goal with
      | |- context [contains ?x (lower question)] =>
          first [ rewrite Hk
                | rewrite (Hb x) by (simpl; auto 10)
                | rewrite (contains_full_name (lower question))
                    by (apply Hb; simpl; auto 10) ]
      end; reflexivity.
Qed.

Lemma after_personal_none q rd :
  after_personal q rd = None <->
  ((contains "university" q = false /\ contains "school" q = false)
   \/ or_empty (education rd) = [])
  /\ (contains "degree" q = false \/ or_empty (education rd) = [])
  /\ ((contains "company" q = false /\ contains "employer" q = false)
      \/ or_empty (work_experience rd) = [])
  /\ ((contains "position" q = false /\ contains "title" q = false)
      \/ or_empty (work_experience rd) = [])
  /\ contains "skill" q = false.
Proof.
  unfold after_personal.
  destruct (or_empty (education rd)) as [|e es],
           (or_empty (work_experience rd)) as [|x xs];
  destruct (contains "university" q), (contains "school" q),
    (contains "degree" q), (contains "company" q), (contains "employer" q),
    (contains "position" q), (contains "title" q), (contains "skill" q); cbn;
    (split;
     [ intros H; try discriminate H; repeat split; auto
     | intros H; try reflexivity; intuition discriminate ]).
Qed.

(** C10.  How the resolver signals "absent".  A personal-information
    block that matches returns at once, with the empty string when the
    resume lacks the fact (question "Email", no email key).  With no
    education entry the university/school and degree blocks do not return
    and the later keywords are still tried, and likewise the company and
    position blocks with no experience entry; so a question with
    "university" and "skill" and no education entry is answered with the
    first five skills joined by ", ".  The answer is [None] exactly when
    no block returns. *)
Theorem get_direct_answer_absent_signalling (question : string)
        (resume_data : ResumeDocument) :
  let q := lower question in
  let answer := get_direct_answer question resume_data in
  let education := or_empty (education resume_data) in
  let experience := or_empty (work_experience resume_data) in
  let skill_block : block string :=
    if contains "skill" q
    then Some (join ", " (firstn 5 (or_empty (skills resume_data)))) else None in
  (forall before k after,
      ["name"; "email"; "phone"; "linkedin"; "github"] = before ++ k :: after ->
      (forall k', In k' before -> contains k' q = false) ->
      contains k q = true ->
      dict_get k (or_empty (personal_info resume_data)) = None ->
      answer = Some "")
  /\ (mentions_personal q = false -> education = [] ->
      answer
      = ((if contains "company" q || contains "employer" q
          then first_entry_field experience "company" else None) >>
         (if contains "position" q || contains "title" q
          then first_entry_field experience "position" else None) >>
         skill_block >> None))
  /\ (mentions_personal q = false -> experience = [] ->
      answer
      = ((if contains "university" q || contains "school" q
          then first_entry_field education "institution" else None) >>
         (if contains "degree" q
          then first_entry_field education "degree" else None) >>
         skill_block >> None))
  /\ (mentions_personal q = false -> education = [] ->
      contains "university" q = true -> contains "skill" q = true ->
      experience = []
      \/ (contains "company" q = false /\ contains "employer" q = false
          /\ contains "position" q = false /\ contains "title" q = false) ->
      answer = Some (join ", " (firstn 5 (or_empty (skills resume_data)))))
  /\ (answer = None <->
      mentions_personal q = false
      /\ ((contains "university" q = false /\ contains "school" q = false)
          \/ education = [])
      /\ (contains "degree" q = false \/ education = [])
      /\ ((contains "company" q = false /\ contains "employer" q = false)
          \/ experience = [])
      /\ ((contains "position" q = false /\ contains "title" q = false)
          \/ experience = [])
      /\ contains "skill" q = false).
Proof.
  intros q answer edu experience skill_block.
  subst q answer edu experience skill_block.
  split; [|split; [|split; [|split]]].
  - intros before k after E Hb Hk Hmiss.
    rewrite (get_direct_answer_personal _ _ _ _ _ E Hb Hk).
    now rewrite (get_or_missing _ _ _ Hmiss).
  - intros Hp He. rewrite (get_direct_answer_after_personal _ _ Hp).
    unfold after_personal. rewrite He.
    destruct (contains "university" _ || contains "school" _),
      (contains "degree" _); reflexivity.
  - intros Hp Hx. rewrite (get_direct_answer_after_personal _ _ Hp).
    unfold after_personal. rewrite Hx.
    destruct (contains "university" _ || contains "school" _),
      (contains "degree" _), (contains "company" _ || contains "employer" _),
      (contains "position" _ || contains "title" _);
      cbn; try reflexivity;
      match goal with
      | |- context [first_entry_field ?entries _] => destruct entries
      end; reflexivity.
  - intros Hp He Hu Hs Hx. rewrite (get_direct_answer_after_personal _ _ Hp).
    unfold after_personal. rewrite He, Hu, Hs.
    destruct Hx as [-> | (-> & -> & -> & ->)];
      repeat match goal with
        | |- context [contains ?a ?b] => destruct (contains a b)
        end; reflexivity.
  - split.
    + intros H.
      destruct (mentions_personal (lower question)) eqn:Hp.
      * exfalso. unfold mentions_personal, any_in in Hp.
        apply existsb_exists in Hp as [k [Hin Hk]].
        assert (exists v, get_direct_answer question resume_data = Some v)
          as [v Hv]; [|rewrite Hv in H; discriminate H].
        unfold get_direct_answer.
        destruct (contains "name" (lower question)) eqn:E1; [cbn; eauto|].
        rewrite (contains_full_name _ E1).
        destruct (contains "email" (lower question)) eqn:E2; [cbn; eauto|].
        destruct (contains "phone" (lower question)) eqn:E3; [cbn; eauto|].
        destruct (contains "linkedin" (lower question)) eqn:E4; [cbn; eauto|].
        destruct (contains "github" (lower question)) eqn:E5; [cbn; eauto|].
        simpl in Hin. exfalso.
        repeat (destruct Hin as [<-|Hin]; [congruence|]). exact Hin.
      * split; [reflexivity|].
        rewrite (get_direct_answer_after_personal _ _ Hp) in H.
        apply after_personal_none, H.
    + intros [Hp H]. rewrite (get_direct_answer_after_personal _ _ Hp).
      apply after_personal_none, H.
Qed.

(** "Email" with no email key, "University and skills" and "University"
    with no education entry. *)
Lemma get_direct_answer_absent_signalling_witness :
  get_direct_answer "Email" sample_resume = Some ""
  /\ get_direct_answer "University and skills" sample_resume
     = Some "Python, Go, Rust, C++, Coq"
  /\ get_direct_answer "University" sample_resume = None.
Proof.
  pose proof (get_direct_answer_absent_signalling "Email" sample_resume)
    as (Ha & _).
  pose proof (get_direct_answer_absent_signalling
                "University and skills" sample_resume) as (_ & _ & _ & Hb & _).
  pose proof (get_direct_answer_absent_signalling "University" sample_resume)
    as (_ & _ & _ & _ & Hc).
  cbv zeta in Ha, Hb, Hc.
  split; [|split].
  - apply (Ha ["name"] "email" ["phone"; "linkedin"; "github"]).
    + reflexivity.
    + intros k' [<-|[]]. reflexivity.
    + reflexivity.
    + reflexivity.
  - apply Hb; try reflexivity.
    right. repeat split; reflexivity.
  - apply (proj2 Hc). repeat split; auto.
Defined.

End ResolverFacts.

(* ================================================================== *)
(** * Further properties: values, prompts and the form loop *)
(* ================================================================== *)

(** ** Pieces of text *)

Module TextFacts.
Import Py Re ResumeParser Notions Vocabulary ContainsFacts.

Local Notation "a +++ b" :=
  (String.append a b) (at level 60, right associativity).

Lemma append_empty_r (s : string) : s +++ "" = s.
Proof. induction s as [|c s IH]; cbn; [reflexivity | now rewrite IH]. Qed.

Lemma infix_refl s : infix s s.
Proof. exists "", "". cbn. now rewrite append_empty_r. Qed.

Lemma infix_trans a b c : infix a b -> infix b c -> infix a c.
Proof.
  intros (p1 & q1 & ->) (p2 & q2 & ->).
  exists (p2 +++ p1), (q1 +++ q2). now rewrite !append_assoc.
Qed.

Lemma infix_cons a c s : infix a s -> infix a (String c s).
Proof. intros (p & q & ->). exists (String c p), q. reflexivity. Qed.

Lemma infix_app_l a b c : infix a b -> infix a (c +++ b).
Proof.
  intros (pre & post & ->). exists (c +++ pre), post. now rewrite append_assoc.
Qed.

Lemma infix_app_r a b c : infix a b -> infix a (b +++ c).
Proof.
  intros (pre & post & ->). exists pre, (post +++ c). now rewrite !append_assoc.
Qed.

Lemma infix_empty s : infix "" s.
Proof. exists "", s. reflexivity. Qed.

Lemma contains_infix k s : contains k s = true <-> infix k s.
Proof.
  split.
  - induction s as [|c s IH].
    + destruct k; cbn; [intros _; exists "", ""; reflexivity | discriminate].
    + intros H. change (contains k (String c s))
        with (String.prefix k (String c s) || contains k s) in H.
      apply orb_true_iff in H as [H|H].
      * destruct (prefix_split _ _ H) as [r E]. exists "", r. exact E.
      * apply infix_cons, IH, H.
  - intros (p & q & ->). apply contains_append_l, contains_prefix, prefix_append.
Qed.

Lemma contains_in_infix k a b :
  contains k a = true -> infix a b -> contains k b = true.
Proof.
  intros H I. apply contains_infix. apply contains_infix in H.
  eapply infix_trans; eassumption.
Qed.

Lemma contains_empty s : contains "" s = true.
Proof. destruct s; reflexivity. Qed.

Lemma lower_append a b : lower (a +++ b) = lower a +++ lower b.
Proof. induction a as [|c a IH]; cbn; [reflexivity | now rewrite IH]. Qed.

Lemma infix_lower a b : infix a b -> infix (lower a) (lower b).
Proof.
  intros (p & q & ->). exists (lower p), (lower q).
  now rewrite !lower_append.
Qed.

Lemma any_in_infix keywords a b :
  infix a b -> any_in keywords a = true -> any_in keywords b = true.
Proof.
  intros I. unfold any_in. rewrite !existsb_exists.
  intros (k & Hk & Hc). exists k. split; [exact Hk|].
  eapply contains_in_infix; eassumption.
Qed.

Lemma any_in_false_in keywords k s :
  any_in keywords s = false -> In k keywords -> contains k s = false.
Proof.
  unfold any_in. intros H Hk. destruct (contains k s) eqn:E; [|reflexivity].
  assert (X : existsb (fun keyword => contains keyword s) keywords = true)
    by (apply existsb_exists; eauto).
  congruence.
Qed.

Lemma in_firstn {A} n (l : list A) x : In x (firstn n l) -> In x l.
Proof.
  revert l; induction n as [|n IH]; intros [|a l]; cbn; try tauto.
  intros [->|H]; auto.
Qed.

(** *** Trimming *)

Lemma lstrip_infix s : infix (lstrip s) s.
Proof.
  induction s as [|c s IH]; cbn; [apply infix_refl|].
  destruct (isspace c); [now apply infix_cons | apply infix_refl].
Qed.

Lemma rstrip_prefix s : exists post, s = rstrip s +++ post.
Proof.
  induction s as [|c s [post IH]]; cbn; [exists ""; reflexivity|].
  destruct (rstrip s) eqn:E.
  - destruct (isspace c); [exists (String c s) | exists s]; reflexivity.
  - exists post. cbn in *. congruence.
Qed.

Lemma rstrip_infix s : infix (rstrip s) s.
Proof. destruct (rstrip_prefix s) as [post E]. exists "", post. exact E. Qed.

Lemma strip_infix s : infix (strip s) s.
Proof.
  unfold strip. eapply infix_trans; [apply rstrip_infix | apply lstrip_infix].
Qed.

Lemma lstrip_head s :
  lstrip s = "" \/ exists c r, lstrip s = String c r /\ isspace c = false.
Proof.
  induction s as [|c s IH]; cbn; [now left|].
  destruct (isspace c) eqn:E; [exact IH | right; eauto].
Qed.

Lemma rstrip_keeps_head c s :
  isspace c = false -> exists r, rstrip (String c s) = String c r.
Proof.
  intros H. cbn. destruct (rstrip s); [rewrite H|]; eauto.
Qed.

Lemma rstrip_idem s : rstrip (rstrip s) = rstrip s.
Proof.
  induction s as [|c s IH]; cbn; [reflexivity|].
  destruct (rstrip s) as [|d r] eqn:E.
  - destruct (isspace c) eqn:Ec; cbn; [reflexivity | now rewrite Ec].
  - cbn in IH |- *. now rewrite IH.
Qed.

Lemma lstrip_fixed c r : isspace c = false -> lstrip (String c r) = String c r.
Proof. intros H. cbn. now rewrite H. Qed.

Lemma strip_idem s : strip (strip s) = strip s.
Proof.
  unfold strip. destruct (lstrip_head s) as [E|(c & r & E & Hc)]; rewrite E.
  - reflexivity.
  - destruct (rstrip_keeps_head c r Hc) as [r' Er]. rewrite Er.
    rewrite (lstrip_fixed c r' Hc), <- Er. apply rstrip_idem.
Qed.

Lemma rstrip_append_fixed a b :
  rstrip b = b -> b <> "" -> rstrip (a +++ b) = a +++ b.
Proof.
  intros F N. induction a as [|c a IH]; cbn [String.append rstrip]; [exact F|].
  rewrite IH. destruct (a +++ b) eqn:E; [|reflexivity].
  destruct a; [cbn in E; congruence | discriminate].
Qed.

(** A text made of a first character that is not a blank, anything, and
    a trimmed non-empty tail is left as it is by [strip]. *)
Lemma strip_between c a middle tail :
  isspace c = false -> rstrip tail = tail -> tail <> "" ->
  strip (String c a +++ middle +++ tail) = String c a +++ middle +++ tail.
Proof.
  intros Hc Ht Nt. unfold strip. cbn [String.append].
  rewrite lstrip_fixed by exact Hc.
  change (String c (a +++ middle +++ tail)) with (String c a +++ middle +++ tail).
  apply rstrip_append_fixed.
  - now apply rstrip_append_fixed.
  - destruct middle; [exact Nt | discriminate].
Qed.

(** *** Splitting *)

Lemma split_head sep s :
  exists w ws post, split sep s = w :: ws /\ s = w +++ post.
Proof.
  induction s as [|c s (w & ws & post & E & Es)]; cbn.
  - exists "", [], "". split; reflexivity.
  - destruct (Ascii.eqb c sep).
    + exists "", (split sep s), (String c s). split; reflexivity.
    + rewrite E. exists (String c w), ws, post. cbn. now rewrite <- Es.
Qed.

Lemma split_infix sep s line : In line (split sep s) -> infix line s.
Proof.
  revert line; induction s as [|c s IH]; intros line; cbn.
  - intros [<-|[]]. apply infix_refl.
  - destruct (Ascii.eqb c sep).
    + intros [<-|H]; [exists "", (String c s); reflexivity|].
      now apply infix_cons, IH.
    + destruct (split_head sep s) as (w & ws & post & E & Es). rewrite E in *.
      intros [<-|H].
      * exists "", post. cbn. now rewrite <- Es.
      * apply infix_cons, IH. now right.
Qed.






(** *** Tests on every character *)

Lemma all_chars_append p a b :
  all_chars p (a +++ b) = all_chars p a && all_chars p b.
Proof.
  induction a as [|c a IH]; cbn; [reflexivity|].
  now rewrite IH, andb_assoc.
Qed.

Lemma all_chars_infix p a b : infix a b -> all_chars p b = true -> all_chars p a = true.
Proof.
  intros (pre & post & ->). rewrite !all_chars_append, !andb_true_iff. tauto.
Qed.

Lemma all_chars_ext p q s :
  (forall c, p c = q c) -> all_chars p s = all_chars q s.
Proof. intros E. induction s as [|c s IH]; cbn; [reflexivity | now rewrite E, IH]. Qed.

Lemma all_chars_impl p q s :
  (forall c, p c = true -> q c = true) ->
  all_chars p s = true -> all_chars q s = true.
Proof.
  intros E. induction s as [|c s IH]; cbn; [reflexivity|].
  rewrite !andb_true_iff. intros [A B]. auto.
Qed.


Lemma count_chars_append p a b :
  count_chars p (a +++ b) = count_chars p a + count_chars p b.
Proof. induction a as [|c a IH]; cbn; [reflexivity | rewrite IH; lia]. Qed.

Lemma count_all p s : all_chars p s = true -> count_chars p s = String.length s.
Proof.
  induction s as [|c s IH]; cbn; [reflexivity|].
  rewrite andb_true_iff. intros [-> H]. now rewrite IH.
Qed.

Lemma count_none p q s :
  (forall c, q c = true -> p c = false) ->
  all_chars q s = true -> count_chars p s = 0.
Proof.
  intros E. induction s as [|c s IH]; cbn; [reflexivity|].
  rewrite andb_true_iff. intros [A H]. now rewrite (E _ A), IH.
Qed.

(** A test that holds of each of the 256 characters holds of all. *)
Lemma in_all_ascii c : In c all_ascii.
Proof.
  unfold all_ascii. rewrite <- (ascii_nat_embedding c).
  apply in_map, in_seq. pose proof (nat_ascii_bounded c). lia.
Qed.

Lemma forall_ascii (p : ascii -> bool) :
  forallb p all_ascii = true -> forall c, p c = true.
Proof. intros H c. eapply forallb_forall in H; [exact H | apply in_all_ascii]. Qed.

Ltac by_chars := apply forall_ascii; vm_compute; reflexivity.

Lemma bool_eqb_eq a b : Bool.eqb a b = true -> a = b.
Proof. apply Bool.eqb_prop. Qed.


End TextFacts.

(** ** What a match of a pattern looks like *)

Module RegexFacts.
Import Py Re ResumeParser Notions Vocabulary ContainsFacts TextFacts.

Local Notation "a +++ b" :=
  (String.append a b) (at level 60, right associativity).

Lemma match_text_sound ic t prev s p s' :
  match_text ic t prev s = Some (p, s') ->
  exists w, s = w +++ s' /\ text_matches ic t w = true.
Proof.
  revert prev s; induction t as [|a t IH]; intros prev s; cbn.
  - intros [= <- <-]. exists "". split; reflexivity.
  - destruct s as [|c s]; [discriminate|].
    destruct (chr_eq ic a c) eqn:E; [|discriminate].
    intros H. destruct (IH _ _ H) as (w & -> & Hw).
    exists (String c w). cbn. rewrite E. auto.
Qed.

Lemma match_rep_stop ic cls lo hi prev s (k : cont) rest :
  (if Nat.eqb lo 0 then k prev s else None) = Some rest ->
  exists w s' p,
    s = w +++ s' /\ all_chars (class_has ic cls) w = true
    /\ lo <= String.length w
    /\ match hi with Some h => String.length w <= h | None => True end
    /\ k p s' = Some rest.
Proof.
  destruct (Nat.eqb_spec lo 0) as [->|]; [|discriminate].
  intros H. exists "", s, prev. cbn.
  split; [reflexivity|]. split; [reflexivity|]. split; [lia|].
  split; [|exact H]. destruct hi; [lia | exact I].
Qed.

Lemma match_rep_sound ic cls s :
  forall lo hi prev (k : cont) rest,
    match_rep ic cls lo hi prev s k = Some rest ->
    exists w s' p,
      s = w +++ s' /\ all_chars (class_has ic cls) w = true
      /\ lo <= String.length w
      /\ match hi with Some h => String.length w <= h | None => True end
      /\ k p s' = Some rest.
Proof.
  induction s as [|c s IH]; intros lo hi prev k rest; cbn [match_rep]; cbv zeta.
  - apply match_rep_stop.
  - destruct (class_has ic cls c && may_repeat hi) eqn:E;
      [|apply match_rep_stop].
    destruct (match_rep ic cls (pred lo) (option_map pred hi) (Some c) s k)
      as [r|] eqn:M; [|apply match_rep_stop].
    intros [= ->]. apply andb_true_iff in E as [Ec Eh].
    destruct (IH _ _ _ _ _ M) as (w & s' & p & -> & Hw & Hlo & Hhi & Hk).
    exists (String c w), s', p. cbn. rewrite Ec, Hw.
    split; [reflexivity|]. split; [reflexivity|]. split; [lia|].
    split; [|exact Hk].
    destruct hi as [[|h]|]; cbn in *; [discriminate | lia | exact I].
Qed.

(** What the matcher consumes is a word of the pattern. *)
Lemma rmatch_sound ic r :
  forall prev s (k : cont) rest,
    rmatch ic r prev s k = Some rest ->
    exists w s' p, s = w +++ s' /\ in_lang ic r w /\ k p s' = Some rest.
Proof.
  induction r as [t|cls|cls lo hi| |r1 IH1 r2 IH2|r1 IH1 r2 IH2];
    intros prev s k rest; cbn [rmatch in_lang].
  - destruct (match_text ic t prev s) as [[p s']|] eqn:E; [|discriminate].
    intros H. destruct (match_text_sound _ _ _ _ _ _ E) as (w & -> & Hw).
    exists w, s', p. auto.
  - destruct s as [|c s]; [discriminate|].
    destruct (class_has ic cls c) eqn:E; [|discriminate].
    intros H. exists (String c ""), s, (Some c). cbn. eauto 6.
  - intros H. destruct (match_rep_sound _ _ _ _ _ _ _ _ H)
      as (w & s' & p & -> & A & B & C & D).
    exists w, s', p. auto.
  - destruct (xorb _ _); [|discriminate].
    intros H. exists "", s, prev. auto.
  - intros H. destruct (IH1 _ _ _ _ H) as (w1 & s1 & p1 & -> & L1 & H1).
    destruct (IH2 _ _ _ _ H1) as (w2 & s2 & p2 & -> & L2 & H2).
    exists (w1 +++ w2), s2, p2. rewrite append_assoc. eauto 8.
  - destruct (rmatch ic r1 prev s k) as [x|] eqn:E.
    + intros [= ->]. destruct (IH1 _ _ _ _ E) as (w & s' & p & -> & L & H).
      exists w, s', p. auto.
    + intros H. destruct (IH2 _ _ _ _ H) as (w & s' & p & -> & L & H').
      exists w, s', p. auto.
Qed.

Lemma append_length (a b : string) :
  String.length (a +++ b) = String.length a + String.length b.
Proof. induction a as [|c a IH]; cbn; [reflexivity | now rewrite IH]. Qed.

Lemma substring_prefix w s' :
  String.substring 0 (String.length w) (w +++ s') = w.
Proof.
  induction w as [|c w IH]; cbn.
  - destruct s'; reflexivity.
  - now rewrite IH.
Qed.

Lemma match_here_sound ic r prev s g :
  match_here ic r prev s = Some g ->
  in_lang ic r g /\ exists s', s = g +++ s'.
Proof.
  unfold match_here.
  destruct (rmatch ic r prev s (fun _ rest => Some rest)) as [rest|] eqn:E;
    [|discriminate].
  destruct (rmatch_sound _ _ _ _ _ _ E) as (w & s' & p & -> & L & [= ->]).
  rewrite append_length.
  replace (String.length w + String.length rest - String.length rest)
    with (String.length w) by lia.
  rewrite substring_prefix. intros [= <-]. eauto.
Qed.

(** A match found by [search] is a word of the pattern and a piece of
    the subject. *)
Lemma search_sound r text ic m :
  search r text ic = Some m -> in_lang ic r (group m) /\ infix (group m) text.
Proof.
  intros H. apply PhoneFacts.search_from_sound in H as (pre & suf & -> & _ & H).
  apply match_here_sound in H as (L & s' & ->).
  split; [exact L|]. exists pre, s'. reflexivity.
Qed.

Lemma search_group_sound r text ic v :
  option_map group (search r text ic) = Some v ->
  in_lang ic r v /\ infix v text.
Proof.
  destruct (search r text ic) as [m|] eqn:E; [|discriminate].
  intros [= <-]. now apply search_sound.
Qed.

(** *** The character classes of the program's patterns *)

Lemma class_digit ic c : class_has ic [Digit] c = isdigit c.
Proof.
  apply bool_eqb_eq. revert c. destruct ic; by_chars.
Qed.

Lemma class_space ic c : class_has ic [Space] c = isspace c.
Proof. apply bool_eqb_eq. revert c. destruct ic; by_chars. Qed.

Lemma class_word_dash ic c :
  class_has ic [Word; Chr "-"] c = is_word c || Ascii.eqb c "-".
Proof. apply bool_eqb_eq. revert c. destruct ic; by_chars. Qed.

Lemma class_email_local c :
  class_has false [Rng "A" "Z"; Rng "a" "z"; Rng "0" "9"; Chr "."; Chr "_";
                   Chr "%"; Chr "+"; Chr "-"] c
  = is_alnum c || one_of "._%+-" c.
Proof. apply bool_eqb_eq. revert c. by_chars. Qed.

Lemma class_email_domain c :
  class_has false [Rng "A" "Z"; Rng "a" "z"; Rng "0" "9"; Chr "."; Chr "-"] c
  = is_alnum c || one_of ".-" c.
Proof. apply bool_eqb_eq. revert c. by_chars. Qed.

Lemma class_email_tld c :
  class_has false [Rng "A" "Z"; Chr "|"; Rng "a" "z"] c
  = is_letter c || Ascii.eqb c "|".
Proof. apply bool_eqb_eq. revert c. by_chars. Qed.

Lemma lower_char_digit c : isdigit (lower_char c) = true -> lower_char c = c.
Proof.
  intros H. apply Ascii.eqb_eq. revert H.
  generalize (forall_ascii
                (fun c => implb (isdigit (lower_char c))
                                (Ascii.eqb (lower_char c) c))
                ltac:(vm_compute; reflexivity) c).
  cbn beta. destruct (isdigit (lower_char c)); cbn; auto. discriminate.
Qed.

Lemma chr_eq_digit ic a c : isdigit a = true -> chr_eq ic a c = true -> c = a.
Proof.
  intros Da. unfold chr_eq. rewrite orb_true_iff, andb_true_iff, !Ascii.eqb_eq.
  intros [E|[_ E]]; [auto|].
  assert (La : lower_char a = a).
  { apply lower_char_digit.
    generalize (forall_ascii (fun a => implb (isdigit a) (isdigit (lower_char a)))
                             ltac:(vm_compute; reflexivity) a).
    cbn beta. rewrite Da. auto. }
  rewrite La in E. symmetry. rewrite <- (lower_char_digit c); congruence.
Qed.

Lemma space_no_digit c : isspace c = true -> isdigit c = false.
Proof.
  generalize (forall_ascii (fun c => implb (isspace c) (negb (isdigit c)))
                           ltac:(vm_compute; reflexivity) c).
  cbn beta. destruct (isspace c), (isdigit c); cbn; auto.
Qed.

(** *** Literals *)

Lemma text_matches_exact t w : text_matches false t w = true -> w = t.
Proof.
  revert w; induction t as [|a t IH]; intros [|c w]; cbn; try discriminate; auto.
  unfold chr_eq. rewrite andb_false_l, orb_false_r, andb_true_iff, Ascii.eqb_eq.
  intros [-> H]. f_equal. auto.
Qed.

Lemma text_matches_lower ic t w :
  text_matches ic t w = true -> lower w = lower t.
Proof.
  revert w; induction t as [|a t IH]; intros [|c w]; cbn; try discriminate; auto.
  rewrite andb_true_iff. intros [E H]. rewrite (IH _ H). f_equal.
  unfold chr_eq in E. rewrite orb_true_iff, andb_true_iff, !Ascii.eqb_eq in E.
  destruct E as [->|[_ E]]; congruence.
Qed.

Lemma text_matches_digits ic t w :
  all_chars isdigit t = true -> text_matches ic t w = true -> w = t.
Proof.
  revert w; induction t as [|a t IH]; intros [|c w]; cbn; try discriminate; auto.
  rewrite !andb_true_iff. intros [Da Dt] [E H].
  rewrite (chr_eq_digit _ _ _ Da E), (IH _ Dt H). reflexivity.
Qed.

Lemma dash_text ic t : text_matches ic "-" t = true -> t = "-".
Proof.
  destruct t as [|c [|]]; cbn; try discriminate.
  - rewrite andb_true_r. intros H. f_equal. apply Ascii.eqb_eq. revert H.
    generalize (forall_ascii
                  (fun c => implb (chr_eq true "-" c) (Ascii.eqb c "-"))
                  ltac:(vm_compute; reflexivity) c).
    cbn beta. destruct ic.
    + destruct (chr_eq true "-" c); cbn; auto. discriminate.
    + unfold chr_eq. rewrite andb_false_l, orb_false_r, Ascii.eqb_sym. auto.
  - now rewrite andb_false_r.
Qed.

(** *** The words of the program's patterns *)

Lemma digits_lang ic n w :
  in_lang ic (times n [Digit]) w ->
  String.length w = n /\ all_chars isdigit w = true.
Proof.
  cbn [in_lang times]. intros (A & B & C).
  rewrite (all_chars_ext _ _ _ (class_digit ic)) in A. split; [lia | exact A].
Qed.

Lemma spaces_lang ic w : in_lang ic (star [Space]) w -> all_chars isspace w = true.
Proof.
  cbn [in_lang star]. intros (A & _).
  now rewrite (all_chars_ext _ _ _ (class_space ic)) in A.
Qed.

Lemma century_year ic w :
  in_lang ic (century ;; times 2 [Digit])%re w -> is_year w.
Proof.
  cbn [in_lang century times]. intros (c & dd & -> & C & D & L2 & U2).
  assert (Ec : c = "19" \/ c = "20").
  { destruct C as [C|C]; apply text_matches_digits in C; auto. }
  rewrite (all_chars_ext _ _ _ (class_digit ic)) in D.
  destruct dd as [|a [|b [|]]]; cbn in L2, U2; try lia.
  unfold is_year.
  destruct Ec as [-> | ->]; cbn in D |- *; rewrite D; auto.
Qed.

Lemma year_lang ic w : in_lang ic year_pattern w -> is_year w.
Proof.
  unfold year_pattern. cbn [in_lang].
  intros (b1 & r1 & -> & -> & c & r2 & -> & C & dd & b2 & -> & D & ->).
  rewrite append_empty_r. cbn [String.append].
  apply (century_year ic). cbn [in_lang]. exists c, dd. auto.
Qed.

Lemma date_lang ic v :
  in_lang ic date_pattern v ->
  exists since gap1 gap2 till,
    v = since +++ gap1 +++ "-" +++ gap2 +++ till
    /\ is_year since /\ all_chars isspace gap1 = true
    /\ all_chars isspace gap2 = true
    /\ (is_year till \/ lower till = "present").
Proof.
  unfold date_pattern. cbn [in_lang].
  intros [H|H].
  - destruct H as (b1 & r1 & -> & -> & c & r2 & -> & C & dd & r3 & -> & D
                   & g1 & r4 & -> & G1 & t & r5 & -> & T & g2 & r6 & -> & G2
                   & c2 & dd2 & -> & C2 & D2).
    apply dash_text in T. subst t.
    exists (c +++ dd), g1, g2, (c2 +++ dd2).
    split; [cbn [String.append]; now rewrite !append_assoc|].
    split; [apply (century_year ic); cbn [in_lang]; eauto|].
    split; [exact (spaces_lang ic _ G1)|].
    split; [exact (spaces_lang ic _ G2)|].
    left. apply (century_year ic); cbn [in_lang]; eauto.
  - destruct H as (b1 & r1 & -> & -> & c & r2 & -> & C & dd & r3 & -> & D
                   & g1 & r4 & -> & G1 & t & r5 & -> & T & g2 & till & -> & G2
                   & P).
    apply dash_text in T. subst t.
    exists (c +++ dd), g1, g2, till.
    split; [cbn [String.append]; now rewrite !append_assoc|].
    split; [apply (century_year ic); cbn [in_lang]; eauto|].
    split; [exact (spaces_lang ic _ G1)|].
    split; [exact (spaces_lang ic _ G2)|].
    right. apply text_matches_lower in P. exact P.
Qed.

Lemma email_lang v :
  in_lang false email_pattern v ->
  exists local domain tld,
    v = local +++ "@" +++ domain +++ "." +++ tld
    /\ 1 <= String.length local /\ 1 <= String.length domain
    /\ 2 <= String.length tld
    /\ all_chars (fun c => is_alnum c || one_of "._%+-" c) local = true
    /\ all_chars (fun c => is_alnum c || one_of ".-" c) domain = true
    /\ all_chars (fun c => is_letter c || Ascii.eqb c "|") tld = true.
Proof.
  unfold email_pattern, plus, at_least. cbn [in_lang].
  intros (b1 & r1 & -> & -> & local & r2 & -> & (Ll & L1 & _)
          & at_ & r3 & -> & Hat & domain & r4 & -> & (Ld & D1 & _)
          & dot & r5 & -> & Hdot & tld & b2 & -> & (Lt & T2 & _) & ->).
  apply text_matches_exact in Hat, Hdot. subst at_ dot.
  rewrite (all_chars_ext _ _ _ class_email_local) in Ll.
  rewrite (all_chars_ext _ _ _ class_email_domain) in Ld.
  rewrite (all_chars_ext _ _ _ class_email_tld) in Lt.
  exists local, domain, tld. rewrite append_empty_r. cbn [String.append].
  repeat (split; [assumption || reflexivity|]). assumption.
Qed.

Lemma digit_phone_char s : all_chars isdigit s = true -> all_chars phone_char s = true.
Proof.
  apply all_chars_impl. intros c H. unfold phone_char. now rewrite H.
Qed.

Lemma space_phone_char s : all_chars isspace s = true -> all_chars phone_char s = true.
Proof.
  apply all_chars_impl. intros c H. unfold phone_char. rewrite H.
  now rewrite orb_true_r.
Qed.

Ltac count_norm :=
  repeat first [ rewrite count_chars_append | rewrite all_chars_append
               | progress cbn [count_chars all_chars String.append] ].

Lemma phone_lang v :
  in_lang false phone_dashed v \/ in_lang false phone_parenthesised v
  \/ in_lang false phone_digits v ->
  count_chars isdigit v = 10 /\ all_chars phone_char v = true.
Proof.
  intros [H|[H|H]].
  - unfold phone_dashed in H. cbn [in_lang] in H.
    destruct H as (b1 & r1 & -> & -> & d1 & r2 & -> & D1
                   & t1 & r3 & -> & T1 & d2 & r4 & -> & D2
                   & t2 & r5 & -> & T2 & d3 & b2 & -> & D3 & ->).
    apply text_matches_exact in T1, T2. subst.
    apply digits_lang in D1 as [L1 D1], D2 as [L2 D2], D3 as [L3 D3].
    rewrite append_empty_r. count_norm.
    rewrite !(count_all _ _ D1), !(count_all _ _ D2), !(count_all _ _ D3).
    rewrite (digit_phone_char _ D1), (digit_phone_char _ D2),
      (digit_phone_char _ D3).
    cbn. split; [lia | reflexivity].
  - unfold phone_parenthesised in H. cbn [in_lang] in H.
    destruct H as (b1 & r1 & -> & -> & t0 & r0 & -> & T0 & d1 & r2 & -> & D1
                   & t1 & r3 & -> & T1 & ws & r6 & -> & W
                   & d2 & r4 & -> & D2
                   & t2 & r5 & -> & T2 & d3 & b2 & -> & D3 & ->).
    apply text_matches_exact in T0, T1, T2. subst.
    apply digits_lang in D1 as [L1 D1], D2 as [L2 D2], D3 as [L3 D3].
    cbn [in_lang star] in W. destruct W as (W & _).
    rewrite (all_chars_ext _ _ _ (class_space false)) in W.
    rewrite append_empty_r. count_norm.
    rewrite !(count_all _ _ D1), !(count_all _ _ D2), !(count_all _ _ D3).
    rewrite (count_none isdigit isspace ws space_no_digit W).
    rewrite (digit_phone_char _ D1), (digit_phone_char _ D2),
      (digit_phone_char _ D3), (space_phone_char _ W).
    cbn. split; [lia | reflexivity].
  - unfold phone_digits in H. cbn [in_lang] in H.
    destruct H as (b1 & r1 & -> & -> & d1 & b2 & -> & D1 & ->).
    apply digits_lang in D1 as [L1 D1].
    rewrite append_empty_r. cbn [String.append].
    rewrite (count_all _ _ D1), (digit_phone_char _ D1). auto.
Qed.

Lemma link_lang host v :
  in_lang true (Text host ;; plus [Word; Chr "-"])%re v ->
  exists h handle,
    v = h +++ handle /\ lower h = lower host /\ 1 <= String.length handle
    /\ all_chars (fun c => is_word c || Ascii.eqb c "-") handle = true.
Proof.
  cbn [in_lang plus]. intros (h & handle & -> & T & A & L & _).
  apply text_matches_lower in T.
  rewrite (all_chars_ext _ _ _ (class_word_dash true)) in A.
  exists h, handle. auto.
Qed.

End RegexFacts.

(** ** The values of the sections *)

Module SectionValueFacts.
Import Py Re ResumeParser Notions Vocabulary ContainsFacts DictFacts.
Import SectionFacts EntryFacts ProjectFacts TextFacts RegexFacts.

Local Notation "a +++ b" :=
  (String.append a b) (at level 60, right associativity).

Ltac in_list := vm_compute; repeat (first [left; reflexivity | right]).

(** What every captured line is. *)
Lemma section_loop_lines header stop flag lines l :
  In l (section_loop header stop flag lines) ->
  exists line, In line lines /\ l = strip line
               /\ header (lower l) = false /\ stop (lower l) = false
               /\ nonempty l = true.
Proof.
  revert flag; induction lines as [|line rest IH]; intros flag; cbn; [tauto|].
  destruct (header (lower (strip line))) eqn:Hh.
  { intros H. destruct (IH _ H) as (x & Hx & R). exists x. split; [now right | exact R]. }
  destruct flag.
  - destruct (stop (lower (strip line))) eqn:Hs; [intros []|].
    destruct (nonempty (strip line)) eqn:Hn.
    + intros [<-|H].
      * exists line. repeat split; auto.
      * destruct (IH _ H) as (x & Hx & R). exists x. split; [now right | exact R].
    + intros H. destruct (IH _ H) as (x & Hx & R). exists x. split; [now right | exact R].
  - intros H. destruct (IH _ H) as (x & Hx & R). exists x. split; [now right | exact R].
Qed.


(** With no header line the loop captures nothing. *)
Lemma section_loop_no_header header stop lines :
  (forall line, In line lines -> header (lower (strip line)) = false) ->
  section_loop header stop false lines = [].
Proof.
  induction lines as [|line rest IH]; intros H; cbn; [reflexivity|].
  rewrite (H line (or_introl eq_refl)). apply IH. intros l Hl. apply H. now right.
Qed.

Lemma line_keyword_in_text (test : string -> bool) text line :
  (forall a b, infix a b -> test a = true -> test b = true) ->
  test (lower text) = false -> In line (split newline text) ->
  test (lower (strip line)) = false.
Proof.
  intros Mono Ht Hl. destruct (test (lower (strip line))) eqn:E; [|reflexivity].
  rewrite (Mono (lower (strip line)) (lower text)) in Ht; [discriminate| |exact E].
  apply infix_lower. eapply infix_trans; [apply strip_infix | eapply split_infix, Hl].
Qed.





(** X2.  A section whose keywords occur nowhere in the resume text, in
    any letter case, comes out empty: no education entry without an
    education keyword, no experience entry without an experience keyword,
    no skill without a skills keyword, no project without "project". *)
Theorem no_keyword_no_section (text : string) :
  (any_in education_keywords (lower text) = false -> _extract_education text = [])
  /\ (any_in experience_keywords (lower text) = false ->
      _extract_work_experience text = [])
  /\ (any_in skills_keywords (lower text) = false -> _extract_skills text = [])
  /\ (contains "project" (lower text) = false -> _extract_projects text = []).
Proof.
  repeat split; intros H.
  - unfold _extract_education, education_lines.
    rewrite section_loop_no_header; [reflexivity|].
    intros line Hl. eapply line_keyword_in_text; eauto.
    intros a b. apply any_in_infix.
  - unfold _extract_work_experience, experience_lines.
    rewrite section_loop_no_header; [reflexivity|].
    intros line Hl. eapply line_keyword_in_text; eauto.
    intros a b. apply any_in_infix.
  - unfold _extract_skills, skills_lines.
    rewrite section_loop_no_header; [reflexivity|].
    intros line Hl. eapply line_keyword_in_text; eauto.
    intros a b. apply any_in_infix.
  - unfold _extract_projects, project_lines.
    rewrite section_loop_no_header; [reflexivity|].
    intros line Hl. eapply (line_keyword_in_text (contains "project")); eauto.
    intros a b I Hc. eapply contains_in_infix; eassumption.
Qed.

Lemma last_value_in f lines v :
  last_value f lines = Some v -> exists l, In l lines /\ f l = Some v.
Proof.
  induction lines as [|l ls IH]; cbn; [discriminate|].
  destruct (last_value f ls) as [w|].
  - intros [= ->]. destruct (IH eq_refl) as (x & Hx & E). exists x. auto.
  - intros H. exists l. auto.
Qed.

(** X3.  The degree and the institution of the education entry are
    whole lines of the education section, so they hold no education
    keyword and no stop keyword.  Hence the institution is always a line
    with "institute" and never one with "university" or "college", and the
    degree is never a line with "degree", "bachelor", "master", "phd" or
    "doctorate": such lines are read as headers of the section. *)
Theorem education_fields_are_plain_lines (text : string) (entry : pydict string) :
  In entry (_extract_education text) ->
  (forall v, dict_get "degree" entry = Some v \/ dict_get "institution" entry = Some v ->
             In v (education_lines text)
             /\ any_in education_keywords (lower v) = false
             /\ any_in (experience_keywords ++ skills_keywords) (lower v) = false)
  /\ (forall v, dict_get "institution" entry = Some v ->
                contains "institute" (lower v) = true
                /\ contains "university" (lower v) = false
                /\ contains "college" (lower v) = false)
  /\ (forall v, dict_get "degree" entry = Some v ->
                any_in ["degree"; "bachelor"; "master"; "phd"; "doctorate"]
                       (lower v) = false).
Proof.
  unfold _extract_education. rewrite fold_education_step. intros Hin.
  destruct (single_entry "degree" "institution" "year"
              degree_of institution_of year_of (education_lines text))
    as (_ & _ & F); try discriminate.
  destruct (F entry Hin) as (_ & _ & Hd & Hi & _). clear F.
  assert (L : forall v, dict_get "degree" entry = Some v
                        \/ dict_get "institution" entry = Some v ->
                        In v (education_lines text)
                        /\ any_in education_keywords (lower v) = false
                        /\ any_in (experience_keywords ++ skills_keywords)
                                  (lower v) = false).
  { intros v [H|H].
    - rewrite Hd in H. apply last_value_in in H as (l & Hl & E).
      unfold degree_of in E. destruct (existsb _ _); [|discriminate].
      injection E as <-. split; [exact Hl|].
      apply section_loop_lines in Hl as (_ & _ & _ & A & B & _). auto.
    - rewrite Hi in H. apply last_value_in in H as (l & Hl & E).
      unfold institution_of in E. destruct (_ || _); [|discriminate].
      injection E as <-. split; [exact Hl|].
      apply section_loop_lines in Hl as (_ & _ & _ & A & B & _). auto. }
  split; [exact L|]. split.
  - intros v H. destruct (L v (or_intror H)) as (_ & A & _).
    pose proof (any_in_false_in _ "university" _ A ltac:(cbn; auto)) as U.
    pose proof (any_in_false_in _ "college" _ A ltac:(cbn; auto)) as C.
    rewrite Hi in H. apply last_value_in in H as (l & Hl & E).
    unfold institution_of in E.
    destruct (contains "university" (lower l) || contains "college" (lower l)
              || contains "institute" (lower l)) eqn:T; [|discriminate].
    injection E as <-. rewrite U, C in T. cbn in T. auto.
  - intros v H. destruct (L v (or_introl H)) as (_ & A & _).
    unfold any_in. cbn [existsb].
    rewrite (any_in_false_in _ "degree" _ A), (any_in_false_in _ "bachelor" _ A),
      (any_in_false_in _ "master" _ A), (any_in_false_in _ "phd" _ A),
      (any_in_false_in _ "doctorate" _ A) by (cbn; auto 12).
    reflexivity.
Qed.

(** The education entry of the sample text. *)
Lemma education_fields_are_plain_lines_witness :
  In [("degree", "M.S. Physics, MIT Institute"); ("year", "2010");
      ("institution", "M.S. Physics, MIT Institute")]
     (_extract_education two_degrees_text)
  /\ In "M.S. Physics, MIT Institute" (education_lines two_degrees_text)
  /\ contains "university" (lower "M.S. Physics, MIT Institute") = false.
Proof.
  assert (H : In [("degree", "M.S. Physics, MIT Institute"); ("year", "2010");
                  ("institution", "M.S. Physics, MIT Institute")]
                 (_extract_education two_degrees_text)) by in_list.
  split; [exact H|].
  destruct (education_fields_are_plain_lines two_degrees_text _ H)
    as (L & I & _).
  split.
  - exact (proj1 (L "M.S. Physics, MIT Institute" (or_introl eq_refl))).
  - exact (proj1 (proj2 (I "M.S. Physics, MIT Institute" eq_refl))).
Defined.

(** X4.  The position and the company of the experience entry are whole
    lines of the experience section: they hold no experience keyword
    ("work", "position", "role", ...) and no education or skills
    keyword. *)
Theorem experience_fields_are_plain_lines (text : string) (entry : pydict string) :
  In entry (_extract_work_experience text) ->
  forall v, dict_get "position" entry = Some v \/ dict_get "company" entry = Some v ->
            In v (experience_lines text)
            /\ any_in experience_keywords (lower v) = false
            /\ any_in (education_keywords ++ skills_keywords) (lower v) = false.
Proof.
  unfold _extract_work_experience. rewrite fold_experience_step. intros Hin.
  destruct (single_entry "position" "company" "duration"
              position_of company_of duration_of (experience_lines text))
    as (_ & _ & F); try discriminate.
  destruct (F entry Hin) as (_ & _ & Hp & Hc & _). clear F.
  intros v [H|H].
  - rewrite Hp in H. apply last_value_in in H as (l & Hl & E).
    unfold position_of in E. destruct (any_in _ _); [|discriminate].
    injection E as <-. split; [exact Hl|].
    apply section_loop_lines in Hl as (_ & _ & _ & A & B & _). auto.
  - rewrite Hc in H. apply last_value_in in H as (l & Hl & E).
    unfold company_of in E. destruct (_ || _); [|discriminate].
    injection E as <-. split; [exact Hl|].
    apply section_loop_lines in Hl as (_ & _ & _ & A & B & _). auto.
Qed.

(** The experience entry of the sample text. *)
Lemma experience_fields_are_plain_lines_witness :
  In [("position", "Data Analyst"); ("company", "Acme Inc 2015 - 2018");
      ("duration", "2015 - 2018")]
     (_extract_work_experience two_degrees_text)
  /\ In "Data Analyst" (experience_lines two_degrees_text)
  /\ any_in experience_keywords (lower "Data Analyst") = false.
Proof.
  assert (H : In [("position", "Data Analyst");
                  ("company", "Acme Inc 2015 - 2018");
                  ("duration", "2015 - 2018")]
                 (_extract_work_experience two_degrees_text)) by in_list.
  split; [exact H|].
  destruct (experience_fields_are_plain_lines two_degrees_text _ H
              "Data Analyst" (or_introl eq_refl)) as (L & K & _).
  split; [exact L | exact K].
Defined.

Lemma pair_up_values lines project k v :
  In project (pair_up lines) -> dict_get k project = Some v -> In v lines.
Proof.
  assert (G : forall n lines, List.length lines <= n ->
                In project (pair_up lines) -> dict_get k project = Some v ->
                In v lines).
  { induction n as [|n IH]; intros [|a [|b l]] Hn Hin Hg;
      cbn [pair_up In List.length] in *; try tauto; try lia.
    destruct Hin as [<-|Hin].
    - cbn [dict_get] in Hg.
      destruct (String.eqb "name" k); [injection Hg as <-; auto|].
      destruct (String.eqb "description" k); [injection Hg as <-; auto|].
      discriminate.
    - right. right. apply (IH l); auto. lia. }
  now apply (G (List.length lines)).
Qed.

(** X5.  Every value of a project, name or description, is a whole line
    of the projects section: it does not hold "project" in any letter
    case, nor any education, experience or skills keyword. *)
Theorem project_fields_are_plain_lines
        (text : string) (project : pydict string) (key v : string) :
  In project (_extract_projects text) ->
  dict_get key project = Some v ->
  In v (project_lines text)
  /\ contains "project" (lower v) = false
  /\ any_in (education_keywords ++ experience_keywords ++ skills_keywords)
            (lower v) = false.
Proof.
  unfold _extract_projects.
  rewrite (proj1 (project_loop_pairs _ (project_lines_nonempty text))).
  intros Hin Hg. pose proof (pair_up_values _ _ _ _ Hin Hg) as Hl.
  split; [exact Hl|].
  apply section_loop_lines in Hl as (_ & _ & _ & A & B & _). auto.
Qed.

(** The project of the sample text. *)
Lemma project_fields_are_plain_lines_witness :
  In [("name", "Spec"); ("description", "A verified parser")]
     (_extract_projects two_degrees_text)
  /\ In "A verified parser" (project_lines two_degrees_text)
  /\ contains "project" (lower "A verified parser") = false.
Proof.
  assert (H : In [("name", "Spec"); ("description", "A verified parser")]
                 (_extract_projects two_degrees_text)) by in_list.
  split; [exact H|].
  destruct (project_fields_are_plain_lines two_degrees_text _ "description"
              "A verified parser" H eq_refl) as (L & K & _).
  split; [exact L | exact K].
Defined.

(** X6.  The year of the education entry is four digits that begin with
    19 or 20, and it is a piece of a line of the education section. *)
Theorem education_year_shape (text : string) (entry : pydict string) (v : string) :
  In entry (_extract_education text) ->
  dict_get "year" entry = Some v ->
  is_year v /\ exists line, In line (education_lines text) /\ infix v line.
Proof.
  unfold _extract_education. rewrite fold_education_step. intros Hin.
  destruct (single_entry "degree" "institution" "year"
              degree_of institution_of year_of (education_lines text))
    as (_ & _ & F); try discriminate.
  destruct (F entry Hin) as (_ & _ & _ & _ & Hy). clear F.
  rewrite Hy. intros H. apply last_value_in in H as (l & Hl & E).
  unfold year_of in E. apply search_group_sound in E as [L I].
  split; [now apply (year_lang false) | eauto].
Qed.

(** The year of the sample text. *)
Lemma education_year_shape_witness :
  In [("degree", "M.S. Physics, MIT Institute"); ("year", "2010");
      ("institution", "M.S. Physics, MIT Institute")]
     (_extract_education two_degrees_text)
  /\ is_year "2010".
Proof.
  assert (H : In [("degree", "M.S. Physics, MIT Institute"); ("year", "2010");
                  ("institution", "M.S. Physics, MIT Institute")]
                 (_extract_education two_degrees_text)) by in_list.
  split; [exact H|].
  exact (proj1 (education_year_shape two_degrees_text _ "2010" H eq_refl)).
Defined.

(** X7.  The duration of the experience entry is a year, blanks, a
    hyphen, blanks, and then a year or the word "present" in any letter
    case; it is a piece of a line of the experience section. *)
Theorem experience_duration_shape (text : string) (entry : pydict string)
        (v : string) :
  In entry (_extract_work_experience text) ->
  dict_get "duration" entry = Some v ->
  (exists since gap1 gap2 till,
      v = since +++ gap1 +++ "-" +++ gap2 +++ till
      /\ is_year since /\ all_chars isspace gap1 = true
      /\ all_chars isspace gap2 = true
      /\ (is_year till \/ lower till = "present"))
  /\ exists line, In line (experience_lines text) /\ infix v line.
Proof.
  unfold _extract_work_experience. rewrite fold_experience_step.
  intros Hin.
  destruct (single_entry "position" "company" "duration"
              position_of company_of duration_of (experience_lines text))
    as (_ & _ & F); try discriminate.
  destruct (F entry Hin) as (_ & _ & _ & _ & Hy). clear F.
  rewrite Hy. intros H. apply last_value_in in H as (l & Hl & E).
  unfold duration_of in E. apply search_group_sound in E as [L I].
  split; [now apply (date_lang true) | eauto].
Qed.

(** The duration of the sample text. *)
Lemma experience_duration_shape_witness :
  In [("position", "Data Analyst"); ("company", "Acme Inc 2015 - 2018");
      ("duration", "2015 - 2018")]
     (_extract_work_experience two_degrees_text)
  /\ exists line,
       In line (experience_lines two_degrees_text) /\ infix "2015 - 2018" line.
Proof.
  assert (H : In [("position", "Data Analyst");
                  ("company", "Acme Inc 2015 - 2018");
                  ("duration", "2015 - 2018")]
                 (_extract_work_experience two_degrees_text)) by in_list.
  split; [exact H|].
  exact (proj2 (experience_duration_shape two_degrees_text _ "2015 - 2018"
                  H eq_refl)).
Defined.

End SectionValueFacts.

(** ** The values of the personal information *)

Module PersonalInfoFacts.
Import Py Re ResumeParser Notions Vocabulary ContainsFacts DictFacts.
Import TextFacts RegexFacts.

Local Notation "a +++ b" :=
  (String.append a b) (at level 60, right associativity).

Lemma dict_get_set_some_inv key k v d x :
  dict_get key (set_some k v d) = Some x ->
  (key = k /\ v = Some x) \/ dict_get key d = Some x.
Proof.
  destruct v as [s|]; cbn [set_some]; [|auto].
  destruct (String.eqb_spec k key) as [->|N].
  - rewrite dict_get_set_eq. intros [= ->]. auto.
  - rewrite dict_get_set_ne by congruence. auto.
Qed.

Lemma dict_get_set_group_inv key k m d x :
  dict_get key (set_group k m d) = Some x ->
  (key = k /\ option_map group m = Some x) \/ dict_get key d = Some x.
Proof.
  destruct m as [s|]; cbn [set_group option_map]; [|auto].
  destruct (String.eqb_spec k key) as [->|N].
  - rewrite dict_get_set_eq. intros [= ->]. auto.
  - rewrite dict_get_set_ne by congruence. auto.
Qed.

Lemma personal_info_inv text key v :
  dict_get key (_extract_personal_info text) = Some v ->
  (key = "name" /\ name_loop (firstn 5 (split newline text)) = Some v)
  \/ (key = "email" /\ option_map group (search email_pattern text false) = Some v)
  \/ (key = "phone" /\ phone_loop phone_patterns text = Some v)
  \/ (key = "linkedin"
      /\ option_map group (search linkedin_pattern text true) = Some v)
  \/ (key = "github"
      /\ option_map group (search github_pattern text true) = Some v).
Proof.
  unfold _extract_personal_info. intros H.
  apply dict_get_set_group_inv in H as [H|H]; [tauto|].
  apply dict_get_set_group_inv in H as [H|H]; [tauto|].
  apply dict_get_set_some_inv in H as [H|H]; [tauto|].
  apply dict_get_set_group_inv in H as [H|H]; [tauto|].
  apply dict_get_set_some_inv in H as [H|H]; [tauto|].
  discriminate H.
Qed.

Lemma personal_info_get text key :
  dict_get key (_extract_personal_info text)
  = if String.eqb key "name" then name_loop (firstn 5 (split newline text))
    else if String.eqb key "email"
         then option_map group (search email_pattern text false)
    else if String.eqb key "phone" then phone_loop phone_patterns text
    else if String.eqb key "linkedin"
         then option_map group (search linkedin_pattern text true)
    else if String.eqb key "github"
         then option_map group (search github_pattern text true)
    else None.
Proof.
  destruct (dict_get key (_extract_personal_info text)) as [v|] eqn:E.
  - pose proof (personal_info_inv _ _ _ E) as H.
    destruct H as [[-> H]|[[-> H]|[[-> H]|[[-> H]|[-> H]]]]]; cbn; auto.
  - unfold _extract_personal_info in E.
    destruct (String.eqb_spec key "name") as [->|N1].
    { rewrite !dict_get_set_group_ne, dict_get_set_some_ne, dict_get_set_group_ne
        in E by discriminate.
      rewrite dict_get_set_some_eq in E. now destruct (name_loop _). }
    destruct (String.eqb_spec key "email") as [->|N2].
    { rewrite !dict_get_set_group_ne, dict_get_set_some_ne in E by discriminate.
      rewrite dict_get_set_group_eq in E.
      destruct (search email_pattern text false); [discriminate | reflexivity]. }
    destruct (String.eqb_spec key "phone") as [->|N3].
    { rewrite !dict_get_set_group_ne in E by discriminate.
      rewrite dict_get_set_some_eq in E.
      destruct (phone_loop phone_patterns text); [discriminate | reflexivity]. }
    destruct (String.eqb_spec key "linkedin") as [->|N4].
    { rewrite dict_get_set_group_ne in E by discriminate.
      rewrite dict_get_set_group_eq in E.
      destruct (search linkedin_pattern text true); [discriminate | reflexivity]. }
    destruct (String.eqb_spec key "github") as [->|N5]; [|reflexivity].
    rewrite dict_get_set_group_eq in E.
    destruct (search github_pattern text true); [discriminate | reflexivity].
Qed.

Lemma name_loop_in lines v :
  name_loop lines = Some v ->
  exists l, In l lines /\ v = strip l /\ name_shape v = true
            /\ name_not_contact v = true.
Proof.
  induction lines as [|l ls IH]; cbn [name_loop]; [discriminate|].
  destruct (name_shape (strip l)) eqn:S1.
  - destruct (name_not_contact (strip l)) eqn:S2.
    + intros [= <-]. exists l. cbn. auto.
    + intros H. destruct (IH H) as (x & Hx & R). exists x. cbn. auto.
  - intros H. destruct (IH H) as (x & Hx & R). exists x. cbn. auto.
Qed.

Lemma name_shape_nonempty v : name_shape v = true -> v <> "".
Proof. intros H ->. discriminate H. Qed.

Lemma phone_loop_sound text v :
  phone_loop phone_patterns text = Some v ->
  (in_lang false phone_dashed v \/ in_lang false phone_parenthesised v
   \/ in_lang false phone_digits v) /\ infix v text.
Proof.
  cbn [phone_loop phone_patterns].
  destruct (search phone_dashed text false) as [m|] eqn:E1.
  { intros [= <-]. apply search_sound in E1. tauto. }
  destruct (search phone_parenthesised text false) as [m|] eqn:E2.
  { intros [= <-]. apply search_sound in E2. tauto. }
  destruct (search phone_digits text false) as [m|] eqn:E3; [|discriminate].
  intros [= <-]. apply search_sound in E3. tauto.
Qed.

(** X8.  [_extract_personal_info] writes no key but "name", "email",
    "phone", "linkedin" and "github", and every value it writes is a
    non-empty piece of the resume text, taken as it stands. *)
Theorem personal_info_comes_from_text (text key v : string) :
  dict_get key (_extract_personal_info text) = Some v ->
  In key ["name"; "email"; "phone"; "linkedin"; "github"]
  /\ infix v text /\ v <> "".
Proof.
  intros H. apply personal_info_inv in H.
  destruct H as [[-> H]|[[-> H]|[[-> H]|[[-> H]|[-> H]]]]].
  - split; [cbn; auto|].
    apply name_loop_in in H as (l & Hl & -> & S1 & _).
    split; [|now apply name_shape_nonempty].
    eapply infix_trans; [apply strip_infix|].
    eapply split_infix, in_firstn, Hl.
  - split; [cbn; auto|]. apply search_group_sound in H as [L I].
    split; [exact I|]. apply email_lang in L as (a & b & c & -> & La & _).
    destruct a; cbn in La; [lia | discriminate].
  - split; [cbn; auto|]. apply phone_loop_sound in H as [L I].
    split; [exact I|]. apply phone_lang in L as [C _]. intros ->. discriminate C.
  - split; [cbn; auto 6|]. apply search_group_sound in H as [L I].
    split; [exact I|]. apply link_lang in L as (h & a & -> & E & _).
    destruct h; [discriminate E | discriminate].
  - split; [cbn; auto 6|]. apply search_group_sound in H as [L I].
    split; [exact I|]. apply link_lang in L as (h & a & -> & E & _).
    destruct h; [discriminate E | discriminate].
Qed.

(** The e-mail address of the sample contact block. *)
Lemma personal_info_comes_from_text_witness :
  dict_get "email" (_extract_personal_info contact_text)
  = Some "jane.doe@mail.example.org"
  /\ infix "jane.doe@mail.example.org" contact_text.
Proof.
  assert (H : dict_get "email" (_extract_personal_info contact_text)
              = Some "jane.doe@mail.example.org") by (vm_compute; reflexivity).
  split; [exact H|].
  exact (proj1 (proj2 (personal_info_comes_from_text contact_text "email" _ H))).
Defined.

(** X9.  The e-mail value has the form local, "@", domain, ".", ending:
    the local part is one or more letters, digits or ". _ % + -", the
    domain one or more letters, digits, "." or "-", and the ending two or
    more characters that are letters or the bar "|" (the class of the
    pattern is written [A-Z|a-z]). *)
Theorem email_shape (text v : string) :
  dict_get "email" (_extract_personal_info text) = Some v ->
  exists local domain tld,
    v = local +++ "@" +++ domain +++ "." +++ tld
    /\ 1 <= String.length local /\ 1 <= String.length domain
    /\ 2 <= String.length tld
    /\ all_chars (fun c => is_alnum c || one_of "._%+-" c) local = true
    /\ all_chars (fun c => is_alnum c || one_of ".-" c) domain = true
    /\ all_chars (fun c => is_letter c || Ascii.eqb c "|") tld = true.
Proof.
  rewrite personal_info_get. cbn [String.eqb Ascii.eqb Bool.eqb].
  intros H. apply search_group_sound in H as [L _]. now apply email_lang.
Qed.

(** The e-mail address of the sample contact block. *)
Lemma email_shape_witness :
  dict_get "email" (_extract_personal_info contact_text)
  = Some "jane.doe@mail.example.org"
  /\ exists local domain tld,
       "jane.doe@mail.example.org" = local +++ "@" +++ domain +++ "." +++ tld
       /\ 2 <= String.length tld.
Proof.
  assert (H : dict_get "email" (_extract_personal_info contact_text)
              = Some "jane.doe@mail.example.org") by (vm_compute; reflexivity).
  split; [exact H|].
  destruct (email_shape contact_text _ H)
    as (local & domain & tld & E & _ & _ & T & _).
  exists local, domain, tld. split; [exact E | exact T].
Defined.

(** X10.  The phone value holds exactly ten digits, and nothing besides
    them but hyphens, parentheses and blanks. *)
Theorem phone_has_ten_digits (text v : string) :
  dict_get "phone" (_extract_personal_info text) = Some v ->
  count_chars isdigit v = 10 /\ all_chars phone_char v = true.
Proof.
  rewrite personal_info_get. cbn [String.eqb Ascii.eqb Bool.eqb].
  intros H. apply phone_loop_sound in H as [L _]. now apply phone_lang.
Qed.

(** The phone number of the sample contact block. *)
Lemma phone_has_ten_digits_witness :
  dict_get "phone" (_extract_personal_info contact_text) = Some "555-123-4567"
  /\ count_chars isdigit "555-123-4567" = 10.
Proof.
  assert (H : dict_get "phone" (_extract_personal_info contact_text)
              = Some "555-123-4567") by (vm_compute; reflexivity).
  split; [exact H|].
  exact (proj1 (phone_has_ten_digits contact_text _ H)).
Defined.



End PersonalInfoFacts.

(** ** The prompt, the model call and the fallback *)

Module GenerationFacts.
Import Py Re ResumeParser AIExpansion Generation Notions Vocabulary.
Import ContainsFacts TextFacts.

Local Notation "a +++ b" :=
  (String.append a b) (at level 60, right associativity).

Lemma template_loop_in templates q t :
  template_loop templates q = Some t -> exists k, In (k, t) templates.
Proof.
  induction templates as [|[k v] rest IH]; cbn; [discriminate|].
  destruct (contains k q).
  - intros [= ->]. eauto.
  - intros H. destruct (IH H) as [k' Hk]. eauto.
Qed.

Lemma fallback_templates_firstn skills :
  fallback_templates (firstn 5 skills) = fallback_templates skills.
Proof.
  unfold fallback_templates.
  rewrite !firstn_firstn. reflexivity.
Qed.

Lemma template_trimmed skills k t :
  In (k, t) (fallback_templates skills) -> strip t = t /\ nonempty t = true.
Proof.
  unfold fallback_templates. cbn [In].
  intros [H|[H|[H|[H|[H|[]]]]]]; injection H as <- <-.
  - split; [|reflexivity].
    apply (strip_between "B" "ased on my background in ");
      [reflexivity | reflexivity | discriminate].
  - split; [|reflexivity].
    apply (strip_between "M" "y key strengths include ");
      [reflexivity | reflexivity | discriminate].
  - split; [|reflexivity].
    apply (strip_between "I" " have experience in ");
      [reflexivity | reflexivity | discriminate].
  - split; reflexivity.
  - split; reflexivity.
Qed.

Lemma fallback_trimmed question resume_data :
  strip (_generate_fallback_answer question resume_data)
  = _generate_fallback_answer question resume_data
  /\ nonempty (_generate_fallback_answer question resume_data) = true.
Proof.
  unfold _generate_fallback_answer.
  destruct (template_loop _ _) as [t|] eqn:E.
  - apply template_loop_in in E as [k Hk]. eapply template_trimmed, Hk.
  - split; reflexivity.
Qed.

(** X12.  The fallback answer is never empty, and it is a function of the
    lower-cased question and of the first five skills alone: the personal
    information and the work experience the function reads do not reach
    the answer. *)
Theorem fallback_answer_uses_five_skills
        (question1 question2 : string) (resume1 resume2 : ResumeDocument) :
  lower question1 = lower question2 ->
  firstn 5 (or_empty (skills resume1)) = firstn 5 (or_empty (skills resume2)) ->
  _generate_fallback_answer question1 resume1
  = _generate_fallback_answer question2 resume2
  /\ nonempty (_generate_fallback_answer question1 resume1) = true.
Proof.
  intros Q S. split; [|apply fallback_trimmed].
  unfold _generate_fallback_answer.
  rewrite <- (fallback_templates_firstn (or_empty (skills resume1))).
  rewrite <- (fallback_templates_firstn (or_empty (skills resume2))).
  now rewrite Q, S.
Qed.

(** Another letter case, another candidate, a sixth skill left out: the
    same answer. *)
Lemma fallback_answer_uses_five_skills_witness :
  _generate_fallback_answer "Your strengths?" sample_resume
  = _generate_fallback_answer
      "YOUR STRENGTHS?"
      {| personal_info := None; education := None; work_experience := None;
         skills := Some ["Python"; "Go"; "Rust"; "C++"; "Coq"];
         projects := None; raw_text := None |}
  /\ _generate_fallback_answer "Your strengths?" sample_resume
     = "My key strengths include Python, Go, Rust, C++, Coq, which I have developed through my professional experience.".
Proof.
  split; [|reflexivity].
  exact (proj1 (fallback_answer_uses_five_skills
                  "Your strengths?" "YOUR STRENGTHS?" sample_resume _
                  eq_refl eq_refl)).
Defined.

Section Model.
Variable W : Type.
Variable chat : string -> io W (error + string).

(** X13.  [generate_answer] calls the model once, with the prompt of
    [_create_prompt], and always answers: with the trimmed content when
    the call succeeds, with the fallback answer, which is not empty, when
    anything in the call raises.  Either way the answer has no blank at
    either end. *)
Theorem generated_answer_is_trimmed
        (question : string) (resume_data : ResumeDocument) (context : string)
        (w : W) :
  let prompt := _create_prompt question resume_data context in
  let answer := fst (generate_answer W chat question resume_data context w) in
  strip answer = answer
  /\ snd (generate_answer W chat question resume_data context w)
     = snd (chat prompt w)
  /\ (forall content, fst (chat prompt w) = inr content -> answer = strip content)
  /\ (forall e, fst (chat prompt w) = inl e ->
                answer = _generate_fallback_answer question resume_data
                /\ nonempty answer = true).
Proof.
  cbv zeta. unfold generate_answer, bind.
  destruct (chat (_create_prompt question resume_data context) w) as [[e|content] w'];
    cbn [fst snd ret].
  - split; [apply fallback_trimmed|]. split; [reflexivity|].
    split; [discriminate|]. intros _ _. split; [reflexivity | apply fallback_trimmed].
  - split; [apply strip_idem|]. split; [reflexivity|].
    split; [now intros c [= <-] | discriminate].
Qed.

End Model.

(** X14.  The prompt holds the question and the context as they stand,
    and of the skills and the projects only the first ten and the first
    three reach it: two resumes that agree on these, on the personal
    information, the education and the work experience give the same
    prompt. *)
Theorem prompt_carries_question_and_limits
        (question context : string) (resume1 resume2 : ResumeDocument) :
  infix question (_create_prompt question resume1 context)
  /\ infix context (_create_prompt question resume1 context)
  /\ (or_empty (personal_info resume1) = or_empty (personal_info resume2) ->
      or_empty (education resume1) = or_empty (education resume2) ->
      or_empty (work_experience resume1) = or_empty (work_experience resume2) ->
      firstn 10 (or_empty (skills resume1)) = firstn 10 (or_empty (skills resume2)) ->
      firstn 3 (or_empty (projects resume1)) = firstn 3 (or_empty (projects resume2)) ->
      _create_prompt question resume1 context
      = _create_prompt question resume2 context).
Proof.
  split; [|split].
  - unfold _create_prompt. cbv zeta.
    do 2 apply infix_app_l. apply infix_app_l. apply infix_app_l.
    exists "". eexists. reflexivity.
  - unfold _create_prompt. cbv zeta.
    destruct context as [|c context]; [apply infix_empty|].
    cbn [nonempty]. apply infix_app_r.
    do 4 apply infix_app_l. exists "". eexists. reflexivity.
  - intros P E X S R. unfold _create_prompt. cbv zeta.
    rewrite P, E, X, S, R.
    replace (truthy (or_empty (projects resume1)))
      with (truthy (or_empty (projects resume2))); [reflexivity|].
    destruct (or_empty (projects resume1)), (or_empty (projects resume2));
      cbn in R |- *; congruence.
Qed.

End GenerationFacts.

(** ** Questions, values and the field loop *)

Module FormFacts.
Import Py Re ResumeParser AIExpansion Generation Forms Notions Vocabulary.
Import ContainsFacts DictFacts TextFacts.

Local Notation "a +++ b" :=
  (String.append a b) (at level 60, right associativity).

Lemma replaced_no_separator s :
  all_chars (fun c => negb (separator c))
            (replace_char "-" " " (replace_char "_" " " s)) = true.
Proof.
  induction s as [|c s IH]; cbn [replace_char all_chars]; [reflexivity|].
  rewrite IH, andb_true_r. revert c. by_chars.
Qed.

Lemma spaced_no_separator s :
  all_chars (fun c => negb (separator c)) (spaced s) = true.
Proof.
  unfold spaced. eapply all_chars_infix; [apply strip_infix|].
  apply replaced_no_separator.
Qed.

Lemma spaced_trimmed s : strip (spaced s) = spaced s.
Proof. apply strip_idem. Qed.

(** X15.  The question of an element is one of four texts: the trimmed
    label, the trimmed placeholder, the name or the id, the last two with
    "_" and "-" turned into blanks and then trimmed.  It has no blank at
    either end; it is empty only when all four are empty, so that a label
    of blanks does not hide the placeholder; and when it is taken from the
    name or the id it holds no "_" and no "-". *)
Theorem extracted_question_is_trimmed (element : element) :
  let label := strip (get_str (el_label element)) in
  let placeholder := strip (get_str (el_placeholder element)) in
  let name := spaced (get_str (el_name element)) in
  let id := spaced (get_str (el_id element)) in
  let question := extract_question_from_element element in
  strip question = question
  /\ In question [label; placeholder; name; id]
  /\ (question = "" <-> label = "" /\ placeholder = "" /\ name = "" /\ id = "")
  /\ (label = "" -> placeholder = "" ->
      all_chars (fun c => negb (separator c)) question = true).
Proof.
  cbv zeta. unfold extract_question_from_element.
  destruct (strip (get_str (el_label element))) as [|c1 l] eqn:E1;
    cbn [nonempty negb].
  2: { rewrite <- E1. split; [apply strip_idem|]. split; [cbn; auto|].
       rewrite E1. split; [|discriminate].
       split; [discriminate | intros [H _]; discriminate H]. }
  destruct (strip (get_str (el_placeholder element))) as [|c2 p] eqn:E2;
    cbn [nonempty negb].
  2: { rewrite <- E2. split; [apply strip_idem|]. split; [cbn; auto|].
       rewrite E2. split; [|discriminate].
       split; [discriminate | intros (_ & H & _); discriminate H]. }
  destruct (spaced (get_str (el_name element))) as [|c3 n] eqn:E3;
    cbn [nonempty negb].
  2: { rewrite <- E3. split; [apply spaced_trimmed|]. split; [cbn; auto|].
       split; [|intros _ _; apply spaced_no_separator].
       rewrite E3. split; [discriminate | intros (_ & _ & H & _); discriminate H]. }
  split; [apply spaced_trimmed|]. split; [cbn; auto|].
  split; [tauto | intros _ _; apply spaced_no_separator].
Qed.

Section Page.
Variable W : Type.
Variable chat : string -> io W (error + string).
Variable get_form_elements : io W (error + list element).
Variable fill_form_field : string -> string -> string -> io W bool.
Variable update_status : string -> io W unit.

Lemma default_value_source element resume_data v :
  get_default_value element resume_data = inr v ->
  v = ""
  \/ exists key, In key ["email"; "phone"; "name"]
                 /\ dict_get key (or_empty (personal_info resume_data)) = Some v.
Proof.
  unfold get_default_value. destruct (el_type element) as [t|]; [|discriminate].
  unfold get_or.
  destruct (String.eqb (lower t) "email").
  { destruct (dict_get "email" _) eqn:E; intros [= <-]; [right|left; reflexivity].
    exists "email". cbn; auto. }
  destruct (String.eqb (lower t) "tel").
  { destruct (dict_get "phone" _) eqn:E; intros [= <-]; [right|left; reflexivity].
    exists "phone". cbn; auto. }
  destruct (contains "name" _).
  { destruct (dict_get "name" _) eqn:E; intros [= <-]; [right|left; reflexivity].
    exists "name". cbn; auto. }
  intros [= <-]. now left.
Qed.

(** X16.  When the resume answers the question directly with a
    non-empty text, or the question is not abstract for the type of the
    element, [_get_field_value] leaves the world as it is (the model is
    not called), and the value is the direct answer, or a value of the
    personal information under "email", "phone" or "name", or empty.  A
    non-empty direct answer is returned whatever the element is; with no
    direct answer, an element without a type gives the empty value: the
    KeyError is caught. *)
Theorem field_value_without_model
        (question : string) (element : element) (resume_data : ResumeDocument)
        (w : W) :
  truthy_answer (get_direct_answer question resume_data) = true
  \/ (forall type, el_type element = Some type ->
                   is_abstract_question question type = false) ->
  let direct_answer := get_direct_answer question resume_data in
  let value := fst (_get_field_value W chat question element resume_data w) in
  snd (_get_field_value W chat question element resume_data w) = w
  /\ (forall answer, direct_answer = Some answer -> answer <> "" -> value = answer)
  /\ (truthy_answer direct_answer = false -> el_type element = None -> value = "")
  /\ (value = "" \/ direct_answer = Some value
      \/ exists key, In key ["email"; "phone"; "name"]
                     /\ dict_get key (or_empty (personal_info resume_data))
                        = Some value).
Proof.
  intros H. cbv zeta. unfold _get_field_value, field_value_body, bind.
  destruct (get_direct_answer question resume_data) as [[|c a]|] eqn:D;
    cbn [truthy_answer nonempty] in *.
  2: { cbn. split; [reflexivity|]. split; [now intros x [= <-]|].
       split; [discriminate | auto]. }
  all: destruct H as [H|H]; [discriminate H|].
  all: destruct (el_type element) as [t|] eqn:T;
    [ rewrite (H t eq_refl)
    | cbn; split; [reflexivity|]; split; [intros x [= <-]; congruence || discriminate|];
      split; auto ].
  all: cbn [ret fst snd].
  all: destruct (get_default_value element resume_data) as [e|v] eqn:G; cbn;
    (split; [reflexivity|]);
    (split; [try discriminate; intros x [= <-]; congruence|]);
    (split; [congruence|]); auto.
  all: apply default_value_source in G as [->|G]; auto.
Qed.

Lemma process_element_counts resume_data r element w :
  let r' := fst (process_element W chat fill_form_field update_status
                                 resume_data r element w) in
  total_fields r' = total_fields r /\ success r' = success r
  /\ filled_fields r <= filled_fields r'
  /\ tally r' <= tally r + (if hidden element then 0 else 1).
Proof.
  cbv zeta. unfold process_element, hidden, tally.
  destruct (el_visible element) as [[|]|]; cbn [ret fst].
  2: { repeat split; lia. }
  2: { cbn. rewrite length_app. cbn. repeat split; lia. }
  unfold bind.
  destruct (_get_field_value W chat _ element resume_data w) as [value w1].
  destruct (el_selector element) as [selector|].
  2: { cbn. rewrite length_app. cbn. repeat split; lia. }
  destruct (nonempty value).
  2: { cbn. repeat split; lia. }
  destruct (el_type element) as [type|].
  2: { cbn. rewrite length_app. cbn. repeat split; lia. }
  destruct (fill_form_field selector value type w1) as [[|] w2].
  - destruct (update_status _ w2) as [u w3]. cbn. repeat split; lia.
  - cbn. rewrite length_app. cbn. repeat split; lia.
Qed.

Lemma element_loop_counts resume_data form_elements :
  forall r w,
    let r' := fst (element_loop W chat fill_form_field update_status
                                resume_data r form_elements w) in
    total_fields r' = total_fields r /\ success r' = success r
    /\ filled_fields r <= filled_fields r'
    /\ tally r' <= tally r + List.length (filter (fun e => negb (hidden e))
                                                 form_elements).
Proof.
  induction form_elements as [|element rest IH]; intros r w; cbv zeta.
  - cbn. repeat split; lia.
  - cbn [element_loop]. unfold bind.
    pose proof (process_element_counts resume_data r element w) as P.
    cbv zeta in P.
    destruct (process_element W chat fill_form_field update_status
                              resume_data r element w) as [r1 w1].
    cbn [fst] in P. destruct P as (P1 & P2 & P3 & P4).
    specialize (IH r1 w1). cbv zeta in IH. destruct IH as (I1 & I2 & I3 & I4).
    cbn [filter]. destruct (hidden element); cbn [negb List.length] in *.
    all: repeat split; try congruence; lia.
Qed.

(** X17.  The counters [auto_fill_form] returns.  When the form finder
    raises, nothing is filled: the result is not a success and holds the
    one error "Form filling failed: ...".  Otherwise the result is a
    success, [total_fields] is the number of elements found, and the
    fields filled and the errors reported together are at most the
    elements not marked invisible, so at most [total_fields]: no element
    is counted twice.  This holds whatever the model, the page and the
    status line do. *)
Theorem auto_fill_form_counts (resume_data : ResumeDocument) (w : W) :
  let r := fst (auto_fill_form W chat get_form_elements fill_form_field
                               update_status resume_data w) in
  match fst (get_form_elements (snd (update_status "Analyzing form fields..." w)))
  with
  | inl e =>
      r = {| filled_fields := 0; total_fields := 0;
             errors := ["Form filling failed: " +++ str_error e];
             success := false |}
  | inr form_elements =>
      success r = true
      /\ total_fields r = List.length form_elements
      /\ filled_fields r + List.length (errors r)
         <= List.length (filter (fun e => negb (hidden e)) form_elements)
      /\ List.length (filter (fun e => negb (hidden e)) form_elements)
         <= total_fields r
  end.
Proof.
  cbv zeta. unfold auto_fill_form, bind.
  destruct (update_status "Analyzing form fields..." w) as [u w1]. cbn [snd].
  destruct (get_form_elements w1) as [[e|form_elements] w2]; cbn [fst].
  - reflexivity.
  - destruct (update_status _ w2) as [u2 w3].
    match goal with
    | |- context [element_loop _ _ _ _ ?rd ?r0 ?els ?w0] =>
        pose proof (element_loop_counts rd els r0 w0) as L
    end.
    cbv zeta in L.
    destruct (element_loop W chat fill_form_field update_status resume_data _
                           form_elements w3) as [r w4].
    cbn [fst] in L. destruct L as (L1 & L2 & L3 & L4).
    destruct (update_status _ w4) as [u3 w5]. cbn [fst ret].
    unfold tally in L4. cbn in L1, L2, L4.
    split; [exact L2|]. split; [exact L1|]. split; [lia|].
    rewrite L1. apply filter_length_le.
Qed.

End Page.

(** A direct answer, with a model that is down. *)
Lemma field_value_without_model_witness :
  truthy_answer (get_direct_answer "Full Name" sample_resume) = true
  /\ _get_field_value unit (fun _ w => (inl (PageError "down"), w))
                      "Full Name" name_field sample_resume tt
     = ("John Smith", tt).
Proof.
  split; [reflexivity|].
  pose proof (field_value_without_model
                unit (fun _ w => (inl (PageError "down"), w))
                "Full Name" name_field sample_resume tt
                (or_introl eq_refl)) as H.
  cbv zeta in H. destruct H as (Hw & Hv & _).
  specialize (Hv "John Smith" eq_refl ltac:(discriminate)).
  destruct (_get_field_value unit _ "Full Name" name_field sample_resume tt)
    as [value w'].
  cbn [fst snd] in Hw, Hv. now rewrite Hw, Hv.
Defined.

Section Trace.
Variable reply : list event -> string -> error + string.
Variable found : list event -> error + list element.
Variable fill_ok : list event -> string -> string -> string -> bool.







End Trace.

(** A run on a form of three elements with the model down: the name is
    filled, the invisible element and the one with no value are left
    alone. *)
Example logged_fill_sample :
  logged_fill (fun _ _ => inl (PageError "down"))
              (fun _ => inr [name_field; hidden_field; note_field])
              (fun _ _ _ _ => true) sample_resume
  = ({| filled_fields := 1; total_fields := 3; errors := [];
        success := true |},
     [Status "Analyzing form fields...";
      Status "Found 3 fields. Starting auto-fill...";
      Filled "#f1" "John Smith" "text";
      Status "Filled 1/3 fields";
      Status "Completed! Filled 1/3 fields"]).
Proof. vm_compute. reflexivity. Qed.

Lemma radio_loop_spec label_texts value :
  forall index,
    match radio_loop label_texts value index with
    | Some found =>
        exists i label_text,
          found = index + i /\ nth_error label_texts i = Some label_text
          /\ radio_match value label_text = true
          /\ forall j other, j < i -> nth_error label_texts j = Some other ->
                             radio_match value other = false
    | None => forall l, In l label_texts -> radio_match value l = false
    end.
Proof.
  induction label_texts as [|l rest IH]; intros index; cbn [radio_loop].
  - intros l [].
  - fold (radio_match value l). destruct (radio_match value l) eqn:M.
    + exists 0, l. split; [lia|]. split; [reflexivity|]. split; [exact M|].
      intros j other Hj. lia.
    + specialize (IH (S index)). destruct (radio_loop rest value (S index)).
      * destruct IH as (i & lt & -> & Hn & Hm & Hb).
        exists (S i), lt. split; [lia|]. split; [exact Hn|]. split; [exact Hm|].
        intros [|j] other Hj; cbn; [now intros [= <-]|].
        apply Hb. lia.
      * intros x [<-|Hx]; auto.
Qed.

(** X19.  [_select_radio_option] clicks the first radio button whose
    label text holds the lower-cased value or is held by it, and none when
    no label does.  A button with an empty label text matches every
    value, so no button after the first unlabelled one is ever clicked;
    and an empty value clicks the first button. *)
Theorem radio_choice_is_first_match (label_texts : list string) (value : string) :
  match _select_radio_option label_texts value with
  | Some i =>
      exists label_text,
        nth_error label_texts i = Some label_text
        /\ radio_match value label_text = true
        /\ forall j other, j < i -> nth_error label_texts j = Some other ->
                           radio_match value other = false
  | None => forall l, In l label_texts -> radio_match value l = false
  end
  /\ (forall i, nth_error label_texts i = Some "" ->
                exists j, j <= i /\ _select_radio_option label_texts value = Some j)
  /\ (value = "" -> label_texts <> [] ->
      _select_radio_option label_texts value = Some 0).
Proof.
  unfold _select_radio_option.
  pose proof (radio_loop_spec label_texts value 0) as S.
  split; [|split].
  - destruct (radio_loop label_texts value 0) as [k|]; [|exact S].
    destruct S as (i & lt & -> & R). exists lt. exact R.
  - intros i Hi.
    assert (M : radio_match value "" = true).
    { unfold radio_match. now rewrite (contains_empty (lower value)), orb_true_r. }
    destruct (radio_loop label_texts value 0) as [k|].
    + destruct S as (i' & lt & -> & Hn & Hm & Hb). exists i'. split; [|reflexivity].
      destruct (le_lt_dec i' i) as [L|L]; [exact L|].
      rewrite (Hb i "" L Hi) in M. discriminate.
    + rewrite (S "") in M; [discriminate|]. eapply nth_error_In, Hi.
  - intros -> N. destruct label_texts as [|l rest]; [congruence|].
    cbn. now rewrite contains_empty.
Qed.

End FormFacts.

(** ** From the parsed skills to the answer *)

Module AnswerFacts.
Import Py Re ResumeParser AIExpansion Notions Vocabulary.
Import ContainsFacts TextFacts SectionValueFacts.

Local Notation "a +++ b" :=
  (String.append a b) (at level 60, right associativity).




End AnswerFacts.
